(** * Politician test framework: the suite engine and its reporters

    A shallow embedding of [TestSuite] (the suite engine), of the
    functions around it ([parseFormat], [createReporter], the legacy
    export [arraysEqual]) and of the three built-in reporters, followed by
    the properties of the specification and further properties of the
    code.

    Conventions of the embedding.
    - A JavaScript string is the list of its UTF-16 code units, so that
      [length] is the [.length] of the source.
    - A JavaScript number is an IEEE-754 binary64 value ([spec_float] with
      [prec = 53], [emax = 1024]); the two counters of the suite and the
      array lengths are naturals (exact as long as they stay below 2^53).
    - Arrays, objects and functions carry the address that is their
      identity; plain values only (no getters, proxies, symbols or bigints,
      no cyclic structures).
    - An object literal is the list of its own properties, one entry for
      each key.
    - The reporter of a suite is one of the three built-in ones; the calls
      the suite makes on it are recorded in order, and what a reporter
      writes through [output] is the list of its lines.
    - What the environment supplies (the clock, the date, the arguments
      of the process, the texts of [String] and [JSON.stringify]) is a
      parameter of the definitions that use it; [JSON.stringify] gives a
      text or [undefined].  *)

From Stdlib Require Import List Bool Arith ZArith Lia String Ascii.
From Stdlib Require Import DecimalString DecimalNat SpecFloat Permutation.
Import ListNotations.

Set Implicit Arguments.
Set Warnings "-register-all".

(** ** Strings *)

Definition codeunit := N.
Definition jsstring := list codeunit.

(** An ASCII literal of the source, as code units. *)
Definition js (s : string) : jsstring :=
  map N_of_ascii (list_ascii_of_string s).

Definition jsstring_eqb (a b : jsstring) : bool :=
  if list_eq_dec N.eq_dec a b then true else false.

Definition SPACE : codeunit := 32%N.
Definition NEWLINE : codeunit := 10%N.

(** [' '.repeat(n)] and friends. *)
Definition repeat_string (s : jsstring) (n : nat) : jsstring :=
  List.concat (repeat s n).

(** [String(n)] for a number that is a natural. *)
Definition nat_toString (n : nat) : jsstring :=
  js (NilEmpty.string_of_uint (Nat.to_uint n)).

(** [s.split('\n')]: the pieces between the line feeds; the empty string
    gives one empty piece. *)
Fixpoint split_lines (s : jsstring) : list jsstring :=
  match s with
  | [] => [[]]
  | c :: rest =>
      if N.eqb c NEWLINE then [] :: split_lines rest
      else match split_lines rest with
           | l :: ls => (c :: l) :: ls
           | [] => [[c]]
           end
  end.

(** [pieces.join('\n')]. *)
Fixpoint join_lines (pieces : list jsstring) : jsstring :=
  match pieces with
  | [] => []
  | [p] => p
  | p :: ps => p ++ NEWLINE :: join_lines ps
  end.

(** [s.startsWith(prefix)] *)
Fixpoint startsWith (s prefix : jsstring) : bool :=
  match prefix, s with
  | [], _ => true
  | p :: prefix, c :: s => N.eqb c p && startsWith s prefix
  | _ :: _, [] => false
  end.

(** [s.split(sep)] for a separator of one code unit: the pieces between
    its occurrences. *)
Fixpoint split (sep : codeunit) (s : jsstring) : list jsstring :=
  match s with
  | [] => [[]]
  | c :: rest =>
      if N.eqb c sep then [] :: split sep rest
      else match split sep rest with
           | piece :: pieces => (c :: piece) :: pieces
           | [] => [[c]]
           end
  end.

(** The white space and the line terminators of the language, which
    [trim] strips: TAB, LF, VT, FF, CR, SP, NBSP, U+1680, U+2000 to
    U+200A, U+2028, U+2029, U+202F, U+205F, U+3000 and U+FEFF. *)
Definition is_white_space (c : codeunit) : bool :=
  existsb (N.eqb c)
    [9; 10; 11; 12; 13; 32; 160; 5760; 8232; 8233; 8239; 8287; 12288;
     65279]%N
  || (N.leb 8192 c && N.leb c 8202).

Fixpoint trimStart (s : jsstring) : jsstring :=
  match s with
  | [] => []
  | c :: rest => if is_white_space c then trimStart rest else s
  end.

(** [s.trim()] *)
Definition trim (s : jsstring) : jsstring :=
  rev (trimStart (rev (trimStart s))).

(** ** Values *)

Definition float := spec_float.
Definition fzero : float := S754_zero false.
Definition feqb : float -> float -> bool := SFeqb.
Definition fdiv : float -> float -> float := SFdiv 53 1024.
Definition fmul : float -> float -> float := SFmul 53 1024.
Definition float_of_Z (z : Z) : float := binary_normalize 53 1024 z 0 false.
Definition float_of_nat (n : nat) : float := float_of_Z (Z.of_nat n).

Inductive value : Type :=
| VUndefined
| VNull
| VBool (b : bool)
| VNumber (x : float)
| VString (s : jsstring)
| VArray (addr : nat) (elems : list (option value))
| VObject (addr : nat) (props : list (jsstring * value))
| VFunction (addr : nat).

(** An array element that is [None] is a hole of a sparse array: reading
    it gives [undefined], and [every] does not visit it. *)

Inductive jstype :=
| TUndefined | TObject | TBoolean | TNumber | TString | TFunction.

Definition typeof (v : value) : jstype :=
  match v with
  | VUndefined => TUndefined
  | VNull => TObject
  | VBool _ => TBoolean
  | VNumber _ => TNumber
  | VString _ => TString
  | VArray _ _ => TObject
  | VObject _ _ => TObject
  | VFunction _ => TFunction
  end.

(** [a === b] *)
Definition strict_eq (a b : value) : bool :=
  match a, b with
  | VUndefined, VUndefined => true
  | VNull, VNull => true
  | VBool x, VBool y => Bool.eqb x y
  | VNumber x, VNumber y => feqb x y
  | VString x, VString y => jsstring_eqb x y
  | VArray i _, VArray j _ => Nat.eqb i j
  | VObject i _, VObject j _ => Nat.eqb i j
  | VFunction i, VFunction j => Nat.eqb i j
  | _, _ => false
  end.

(** The truthiness used by [if (v)], [v && ...] and [v ? ... : ...]. *)
Definition truthy (v : value) : bool :=
  match v with
  | VUndefined | VNull => false
  | VBool b => b
  | VNumber (S754_zero _) | VNumber S754_nan => false
  | VNumber _ => true
  | VString s => negb (jsstring_eqb s [])
  | VArray _ _ | VObject _ _ | VFunction _ => true
  end.

Definition isArray (v : value) : bool :=
  match v with VArray _ _ => true | _ => false end.

(** [v ?? d] *)
Definition nullish_or (v d : value) : value :=
  match v with
  | VUndefined | VNull => d
  | _ => v
  end.

Fixpoint lookup (k : jsstring) (props : list (jsstring * value)) : value :=
  match props with
  | [] => VUndefined
  | (k', v) :: rest => if jsstring_eqb k k' then v else lookup k rest
  end.

(** [o.k = v] on the own properties of an object literal: the value of
    an existing key is replaced, a new key is added at the end. *)
Fixpoint assign (k : jsstring) (v : value)
    (props : list (jsstring * value)) : list (jsstring * value) :=
  match props with
  | [] => [(k, v)]
  | (k', v') :: rest =>
      if jsstring_eqb k k' then (k, v) :: rest
      else (k', v') :: assign k v rest
  end.

(** [{ ...base, ...extra }]: the own properties of [extra] are copied in
    their order. *)
Definition spread (base extra : list (jsstring * value))
  : list (jsstring * value) :=
  fold_left (fun o kv => assign (fst kv) (snd kv) o) extra base.

(** [k in o], for own properties. *)
Definition has_key (k : jsstring) (props : list (jsstring * value)) : bool :=
  existsb (fun kv => jsstring_eqb k (fst kv)) props.

(** [v.k] for one of the names [passed], [actual], [expected], [message];
    [None] is the TypeError of reading a property of [undefined] or
    [null]. *)
Definition get (v : value) (k : jsstring) : option value :=
  match v with
  | VUndefined | VNull => None
  | VObject _ props => Some (lookup k props)
  | _ => Some VUndefined
  end.

(** ** Numbers as text *)

Definition Z_digits (n : Z) : jsstring :=
  js (NilEmpty.string_of_uint (N.to_uint (Z.to_N n))).

Definition DOT : codeunit := 46%N.
Definition ZERO_DIGIT : codeunit := 48%N.
Definition MINUS : codeunit := 45%N.

(** [String(z)] for a number that is an integer. *)
Definition Z_toString (z : Z) : jsstring :=
  if (z <? 0)%Z then MINUS :: Z_digits (- z) else Z_digits z.

(** Steps 10.b and 10.c of [Number.prototype.toFixed]: the digits of the
    integer [n], zero-filled on the left to [f + 1] characters, with the
    point before the last [f]. *)
Definition fixed_digits (n : Z) (f : nat) : jsstring :=
  let m := Z_digits n in
  match f with
  | 0 => m
  | _ =>
      let k := List.length m in
      let m := if k <=? f then repeat ZERO_DIGIT (f + 1 - k) ++ m else m in
      let k := List.length m in
      firstn (k - f) m ++ DOT :: skipn (k - f) m
  end.

(** The integer [n] for which [n / 10^f - m * 2^e] is closest to zero,
    the larger one of two (step 10.a). *)
Definition nearest_scaled (m : positive) (e : Z) (f : nat) : Z :=
  let scaled := (Z.pos m * 10 ^ Z.of_nat f)%Z in
  if (0 <=? e)%Z then (scaled * 2 ^ e)%Z
  else ((2 * scaled + 2 ^ (- e)) / (2 * 2 ^ (- e)))%Z.

(** [10^21 <= m * 2^e] *)
Definition at_least_1e21 (m : positive) (e : Z) : bool :=
  if (0 <=? e)%Z then (10 ^ 21 <=? Z.pos m * 2 ^ e)%Z
  else (10 ^ 21 * 2 ^ (- e) <=? Z.pos m)%Z.

(** [x.toFixed(f)] for [0 <= f <= 100].  [Number_toString] is
    [Number::toString], which the method falls back on for a value that is
    not finite or is at least 10^21. *)
Definition toFixed (Number_toString : float -> jsstring)
    (x : float) (f : nat) : jsstring :=
  match x with
  | S754_nan | S754_infinity _ => Number_toString x
  | S754_zero _ => fixed_digits 0 f
  | S754_finite s m e =>
      (if s then [MINUS] else []) ++
      (if at_least_1e21 m e then Number_toString (S754_finite false m e)
       else fixed_digits (nearest_scaled m e f) f)
  end.

(** ** Completions and reporter arguments *)

(** How a call ends: it returns, or a TypeError propagates to the caller. *)
Inductive completion := Normal | TypeError.

(** The [label] argument of [diff]: left out ([undefined], so that the
    default of the parameter applies), [null], or a string. *)
Inductive label_arg :=
| LabelOmitted
| LabelNull
| LabelString (s : jsstring).

Definition ESC : codeunit := 27%N.
Definition BOX_DOWN_RIGHT : codeunit := 9484%N.   (* U+250C *)
Definition BOX_HORIZONTAL : codeunit := 9472%N.   (* U+2500 *)
Definition BOX_UP_RIGHT : codeunit := 9492%N.     (* U+2514 *)
Definition BOX_DOUBLE_HORIZONTAL : codeunit := 9552%N.       (* U+2550 *)
Definition BOX_DOUBLE_VERTICAL : codeunit := 9553%N.         (* U+2551 *)
Definition BOX_DOUBLE_DOWN_RIGHT : codeunit := 9556%N.       (* U+2554 *)
Definition BOX_DOUBLE_DOWN_LEFT : codeunit := 9559%N.        (* U+2557 *)
Definition BOX_DOUBLE_UP_RIGHT : codeunit := 9562%N.         (* U+255A *)
Definition BOX_DOUBLE_UP_LEFT : codeunit := 9565%N.          (* U+255D *)
Definition BOX_DOUBLE_VERTICAL_RIGHT : codeunit := 9568%N.   (* U+2560 *)
Definition BOX_DOUBLE_VERTICAL_LEFT : codeunit := 9571%N.    (* U+2563 *)
Definition CHECK_MARK : codeunit := 10003%N.                 (* U+2713 *)
Definition BALLOT_X : codeunit := 10007%N.                   (* U+2717 *)
Definition INFORMATION_SOURCE : codeunit := 8505%N.          (* U+2139 *)
Definition WARNING_SIGN : codeunit := 9888%N.                (* U+26A0 *)
Definition CROSS_MARK : codeunit := 10060%N.                 (* U+274C *)
Definition WHITE_HEAVY_CHECK_MARK : codeunit := 9989%N.      (* U+2705 *)
Definition VARIATION_SELECTOR_16 : codeunit := 65039%N.      (* U+FE0F *)

(** ** The records a reporter is handed *)

Module Result.
Record t := mk {
  id : jsstring;
  description : value;
  passed : value;
  actual : value;
  expected : value;
  message : value
}.
End Result.

Module Stats.
Record t := mk {
  total : nat;
  passed : nat;
  failed : nat;
  passRate : value;
  duration : Z
}.
End Stats.

(** ** reporters/superclass.js *)

Module Reporter.

(** [_pad(str, length)] *)
Definition _pad (str : jsstring) (length : nat) : jsstring :=
  str ++ repeat_string [SPACE] (Nat.max 0 (length - List.length str)).

Definition DEFAULT_LABEL : jsstring := js "DIFFERENTIAL ANALYSIS".

(** The parameter [label = 'DIFFERENTIAL ANALYSIS'] once bound: the
    default replaces [undefined] only. [None] is [null]. *)
Definition bind_label (label : label_arg) : option jsstring :=
  match label with
  | LabelOmitted => Some DEFAULT_LABEL
  | LabelNull => None
  | LabelString s => Some s
  end.

(** ['' + label] *)
Definition label_text (label : option jsstring) : jsstring :=
  match label with
  | Some s => s
  | None => js "null"
  end.

(** [a === b] on two results of [_stringify]: [undefined] is equal to
    itself only. *)
Definition same_text (a b : option jsstring) : bool :=
  match a, b with
  | Some a, Some b => jsstring_eqb a b
  | None, None => true
  | _, _ => false
  end.

Section Stringify.

(** [String(v)] and [JSON.stringify(v, null, 2)] of the language.  The
    second gives [undefined], here [None], for an object whose [toJSON]
    returns [undefined]; a conversion that itself throws is not part of
    this model. *)
Variable String_ : value -> jsstring.
Variable JSON_stringify : value -> option jsstring.

(** [_stringify(value)]: a string, or [undefined]. *)
Definition _stringify (v : value) : option jsstring :=
  match v with
  | VString s => Some s
  | VArray _ _ | VObject _ _ => JSON_stringify v
  | VUndefined | VNull | VBool _ | VNumber _ | VFunction _ =>
      Some (String_ v)
  end.

Definition NO_VARIANCE : jsstring := js "  [NO VARIANCE DETECTED]".

Definition diff_head (label : jsstring) : list jsstring :=
  [ [];
    BOX_DOWN_RIGHT :: BOX_HORIZONTAL :: js "[ " ++ label ++ js " ]"
      ++ repeat_string [BOX_HORIZONTAL] (Nat.max 0 (74 - List.length label));
    [] ].

Definition diff_foot : list jsstring :=
  [ []; BOX_UP_RIGHT :: repeat_string [BOX_HORIZONTAL] 79; [] ].

Definition expected_line (line : jsstring) : jsstring := js "  - " ++ line.
Definition actual_line (line : jsstring) : jsstring := js "  + " ++ line.

(** [diff(expected, actual, label)]: the lines written through [output],
    in order, and how the call ends.  With a [null] label the second
    [output] is never reached: [label.length] raises.  A text that is
    [undefined] has no [split]: when the two texts differ, the call
    raises where it reads the lines of that text. *)
Definition diff (expected actual : value) (label : label_arg)
  : list jsstring * completion :=
  match bind_label label with
  | None => ([ [] ], TypeError)
  | Some label =>
      let expectedStr := _stringify expected in
      let actualStr := _stringify actual in
      if same_text expectedStr actualStr then
        (diff_head label ++ [NO_VARIANCE] ++ diff_foot, Normal)
      else
        match expectedStr with
        | None => (diff_head label ++ [js "  EXPECTED STATE:"], TypeError)
        | Some expectedStr =>
            let written :=
              diff_head label
              ++ [js "  EXPECTED STATE:"]
              ++ map expected_line (split_lines expectedStr)
              ++ [ []; js "  ACTUAL STATE:" ] in
            match actualStr with
            | None => (written, TypeError)
            | Some actualStr =>
                (written ++ map actual_line (split_lines actualStr)
                 ++ diff_foot, Normal)
            end
        end
  end.

End Stringify.

(** [this.metadata]: the four fields that [header] prints, as strings. *)
Record metadata := {
  classification : jsstring;
  documentId : jsstring;
  date : jsstring;
  time : jsstring
}.

(** The three frame lines, each of 81 characters in the source. *)
Definition FRAME_TOP : jsstring :=
  BOX_DOUBLE_DOWN_RIGHT :: repeat_string [BOX_DOUBLE_HORIZONTAL] 79
    ++ [BOX_DOUBLE_DOWN_LEFT].
Definition FRAME_MIDDLE : jsstring :=
  BOX_DOUBLE_VERTICAL_RIGHT :: repeat_string [BOX_DOUBLE_HORIZONTAL] 79
    ++ [BOX_DOUBLE_VERTICAL_LEFT].
Definition FRAME_BOTTOM : jsstring :=
  BOX_DOUBLE_UP_RIGHT :: repeat_string [BOX_DOUBLE_HORIZONTAL] 79
    ++ [BOX_DOUBLE_UP_LEFT].

(** A line between two double bars: the text stands for what the source
    writes between them. *)
Definition row (inner : jsstring) : jsstring :=
  BOX_DOUBLE_VERTICAL :: inner ++ [BOX_DOUBLE_VERTICAL].

(** [if (label)]: the label, when it is a string that is not empty. *)
Definition if_label (label : option jsstring)
    (lines : jsstring -> list jsstring) : list jsstring :=
  match label with
  | Some label => if truthy (VString label) then lines label else []
  | None => []
  end.

(** [header(testSuiteName)]: the lines written through [output]. *)
Definition header (m : metadata) (testSuiteName : jsstring)
  : list jsstring :=
  [ [];
    FRAME_TOP;
    row (js " " ++ _pad (classification m) 77 ++ js " ");
    FRAME_MIDDLE;
    row (js " OPERATIONAL TEST REPORT" ++ repeat_string [SPACE] 55);
    row (js " Facility: " ++ _pad testSuiteName 70 ++ js " ");
    row (js " Document Control: " ++ _pad (documentId m) 60 ++ js " ");
    row (js " Transmission Date: " ++ _pad (date m) 57 ++ js " ");
    row (js " Timestamp: " ++ _pad (time m) 65 ++ js " ");
    FRAME_BOTTOM;
    [] ].

Section Methods.

(** [String(v)] of a value that is not a string, and the text that
    [JSON.stringify(v)] contributes to a template literal. *)
Variable String_ : value -> jsstring.
Variable JSON_text : value -> jsstring.

(** A value inside a template literal or added to a string. *)
Definition text (v : value) : jsstring :=
  match v with
  | VString s => s
  | _ => String_ v
  end.

(** [args.join(sep)]: [undefined] and [null] contribute nothing. *)
Definition join_item (v : value) : jsstring :=
  match v with
  | VUndefined | VNull => []
  | _ => text v
  end.

Fixpoint join (args : list value) (sep : jsstring) : jsstring :=
  match args with
  | [] => []
  | [a] => join_item a
  | a :: rest => join_item a ++ sep ++ join rest sep
  end.

Definition section (sectionNumber : nat) (title : value) : list jsstring :=
  [ [];
    repeat_string [BOX_DOUBLE_HORIZONTAL] 80;
    js "SECTION " ++ nat_toString sectionNumber ++ js ": " ++ text title;
    repeat_string [BOX_DOUBLE_HORIZONTAL] 80;
    [] ].

Definition subsection (sectionNumber testNumber : nat) (title : value)
  : list jsstring :=
  [ [];
    repeat_string [BOX_HORIZONTAL] 80;
    nat_toString sectionNumber ++ js "." ++ nat_toString testNumber
      ++ js " " ++ text title;
    repeat_string [BOX_HORIZONTAL] 80;
    [] ].

(** [code(language, content, label = null)]; the plain reporter does not
    print the language. *)
Definition code (language content : jsstring) (label : option jsstring)
  : list jsstring :=
  if_label label (fun label =>
    [ BOX_DOWN_RIGHT :: BOX_HORIZONTAL :: js "[ " ++ label ++ js " ]"
        ++ repeat_string [BOX_HORIZONTAL]
             (Nat.max 0 (74 - List.length label)) ])
  ++ [trim content]
  ++ if_label label (fun _ =>
       [ BOX_UP_RIGHT :: repeat_string [BOX_HORIZONTAL] 79 ])
  ++ [ [] ].

Definition testPassed (testId : jsstring) (description : value)
  : list jsstring :=
  [ js "[PASS] TEST " ++ testId ++ js ": " ++ text description ].

Definition testFailed (testId : jsstring) (description : value)
    (result : Result.t) : list jsstring :=
  [ js "[FAIL] TEST " ++ testId ++ js ": " ++ text description ]
  ++ (if truthy (Result.message result)
      then [ js "       Reason: " ++ text (Result.message result) ]
      else [])
  ++ (if negb (strict_eq (Result.expected result) VNull)
         && negb (strict_eq (Result.actual result) VNull)
      then [ js "       Expected: " ++ JSON_text (Result.expected result);
             js "       Actual:   " ++ JSON_text (Result.actual result) ]
      else []).

Definition summary (stats : Stats.t) : list jsstring :=
  let total := Stats.total stats in
  let passed := Stats.passed stats in
  let failed := Stats.failed stats in
  let passRate := Stats.passRate stats in
  let duration := Stats.duration stats in
  [ [];
    FRAME_TOP;
    row (js " MISSION STATUS REPORT" ++ repeat_string [SPACE] 57);
    FRAME_MIDDLE;
    row (js " Total Operations:    " ++ _pad (nat_toString total) 56 ++ js " ");
    row (js " Successful:          " ++ _pad (nat_toString passed) 56 ++ js " ");
    row (js " Failed:              " ++ _pad (nat_toString failed) 56 ++ js " ");
    row (js " Success Rate:        " ++ _pad (text passRate ++ js "%") 56
           ++ js " ");
    row (js " Execution Duration:  "
           ++ _pad (Z_toString duration ++ js "ms") 56 ++ js " ");
    FRAME_MIDDLE;
    if failed =? 0
    then row (js " CLEARANCE: ALL OPERATIONS SUCCESSFUL"
                ++ repeat_string [SPACE] 42)
    else row (js " ALERT: "
                ++ _pad (nat_toString failed ++ js " OPERATION(S) FAILED") 72
                ++ js " ");
    FRAME_BOTTOM;
    [] ].

Definition failureDetails (failures : list Result.t) : list jsstring :=
  match failures with
  | [] => []
  | _ :: _ =>
      [ js "FAILED OPERATIONS REGISTRY:"; [] ]
      ++ flat_map
           (fun f =>
              (js "  [" ++ Result.id f ++ js "] "
                 ++ text (Result.description f))
              :: (if truthy (Result.message f)
                  then [ js "       " ++ text (Result.message f) ]
                  else []))
           failures
      ++ [ [] ]
  end.

Definition log (args : list value) : list jsstring :=
  [ join args (js " ") ].

Definition info (args : list value) : list jsstring :=
  [ js "[INFO] " ++ join args (js " ") ].

Definition warn (args : list value) : list jsstring :=
  [ js "[WARN] " ++ join args (js " ") ].

Definition error (args : list value) : list jsstring :=
  [ js "[ERROR] " ++ join args (js " ") ].

Definition success (args : list value) : list jsstring :=
  [ js "[SUCCESS] " ++ join args (js " ") ].

End Methods.

(** [new Reporter(metadata)]: the object kept as [this.metadata], built
    when the date reads [today] and the time [clock]; [stamp] is the
    text of the template [PTF-${Date.now()}]. *)
Definition constructor (today clock stamp : jsstring)
    (metadata : list (jsstring * value)) : list (jsstring * value) :=
  spread
    [ (js "classification",
       nullish_or (lookup (js "classification") metadata)
                  (VString (js "UNCLASSIFIED")));
      (js "documentId",
       nullish_or (lookup (js "documentId") metadata) (VString stamp));
      (js "date", VString today);
      (js "time", VString clock) ]
    metadata.

End Reporter.

(** ** reporters/terminal.js *)

Module TerminalReporter.

Definition RESET : jsstring := ESC :: js "[0m".
Definition BOLD : jsstring := ESC :: js "[1m".
Definition RED : jsstring := ESC :: js "[31m".
Definition GREEN : jsstring := ESC :: js "[32m".
Definition YELLOW : jsstring := ESC :: js "[33m".
Definition CYAN : jsstring := ESC :: js "[36m".

Section Stringify.

Variable String_ : value -> jsstring.
Variable JSON_stringify : value -> option jsstring.

Definition NO_VARIANCE : jsstring :=
  js "  " ++ GREEN ++ js "[NO VARIANCE DETECTED]" ++ RESET.

Definition diff_head (label : jsstring) : list jsstring :=
  [ [];
    YELLOW ++ BOX_DOWN_RIGHT :: BOX_HORIZONTAL :: js "[ " ++ BOLD ++ label
      ++ RESET ++ YELLOW ++ js " ]"
      ++ repeat_string [BOX_HORIZONTAL] (Nat.max 0 (74 - List.length label))
      ++ RESET;
    [] ].

Definition diff_foot : list jsstring :=
  [ [];
    YELLOW ++ BOX_UP_RIGHT :: repeat_string [BOX_HORIZONTAL] 79 ++ RESET;
    [] ].

Definition expected_line (line : jsstring) : jsstring :=
  js "  " ++ RED ++ js "- " ++ line ++ RESET.
Definition actual_line (line : jsstring) : jsstring :=
  js "  " ++ GREEN ++ js "+ " ++ line ++ RESET.

(** [diff(expected, actual, label)] of the terminal reporter. *)
Definition diff (expected actual : value) (label : label_arg)
  : list jsstring * completion :=
  match Reporter.bind_label label with
  | None => ([ [] ], TypeError)
  | Some label =>
      let expectedStr := Reporter._stringify String_ JSON_stringify expected in
      let actualStr := Reporter._stringify String_ JSON_stringify actual in
      if Reporter.same_text expectedStr actualStr then
        (diff_head label ++ [NO_VARIANCE] ++ diff_foot, Normal)
      else
        match expectedStr with
        | None =>
            (diff_head label
             ++ [js "  " ++ CYAN ++ js "EXPECTED STATE:" ++ RESET], TypeError)
        | Some expectedStr =>
            let written :=
              diff_head label
              ++ [js "  " ++ CYAN ++ js "EXPECTED STATE:" ++ RESET]
              ++ map expected_line (split_lines expectedStr)
              ++ [ []; js "  " ++ CYAN ++ js "ACTUAL STATE:" ++ RESET ] in
            match actualStr with
            | None => (written, TypeError)
            | Some actualStr =>
                (written ++ map actual_line (split_lines actualStr)
                 ++ diff_foot, Normal)
            end
        end
  end.

End Stringify.

Definition DIM : jsstring := ESC :: js "[2m".
Definition BLUE : jsstring := ESC :: js "[34m".
Definition MAGENTA : jsstring := ESC :: js "[35m".
Definition WHITE : jsstring := ESC :: js "[37m".

(** A row of the terminal frame; the right bar follows the text without
    a space of its own. *)
Definition row (inner : jsstring) : jsstring :=
  CYAN ++ BOX_DOUBLE_VERTICAL :: js " " ++ inner
    ++ CYAN ++ BOX_DOUBLE_VERTICAL :: RESET.

Definition header (m : Reporter.metadata) (testSuiteName : jsstring)
  : list jsstring :=
  [ [];
    CYAN ++ Reporter.FRAME_TOP ++ RESET;
    CYAN ++ BOX_DOUBLE_VERTICAL :: js " " ++ BOLD ++ YELLOW
      ++ Reporter._pad (Reporter.classification m) 77 ++ RESET ++ CYAN
      ++ js " " ++ BOX_DOUBLE_VERTICAL :: RESET;
    CYAN ++ Reporter.FRAME_MIDDLE ++ RESET;
    row (BOLD ++ js "OPERATIONAL TEST REPORT" ++ RESET
           ++ Reporter._pad [] 55);
    row (WHITE ++ js "Facility: " ++ RESET
           ++ Reporter._pad testSuiteName 68);
    row (WHITE ++ js "Document Control: " ++ RESET
           ++ Reporter._pad (Reporter.documentId m) 60);
    row (WHITE ++ js "Transmission Date: " ++ RESET
           ++ Reporter._pad (Reporter.date m) 59);
    row (WHITE ++ js "Timestamp: " ++ RESET
           ++ Reporter._pad (Reporter.time m) 67);
    CYAN ++ Reporter.FRAME_BOTTOM ++ RESET;
    [] ].

Section Methods.

Variable String_ : value -> jsstring.
Variable JSON_text : value -> jsstring.

Local Abbreviation text := (Reporter.text String_).
Local Abbreviation join := (Reporter.join String_).

Definition section (sectionNumber : nat) (title : value) : list jsstring :=
  [ [];
    BLUE ++ repeat_string [BOX_DOUBLE_HORIZONTAL] 80 ++ RESET;
    BOLD ++ BLUE ++ js "SECTION " ++ nat_toString sectionNumber ++ js ": "
      ++ WHITE ++ text title ++ RESET;
    BLUE ++ repeat_string [BOX_DOUBLE_HORIZONTAL] 80 ++ RESET;
    [] ].

Definition subsection (sectionNumber testNumber : nat) (title : value)
  : list jsstring :=
  [ [];
    CYAN ++ repeat_string [BOX_HORIZONTAL] 80 ++ RESET;
    CYAN ++ nat_toString sectionNumber ++ js "."
      ++ nat_toString testNumber ++ js " " ++ WHITE ++ text title ++ RESET;
    CYAN ++ repeat_string [BOX_HORIZONTAL] 80 ++ RESET;
    [] ].

Definition code (language content : jsstring) (label : option jsstring)
  : list jsstring :=
  Reporter.if_label label (fun label =>
    [ DIM ++ BOX_DOWN_RIGHT :: BOX_HORIZONTAL :: js "[ " ++ RESET
        ++ MAGENTA ++ label ++ RESET ++ DIM ++ js " ]"
        ++ repeat_string [BOX_HORIZONTAL]
             (Nat.max 0 (74 - List.length label))
        ++ RESET ])
  ++ [ DIM ++ trim content ++ RESET ]
  ++ Reporter.if_label label (fun _ =>
       [ DIM ++ BOX_UP_RIGHT :: repeat_string [BOX_HORIZONTAL] 79
           ++ RESET ])
  ++ [ [] ].

Definition testPassed (testId : jsstring) (description : value)
  : list jsstring :=
  [ GREEN ++ CHECK_MARK :: js " TEST " ++ testId ++ js " PASSED" ++ RESET
      ++ js ": " ++ text description ].

Definition testFailed (testId : jsstring) (description : value)
    (result : Result.t) : list jsstring :=
  [ RED ++ BALLOT_X :: js " TEST " ++ testId ++ js " FAILED" ++ RESET
      ++ js ": " ++ text description ]
  ++ (if truthy (Result.message result)
      then [ js "  " ++ YELLOW ++ js "Reason: "
               ++ text (Result.message result) ++ RESET ]
      else [])
  ++ (if negb (strict_eq (Result.expected result) VNull)
         && negb (strict_eq (Result.actual result) VNull)
      then [ js "  " ++ CYAN ++ js "Expected: "
               ++ JSON_text (Result.expected result) ++ RESET;
             js "  " ++ MAGENTA ++ js "Actual:   "
               ++ JSON_text (Result.actual result) ++ RESET ]
      else []).

Definition summary (stats : Stats.t) : list jsstring :=
  let total := Stats.total stats in
  let passed := Stats.passed stats in
  let failed := Stats.failed stats in
  let passRate := Stats.passRate stats in
  let duration := Stats.duration stats in
  [ [];
    CYAN ++ Reporter.FRAME_TOP ++ RESET;
    row (BOLD ++ WHITE ++ js "MISSION STATUS REPORT" ++ RESET
           ++ Reporter._pad [] 57);
    CYAN ++ Reporter.FRAME_MIDDLE ++ RESET;
    row (WHITE ++ js "Total Operations:    " ++ RESET
           ++ Reporter._pad (nat_toString total) 57);
    row (GREEN ++ js "Successful:          " ++ RESET
           ++ Reporter._pad (nat_toString passed) 57);
    row (RED ++ js "Failed:              " ++ RESET
           ++ Reporter._pad (nat_toString failed) 57);
    row (YELLOW ++ js "Success Rate:        " ++ RESET
           ++ Reporter._pad (text passRate ++ js "%") 57);
    row (BLUE ++ js "Execution Duration:  " ++ RESET
           ++ Reporter._pad (Z_toString duration ++ js "ms") 57);
    CYAN ++ Reporter.FRAME_MIDDLE ++ RESET;
    if failed =? 0
    then row (BOLD ++ GREEN ++ js "CLEARANCE: ALL OPERATIONS SUCCESSFUL"
                ++ RESET ++ Reporter._pad [] 42)
    else row (BOLD ++ RED ++ js "ALERT: " ++ nat_toString failed
                ++ js " OPERATION(S) FAILED" ++ RESET
                ++ Reporter._pad []
                     (74 - 23 - List.length (nat_toString failed)));
    CYAN ++ Reporter.FRAME_BOTTOM ++ RESET;
    [] ].

Definition failureDetails (failures : list Result.t) : list jsstring :=
  match failures with
  | [] => []
  | _ :: _ =>
      [ RED ++ BOLD ++ js "FAILED OPERATIONS REGISTRY:" ++ RESET; [] ]
      ++ flat_map
           (fun f =>
              (js "  " ++ RED ++ js "[" ++ Result.id f ++ js "]" ++ RESET
                 ++ js " " ++ text (Result.description f))
              :: (if truthy (Result.message f)
                  then [ js "       " ++ YELLOW ++ text (Result.message f)
                           ++ RESET ]
                  else []))
           failures
      ++ [ [] ]
  end.

Definition info (args : list value) : list jsstring :=
  [ BLUE ++ INFORMATION_SOURCE :: js " " ++ join args (js " ") ++ RESET ].

Definition warn (args : list value) : list jsstring :=
  [ YELLOW ++ WARNING_SIGN :: js " " ++ join args (js " ") ++ RESET ].

Definition error (args : list value) : list jsstring :=
  [ RED ++ BALLOT_X :: js " " ++ join args (js " ") ++ RESET ].

Definition success (args : list value) : list jsstring :=
  [ GREEN ++ CHECK_MARK :: js " " ++ join args (js " ") ++ RESET ].

End Methods.

End TerminalReporter.

(** ** reporters/markdown.js *)

Module MarkdownReporter.

Section Stringify.

Variable String_ : value -> jsstring.
Variable JSON_stringify : value -> option jsstring.

Definition NO_VARIANCE : jsstring := js "**[NO VARIANCE DETECTED]**".

Definition diff_head (label : jsstring) : list jsstring :=
  [ []; js "### " ++ label; [] ].

Definition expected_line (line : jsstring) : jsstring := js "- " ++ line.
Definition actual_line (line : jsstring) : jsstring := js "+ " ++ line.

(** [diff(expected, actual, label)] of the markdown reporter.  The label
    is only interpolated, so [null] prints as the text null.  As in the
    other classes, a text that is [undefined] makes the call raise where
    its lines are read. *)
Definition diff (expected actual : value) (label : label_arg)
  : list jsstring * completion :=
  let label := Reporter.label_text (Reporter.bind_label label) in
  let expectedStr := Reporter._stringify String_ JSON_stringify expected in
  let actualStr := Reporter._stringify String_ JSON_stringify actual in
  if Reporter.same_text expectedStr actualStr then
    (diff_head label ++ [NO_VARIANCE; []], Normal)
  else
    match expectedStr with
    | None =>
        (diff_head label ++ [js "**Expected State:**"; []; js "```diff"],
         TypeError)
    | Some expectedStr =>
        let written :=
          diff_head label
          ++ [js "**Expected State:**"; []; js "```diff"]
          ++ map expected_line (split_lines expectedStr)
          ++ [js "```"; []; js "**Actual State:**"; []; js "```diff"] in
        match actualStr with
        | None => (written, TypeError)
        | Some actualStr =>
            (written ++ map actual_line (split_lines actualStr)
             ++ [js "```"; []], Normal)
        end
    end.

End Stringify.

Definition FENCE : jsstring := js "```".

Definition header (m : Reporter.metadata) (testSuiteName : jsstring)
  : list jsstring :=
  [ FENCE;
    Reporter.FRAME_TOP;
    Reporter.row (js " " ++ Reporter._pad (Reporter.classification m) 77
                    ++ js " ");
    Reporter.FRAME_MIDDLE;
    Reporter.row (js " OPERATIONAL TEST REPORT" ++ repeat_string [SPACE] 55);
    Reporter.row (js " Facility: " ++ Reporter._pad testSuiteName 67
                    ++ js " ");
    Reporter.row (js " Document Control: "
                    ++ Reporter._pad (Reporter.documentId m) 59 ++ js " ");
    Reporter.row (js " Transmission Date: "
                    ++ Reporter._pad (Reporter.date m) 58 ++ js " ");
    Reporter.row (js " Timestamp: " ++ Reporter._pad (Reporter.time m) 66
                    ++ js " ");
    Reporter.FRAME_BOTTOM;
    FENCE;
    [] ].

Section Methods.

Variable String_ : value -> jsstring.
Variable JSON_text : value -> jsstring.

Local Abbreviation text := (Reporter.text String_).
Local Abbreviation join := (Reporter.join String_).

Definition section (sectionNumber : nat) (title : value) : list jsstring :=
  [ [];
    js "## Section " ++ nat_toString sectionNumber ++ js ": " ++ text title;
    [] ].

Definition subsection (sectionNumber testNumber : nat) (title : value)
  : list jsstring :=
  [ [];
    js "### " ++ nat_toString sectionNumber ++ js "."
      ++ nat_toString testNumber ++ js " " ++ text title;
    [] ].

Definition code (language content : jsstring) (label : option jsstring)
  : list jsstring :=
  Reporter.if_label label (fun label =>
    [ js "**" ++ label ++ js "**"; [] ])
  ++ [ FENCE ++ language; trim content; FENCE; [] ].

Definition testPassed (testId : jsstring) (description : value)
  : list jsstring :=
  [ js "- " ++ CHECK_MARK :: js " **TEST " ++ testId ++ js " PASSED**: "
      ++ text description ].

Definition testFailed (testId : jsstring) (description : value)
    (result : Result.t) : list jsstring :=
  [ js "- " ++ BALLOT_X :: js " **TEST " ++ testId ++ js " FAILED**: "
      ++ text description ]
  ++ (if truthy (Result.message result)
      then [ js "  - Reason: " ++ text (Result.message result) ]
      else [])
  ++ (if negb (strict_eq (Result.expected result) VNull)
         && negb (strict_eq (Result.actual result) VNull)
      then [ js "  - Expected: `" ++ JSON_text (Result.expected result)
               ++ js "`";
             js "  - Actual: `" ++ JSON_text (Result.actual result)
               ++ js "`" ]
      else []).

Definition summary (stats : Stats.t) : list jsstring :=
  let total := Stats.total stats in
  let passed := Stats.passed stats in
  let failed := Stats.failed stats in
  let passRate := Stats.passRate stats in
  let duration := Stats.duration stats in
  [ [];
    FENCE;
    Reporter.FRAME_TOP;
    Reporter.row (js " MISSION STATUS REPORT" ++ repeat_string [SPACE] 57);
    Reporter.FRAME_MIDDLE;
    Reporter.row (js " Total Operations:    "
                    ++ Reporter._pad (nat_toString total) 56 ++ js " ");
    Reporter.row (js " Successful:          "
                    ++ Reporter._pad (nat_toString passed) 56 ++ js " ");
    Reporter.row (js " Failed:              "
                    ++ Reporter._pad (nat_toString failed) 56 ++ js " ");
    Reporter.row (js " Success Rate:        "
                    ++ Reporter._pad (text passRate ++ js "%") 56 ++ js " ");
    Reporter.row (js " Execution Duration:  "
                    ++ Reporter._pad (Z_toString duration ++ js "ms") 56
                    ++ js " ");
    Reporter.FRAME_MIDDLE;
    if failed =? 0
    then Reporter.row (js " CLEARANCE: ALL OPERATIONS SUCCESSFUL"
                         ++ repeat_string [SPACE] 42)
    else Reporter.row
           (js " ALERT: "
              ++ Reporter._pad
                   (nat_toString failed ++ js " OPERATION(S) FAILED") 72
              ++ js " ");
    Reporter.FRAME_BOTTOM;
    FENCE;
    [] ].

Definition failureDetails (failures : list Result.t) : list jsstring :=
  match failures with
  | [] => []
  | _ :: _ =>
      [ js "## Failed Operations Registry"; [] ]
      ++ flat_map
           (fun f =>
              (js "- **[" ++ Result.id f ++ js "]** "
                 ++ text (Result.description f))
              :: (if truthy (Result.message f)
                  then [ js "  - " ++ text (Result.message f) ]
                  else []))
           failures
      ++ [ [] ]
  end.

Definition info (args : list value) : list jsstring :=
  [ INFORMATION_SOURCE :: VARIATION_SELECTOR_16 :: js " "
      ++ join args (js " ") ].

Definition warn (args : list value) : list jsstring :=
  [ WARNING_SIGN :: VARIATION_SELECTOR_16 :: js " **Warning:** "
      ++ join args (js " ") ].

Definition error (args : list value) : list jsstring :=
  [ CROSS_MARK :: js " **Error:** " ++ join args (js " ") ].

Definition success (args : list value) : list jsstring :=
  [ WHITE_HEAVY_CHECK_MARK :: js " " ++ join args (js " ") ].

End Methods.

End MarkdownReporter.

(** ** The suite engine *)

Module VERBOSITY_LEVELS.
Definition SILENT := 0.
Definition QUIET := 1.
Definition NORMAL := 2.
Definition VERBOSE := 3.
Definition DEBUG := 4.
End VERBOSITY_LEVELS.
Import VERBOSITY_LEVELS.

(** The three classes [createReporter] instantiates. *)
Inductive reporter_kind := PlainReporter | Terminal | Markdown.

Definition EQUALS_SIGN : codeunit := 61%N.

(** [parseFormat()], with [argv] the arguments of the process; [None] is
    [undefined]. *)
Definition parseFormat (argv : list jsstring) : option jsstring :=
  match find (fun arg => startsWith arg (js "--format=")) argv with
  | Some formatArg =>
      if truthy (VString formatArg)
      then nth_error (split EQUALS_SIGN formatArg) 1
      else Some (js "terminal")
  | None => Some (js "terminal")
  end.

Definition createReporter (format : jsstring) : reporter_kind :=
  if jsstring_eqb format (js "markdown") then Markdown
  else if jsstring_eqb format (js "terminal") then Terminal
  else if jsstring_eqb format (js "ascii") then PlainReporter
  else Terminal.

(** A call of the suite on its reporter. *)
Inductive call :=
| CallHeader (testSuiteName : jsstring)
| CallSection (sectionNumber : nat) (title : value)
| CallSubsection (sectionNumber testNumber : nat) (title : value)
| CallCode (language content : jsstring) (label : option jsstring)
| CallTestPassed (testId : jsstring) (description : value)
| CallTestFailed (testId : jsstring) (description : value) (result : Result.t)
| CallSummary (stats : Stats.t)
| CallFailureDetails (failures : list Result.t)
| CallDiff (expected actual : value) (label : label_arg)
| CallLog (args : list value)
| CallInfo (args : list value)
| CallWarn (args : list value)
| CallError (args : list value)
| CallSuccess (args : list value).

(** What running an assertion callback gives: the value it returns, or
    the value it throws. *)
Inductive outcome :=
| Returns (v : value)
| Throws (error : value).

Definition jstype_eqb (a b : jstype) : bool :=
  match a, b with
  | TUndefined, TUndefined | TObject, TObject | TBoolean, TBoolean
  | TNumber, TNumber | TString, TString | TFunction, TFunction => true
  | _, _ => false
  end.

(** [v.k] on a value that is neither [undefined] nor [null]. *)
Definition prop (v : value) (k : jsstring) : value :=
  match v with
  | VObject _ props => lookup k props
  | _ => VUndefined
  end.

Definition elements (v : value) : list (option value) :=
  match v with
  | VArray _ elems => elems
  | _ => []
  end.

(** [b[index]] *)
Definition read (elems : list (option value)) (index : nat) : value :=
  match nth_error elems index with
  | Some (Some v) => v
  | _ => VUndefined
  end.

(** [a.every(callback)], from position [index] on: the callback runs on
    the elements that are present, holes are skipped. *)
Fixpoint every_from (index : nat) (a : list (option value))
    (callback : value -> nat -> bool) : bool :=
  match a with
  | [] => true
  | None :: rest => every_from (S index) rest callback
  | Some element :: rest =>
      callback element index && every_from (S index) rest callback
  end.

Definition every (a : list (option value))
    (callback : value -> nat -> bool) : bool :=
  every_from 0 a callback.

(** The options of the constructor that decide the verbosity and the
    reporter; [None] is an option left out or [null]. *)
Module Options.
Record t := mk {
  verbosity : option nat;
  format : option jsstring;
  reporter : option reporter_kind
}.
End Options.

Module TestSuite.

Record t := mk {
  name : jsstring;
  verbosity : nat;
  testNumber : nat;
  sectionNumber : nat;
  failures : list Result.t;
  successes : list Result.t;
  startTime : Z;
  reporter : reporter_kind;
  calls : list call   (* the calls made on [reporter] so far *)
}.

(** [new TestSuite(name, options)], created at time [now]. *)
Definition create (name : jsstring) (verbosity : option nat)
    (reporter : reporter_kind) (now : Z) : t :=
  mk name (match verbosity with Some v => v | None => VERBOSE end)
     0 0 [] [] now reporter [].

(** [new TestSuite(name, options)] in a process with the arguments
    [argv]: the [format] option, or else the command line, decides the
    reporter, unless the [reporter] option gives one.  A format that is
    [undefined] takes the [default] branch of [createReporter]. *)
Definition new (name : jsstring) (options : Options.t)
    (argv : list jsstring) (now : Z) : t :=
  let format := match Options.format options with
                | Some format => Some format
                | None => parseFormat argv
                end in
  let reporter := match Options.reporter options with
                  | Some reporter => reporter
                  | None => match format with
                            | Some format => createReporter format
                            | None => Terminal
                            end
                  end in
  create name (Options.verbosity options) reporter now.

(** The [metadata] object that the constructor hands to the reporter it
    creates: [classification] and [documentId] are the options of these
    names, [extra] is [options.metadata] ([None] when it is left out),
    [today] the date and [stamp] the document id that is generated. *)
Definition metadata (today stamp : jsstring)
    (classification documentId : value)
    (extra : option (list (jsstring * value)))
  : list (jsstring * value) :=
  spread
    [ (js "date", VString today);
      (js "classification",
       nullish_or classification (VString (js "UNCLASSIFIED")));
      (js "documentId", nullish_or documentId (VString stamp)) ]
    (match extra with Some extra => extra | None => [] end).

(** [this.reporter.m(...)] *)
Definition forward (s : t) (c : call) : t :=
  mk (name s) (verbosity s) (testNumber s) (sectionNumber s)
     (failures s) (successes s) (startTime s) (reporter s) (calls s ++ [c]).

Definition header (s : t) : t :=
  if verbosity s <? NORMAL then s
  else forward s (CallHeader (name s)).

Definition section (title : value) (s : t) : t :=
  if verbosity s <? NORMAL then s
  else
    let s := mk (name s) (verbosity s) 0 (sectionNumber s + 1)
                (failures s) (successes s) (startTime s) (reporter s)
                (calls s) in
    forward s (CallSection (sectionNumber s) title).

Definition subsection (title : value) (s : t) : t :=
  if verbosity s <? NORMAL then s
  else forward s (CallSubsection (sectionNumber s) (testNumber s + 1) title).

Definition code (language content : jsstring) (label : option jsstring)
    (s : t) : t :=
  if verbosity s <? VERBOSE then s
  else forward s (CallCode language content label).

Definition javascript (content : jsstring) (label : option jsstring)
    (s : t) : t :=
  code (js "javascript") content label s.

(** The template literal [`${sectionNumber}.${testNumber}`]. *)
Definition testId (sectionNumber testNumber : nat) : jsstring :=
  nat_toString sectionNumber ++ DOT :: nat_toString testNumber.

(** The [try]/[catch] of [test]: the result record after it, or [None]
    when reading [error.message] raises inside the [catch] block. *)
Definition settle (result : Result.t) (assertion : outcome)
  : option Result.t :=
  match assertion with
  | Returns assertionResult =>
      if jstype_eqb (typeof assertionResult) TBoolean then
        Some (Result.mk (Result.id result) (Result.description result)
                assertionResult
                (Result.actual result) (Result.expected result)
                (Result.message result))
      else if truthy assertionResult
              && jstype_eqb (typeof assertionResult) TObject then
        Some (Result.mk (Result.id result) (Result.description result)
                (nullish_or (prop assertionResult (js "passed")) (VBool false))
                (prop assertionResult (js "actual"))
                (prop assertionResult (js "expected"))
                (prop assertionResult (js "message")))
      else Some result
  | Throws error =>
      match get error (js "message") with
      | Some m =>
          Some (Result.mk (Result.id result) (Result.description result)
                  (VBool false)
                  (Result.actual result) (Result.expected result) m)
      | None => None
      end
  end.

Definition test (description : value) (assertion : outcome) (s : t)
  : t * completion :=
  let s := mk (name s) (verbosity s) (testNumber s + 1) (sectionNumber s)
              (failures s) (successes s) (startTime s) (reporter s)
              (calls s) in
  let testId := testId (sectionNumber s) (testNumber s) in
  let result := Result.mk testId description (VBool false)
                          VNull VNull VNull in
  match settle result assertion with
  | None => (s, TypeError)
  | Some result =>
      if truthy (Result.passed result) then
        let s := mk (name s) (verbosity s) (testNumber s) (sectionNumber s)
                    (failures s) (successes s ++ [result]) (startTime s)
                    (reporter s) (calls s) in
        (if VERBOSE <=? verbosity s
         then forward s (CallTestPassed testId description)
         else s, Normal)
      else
        let s := mk (name s) (verbosity s) (testNumber s) (sectionNumber s)
                    (failures s ++ [result]) (successes s) (startTime s)
                    (reporter s) (calls s) in
        (if QUIET <=? verbosity s
         then forward s (CallTestFailed testId description result)
         else s, Normal)
  end.

(** The object literal an assertion helper returns; its identity is not
    observed by [test]. *)
Definition assertion_record (passed actual expected message : value)
  : value :=
  VObject 0 [ (js "passed", passed); (js "actual", actual);
              (js "expected", expected); (js "message", message) ].

Definition assertEqual (actual expected description : value) (s : t)
  : t * completion :=
  test description
    (Returns (assertion_record
                (VBool (strict_eq actual expected)) actual expected
                (if strict_eq actual expected then VNull
                 else VString (js "Values do not match"))))
    s.

Definition arraysEqual (a b : value) : bool :=
  isArray a && isArray b
  && (List.length (elements a) =? List.length (elements b))
  && every (elements a)
       (fun element index => strict_eq element (read (elements b) index)).

Definition assertArraysEqual (actual expected description : value) (s : t)
  : t * completion :=
  test description
    (Returns (assertion_record
                (VBool (arraysEqual actual expected)) actual expected
                (if arraysEqual actual expected then VNull
                 else VString (js "Arrays do not match"))))
    s.

Definition log (args : list value) (s : t) : t :=
  if VERBOSE <=? verbosity s then forward s (CallLog args) else s.

Definition info (args : list value) (s : t) : t :=
  if NORMAL <=? verbosity s then forward s (CallInfo args) else s.

Definition warn (args : list value) (s : t) : t :=
  if NORMAL <=? verbosity s then forward s (CallWarn args) else s.

Definition error (args : list value) (s : t) : t :=
  if QUIET <=? verbosity s then forward s (CallError args) else s.

Definition success (args : list value) (s : t) : t :=
  if VERBOSE <=? verbosity s then forward s (CallSuccess args) else s.

(** One call on the suite, as a caller writes it. *)
Inductive op :=
| DoHeader
| DoSection (title : value)
| DoSubsection (title : value)
| DoCode (language content : jsstring) (label : option jsstring)
| DoJavascript (content : jsstring) (label : option jsstring)
| DoTest (description : value) (assertion : outcome)
| DoAssertEqual (actual expected description : value)
| DoAssertArraysEqual (actual expected description : value)
| DoSummary (now : Z)
| DoDiff (expected actual : value) (label : label_arg)
| DoLog (args : list value)
| DoInfo (args : list value)
| DoWarn (args : list value)
| DoError (args : list value)
| DoSuccess (args : list value).

Section Builtins.

(** [Number::toString], [String(v)] and [JSON.stringify(v, null, 2)]. *)
Variable Number_toString : float -> jsstring.
Variable String_ : value -> jsstring.
Variable JSON_stringify : value -> option jsstring.

(** [total > 0 ? ((passed / total) * 100).toFixed(2) : 0] *)
Definition passRate (passed total : nat) : value :=
  if 0 <? total then
    VString (toFixed Number_toString
               (fmul (fdiv (float_of_nat passed) (float_of_nat total))
                     (float_of_nat 100)) 2)
  else VNumber fzero.

(** [summary()], called when the clock reads [now]. *)
Definition summary (now : Z) (s : t) : t * bool :=
  if verbosity s <? NORMAL then
    (s, List.length (failures s) =? 0)
  else
    let duration := (now - startTime s)%Z in
    let total := List.length (successes s) + List.length (failures s) in
    let passed := List.length (successes s) in
    let failed := List.length (failures s) in
    let passRate := passRate passed total in
    let stats := Stats.mk total passed failed passRate duration in
    let s := forward s (CallSummary stats) in
    let s := if (VERBOSE <=? verbosity s) && (0 <? failed)
             then forward s (CallFailureDetails (failures s))
             else s in
    (s, failed =? 0).

(** [exit()]: the suite after [summary] and the status the process ends
    with. *)
Definition exit (now : Z) (s : t) : t * nat :=
  let '(s, success) := summary now s in
  (s, if success then 0 else 1).

(** [this.reporter.diff(expected, actual, label)], by class. *)
Definition reporter_diff (r : reporter_kind) (expected actual : value)
    (label : label_arg) : list jsstring * completion :=
  match r with
  | PlainReporter => Reporter.diff String_ JSON_stringify expected actual label
  | Terminal =>
      TerminalReporter.diff String_ JSON_stringify expected actual label
  | Markdown =>
      MarkdownReporter.diff String_ JSON_stringify expected actual label
  end.

(** [diff(expected, actual, label = null)]: a label left out reaches the
    reporter as [null]. *)
Definition diff (expected actual : value) (label : label_arg) (s : t)
  : t * completion :=
  if VERBOSE <=? verbosity s then
    let label := match label with LabelOmitted => LabelNull | l => l end in
    (forward s (CallDiff expected actual label),
     snd (reporter_diff (reporter s) expected actual label))
  else (s, Normal).

Definition step (o : op) (s : t) : t * completion :=
  match o with
  | DoHeader => (header s, Normal)
  | DoSection title => (section title s, Normal)
  | DoSubsection title => (subsection title s, Normal)
  | DoCode language content label => (code language content label s, Normal)
  | DoJavascript content label => (javascript content label s, Normal)
  | DoTest description assertion => test description assertion s
  | DoAssertEqual actual expected description =>
      assertEqual actual expected description s
  | DoAssertArraysEqual actual expected description =>
      assertArraysEqual actual expected description s
  | DoSummary now => (fst (summary now s), Normal)
  | DoDiff expected actual label => diff expected actual label s
  | DoLog args => (log args s, Normal)
  | DoInfo args => (info args s, Normal)
  | DoWarn args => (warn args s, Normal)
  | DoError args => (error args s, Normal)
  | DoSuccess args => (success args s, Normal)
  end.

(** A sequence of calls; a TypeError that propagates ends it. *)
Fixpoint run (ops : list op) (s : t) : t * completion :=
  match ops with
  | [] => (s, Normal)
  | o :: rest =>
      match step o s with
      | (s, Normal) => run rest s
      | (s, TypeError) => (s, TypeError)
      end
  end.

End Builtins.

End TestSuite.

(** ** The legacy export [arraysEqual] *)

Module Legacy.

(** How a call of [arraysEqual] ends: it returns, a TypeError propagates,
    or [a.every] is a function of the caller's, which decides. *)
Inductive ending :=
| Returned (result : bool)
| Raised
| Delegated (every : value).

Section Functions.

(** The [length] of the function at an address: the number of its
    parameters. *)
Variable arity : nat -> nat.

(** [v.length]; [None] is the TypeError of reading a property of
    [undefined] or [null]. *)
Definition length_of (v : value) : option value :=
  match v with
  | VUndefined | VNull => None
  | VBool _ | VNumber _ => Some VUndefined
  | VString s => Some (VNumber (float_of_nat (List.length s)))
  | VArray _ elems => Some (VNumber (float_of_nat (List.length elems)))
  | VObject _ props => Some (lookup (js "length") props)
  | VFunction addr => Some (VNumber (float_of_nat (arity addr)))
  end.

(** [b[index]] *)
Definition at_index (b : value) (index : nat) : value :=
  match b with
  | VString s =>
      match nth_error s index with
      | Some c => VString [c]
      | None => VUndefined
      end
  | VArray _ elems => read elems index
  | VObject _ props => lookup (nat_toString index) props
  | _ => VUndefined
  end.

(** [arraysEqual(a, b)]: no [Array.isArray] guard here. *)
Definition arraysEqual (a b : value) : ending :=
  match length_of a with
  | None => Raised
  | Some a_length =>
      match length_of b with
      | None => Raised
      | Some b_length =>
          if strict_eq a_length b_length then
            match a with
            | VArray _ elems =>
                Returned
                  (every elems
                     (fun element index =>
                        strict_eq element (at_index b index)))
            | VObject _ props =>
                match lookup (js "every") props with
                | VFunction f => Delegated (VFunction f)
                | _ => Raised
                end
            | _ => Raised
            end
          else Returned false
      end
  end.

End Functions.

End Legacy.


(** * The vocabulary of the properties *)

(** ** What a reporter wrote *)

Definition jsstring_dec : forall a b : jsstring, {a = b} + {a <> b} :=
  list_eq_dec N.eq_dec.

(** How often a line was written. *)
Definition written (line : jsstring) (out : list jsstring) : nat :=
  count_occ jsstring_dec out line.

(** *** The differential of two values

    What [diff] is to write, spelled out line by line for each reporter
    class.  A colour is the escape character followed by its code. *)
Definition colour (code : string) : jsstring := ESC :: js code.

Definition marker (r : reporter_kind) : jsstring :=
  match r with
  | PlainReporter => js "  [NO VARIANCE DETECTED]"
  | Terminal =>
      js "  " ++ colour "[32m" ++ js "[NO VARIANCE DETECTED]" ++ colour "[0m"
  | Markdown => js "**[NO VARIANCE DETECTED]**"
  end.

(** A line of the expected text as it is written: after the sign [-]. *)
Definition expected_line (r : reporter_kind) (line : jsstring) : jsstring :=
  match r with
  | PlainReporter => js "  - " ++ line
  | Terminal => js "  " ++ colour "[31m" ++ js "- " ++ line ++ colour "[0m"
  | Markdown => js "- " ++ line
  end.

(** A line of the actual text as it is written: after the sign [+]. *)
Definition actual_line (r : reporter_kind) (line : jsstring) : jsstring :=
  match r with
  | PlainReporter => js "  + " ++ line
  | Terminal => js "  " ++ colour "[32m" ++ js "+ " ++ line ++ colour "[0m"
  | Markdown => js "+ " ++ line
  end.

(** The label, in the top line of a frame or as a heading, between two
    empty lines. *)
Definition opening (r : reporter_kind) (label : jsstring) : list jsstring :=
  match r with
  | PlainReporter =>
      [ [];
        BOX_DOWN_RIGHT :: BOX_HORIZONTAL :: js "[ " ++ label ++ js " ]"
          ++ repeat BOX_HORIZONTAL (74 - List.length label);
        [] ]
  | Terminal =>
      [ [];
        colour "[33m" ++ BOX_DOWN_RIGHT :: BOX_HORIZONTAL :: js "[ "
          ++ colour "[1m" ++ label ++ colour "[0m" ++ colour "[33m"
          ++ js " ]" ++ repeat BOX_HORIZONTAL (74 - List.length label)
          ++ colour "[0m";
        [] ]
  | Markdown => [ []; js "### " ++ label; [] ]
  end.

(** The lines that announce the expected text. *)
Definition expected_title (r : reporter_kind) : list jsstring :=
  match r with
  | PlainReporter => [ js "  EXPECTED STATE:" ]
  | Terminal =>
      [ js "  " ++ colour "[36m" ++ js "EXPECTED STATE:" ++ colour "[0m" ]
  | Markdown => [ js "**Expected State:**"; []; js "```diff" ]
  end.

(** The lines between the two texts, which announce the actual one. *)
Definition actual_title (r : reporter_kind) : list jsstring :=
  match r with
  | PlainReporter => [ []; js "  ACTUAL STATE:" ]
  | Terminal =>
      [ []; js "  " ++ colour "[36m" ++ js "ACTUAL STATE:" ++ colour "[0m" ]
  | Markdown => [ js "```"; []; js "**Actual State:**"; []; js "```diff" ]
  end.

(** The lines after the marker. *)
Definition closing (r : reporter_kind) : list jsstring :=
  match r with
  | PlainReporter => [ []; BOX_UP_RIGHT :: repeat BOX_HORIZONTAL 79; [] ]
  | Terminal =>
      [ [];
        colour "[33m" ++ BOX_UP_RIGHT :: repeat BOX_HORIZONTAL 79
          ++ colour "[0m";
        [] ]
  | Markdown => [ [] ]
  end.

(** The lines after the two texts: markdown closes its fence first. *)
Definition texts_end (r : reporter_kind) : list jsstring :=
  match r with
  | PlainReporter | Terminal => closing r
  | Markdown => js "```" :: closing r
  end.

(** The report of two values whose texts are the same: the marker and
    nothing of the values. *)
Definition unchanged (r : reporter_kind) (label : jsstring)
  : list jsstring :=
  opening r label ++ [marker r] ++ closing r.

(** The report of two texts: every line of the expected text, then every
    line of the actual text, each one decorated. *)
Definition changed (r : reporter_kind) (label expectedStr actualStr : jsstring)
  : list jsstring :=
  opening r label
  ++ expected_title r
  ++ map (expected_line r) (split_lines expectedStr)
  ++ actual_title r
  ++ map (actual_line r) (split_lines actualStr)
  ++ texts_end r.

(** The label that a reporter prints for the argument it gets: the
    string given, the default text when the argument is left out; for
    [null] the markdown reporter prints the text null, and the other
    two print nothing ([None]). *)
Definition printed_label (r : reporter_kind) (label : label_arg)
  : option jsstring :=
  match label with
  | LabelString s => Some s
  | LabelOmitted => Some (js "DIFFERENTIAL ANALYSIS")
  | LabelNull =>
      match r with
      | Markdown => Some (js "null")
      | PlainReporter | Terminal => None
      end
  end.

(** Exactly one of two values has a text. *)
Definition lone_text (expectedStr actualStr : option jsstring) : bool :=
  match expectedStr, actualStr with
  | Some _, None | None, Some _ => true
  | Some _, Some _ | None, None => false
  end.

(** *** The registry of failures and the code block, line by line *)

Definition registry_heading (r : reporter_kind) : jsstring :=
  match r with
  | PlainReporter => js "FAILED OPERATIONS REGISTRY:"
  | Terminal =>
      colour "[31m" ++ colour "[1m" ++ js "FAILED OPERATIONS REGISTRY:"
        ++ colour "[0m"
  | Markdown => js "## Failed Operations Registry"
  end.

(** The line of a failure: its id in brackets, then its description. *)
Definition registry_entry (r : reporter_kind) (id description : jsstring)
  : jsstring :=
  match r with
  | PlainReporter => js "  [" ++ id ++ js "] " ++ description
  | Terminal =>
      js "  " ++ colour "[31m" ++ js "[" ++ id ++ js "]" ++ colour "[0m"
        ++ js " " ++ description
  | Markdown => js "- **[" ++ id ++ js "]** " ++ description
  end.

(** The line of its message, indented below it. *)
Definition registry_message (r : reporter_kind) (message : jsstring)
  : jsstring :=
  match r with
  | PlainReporter => js "       " ++ message
  | Terminal =>
      js "       " ++ colour "[33m" ++ message ++ colour "[0m"
  | Markdown => js "  - " ++ message
  end.

(** The label of a code block that is printed: one that is not empty. *)
Definition caption (label : option jsstring) : option jsstring :=
  match label with
  | Some (c :: rest) => Some (c :: rest)
  | Some [] | None => None
  end.

(** The code block with its caption, or without one: the trimmed
    content, between the two lines of a frame when there is a caption,
    or inside a fence that names the language, below the caption in
    bold. *)
Definition code_block (r : reporter_kind) (language content : jsstring)
    (caption : option jsstring) : list jsstring :=
  match r, caption with
  | PlainReporter, Some label =>
      [ BOX_DOWN_RIGHT :: BOX_HORIZONTAL :: js "[ " ++ label ++ js " ]"
          ++ repeat BOX_HORIZONTAL (74 - List.length label);
        trim content;
        BOX_UP_RIGHT :: repeat BOX_HORIZONTAL 79;
        [] ]
  | PlainReporter, None => [ trim content; [] ]
  | Terminal, Some label =>
      [ colour "[2m" ++ BOX_DOWN_RIGHT :: BOX_HORIZONTAL :: js "[ "
          ++ colour "[0m" ++ colour "[35m" ++ label ++ colour "[0m"
          ++ colour "[2m" ++ js " ]"
          ++ repeat BOX_HORIZONTAL (74 - List.length label)
          ++ colour "[0m";
        colour "[2m" ++ trim content ++ colour "[0m";
        colour "[2m" ++ BOX_UP_RIGHT :: repeat BOX_HORIZONTAL 79
          ++ colour "[0m";
        [] ]
  | Terminal, None => [ colour "[2m" ++ trim content ++ colour "[0m"; [] ]
  | Markdown, Some label =>
      [ js "**" ++ label ++ js "**"; [];
        js "```" ++ language; trim content; js "```"; [] ]
  | Markdown, None => [ js "```" ++ language; trim content; js "```"; [] ]
  end.

(** ** Calls, results and suites *)

Import TestSuite.

Definition is_test (o : op) : bool :=
  match o with
  | DoTest _ _ | DoAssertEqual _ _ _ | DoAssertArraysEqual _ _ _ => true
  | _ => false
  end.

Definition is_section (o : op) : bool :=
  match o with
  | DoSection _ => true
  | _ => false
  end.

(** The test invocations of a sequence of calls. *)
Definition invocations (ops : list op) : nat :=
  List.length (filter is_test ops).

Definition passing (r : Result.t) : bool := truthy (Result.passed r).

(** The results that the accumulators of [s'] hold beyond those of [s]. *)
Definition appended (s s' : t) : list Result.t :=
  skipn (List.length (successes s)) (successes s')
  ++ skipn (List.length (failures s)) (failures s').

(** The record [test] starts from. *)
Definition blank (description : value) (s : t) : Result.t :=
  Result.mk (testId (sectionNumber s) (testNumber s + 1)) description
            (VBool false) VNull VNull VNull.

(** The suite with its test counter advanced and nothing else changed:
    what a [test] call that raises leaves behind. *)
Definition counted (s : t) : t :=
  mk (name s) (verbosity s) (testNumber s + 1) (sectionNumber s)
     (failures s) (successes s) (startTime s) (reporter s) (calls s).

(** Two suites that differ at most in the calls recorded for the
    reporter. *)
Definition same_suite (a b : t) : Prop :=
  name a = name b /\ verbosity a = verbosity b
  /\ testNumber a = testNumber b /\ sectionNumber a = sectionNumber b
  /\ failures a = failures b /\ successes a = successes b
  /\ startTime a = startTime b /\ reporter a = reporter b.

Definition section_free (ops : list op) : bool :=
  forallb (fun o => negb (is_section o)) ops.

Definition NaN : value := VNumber S754_nan.

Definition dense (elems : list (option value)) : Prop :=
  forall k, k < List.length elems -> nth_error elems k <> Some None.

Definition number (n : nat) : value := VNumber (float_of_nat n).

(** The value of a finite result is below [2^B]; zeros and finite values
    of sign [s] only. *)
Definition magnitude_below (B : Z) (s : bool) (x : spec_float) : Prop :=
  match x with
  | S754_zero s' => s' = s
  | S754_finite s' m e => s' = s /\ (Z.pos m < 2 ^ (B - e))%Z
  | _ => False
  end.

Definition is_digit (c : codeunit) : Prop := (48 <= c <= 57)%N.

(** Fixed notation with two decimals: digits, a point, two digits. *)
Definition two_decimals (text : jsstring) : Prop :=
  exists whole frac,
    text = whole ++ DOT :: frac
    /\ whole <> [] /\ List.length frac = 2
    /\ Forall is_digit whole /\ Forall is_digit frac.

(** The value that one unit at exponent [e] stands for, scaled by [2^K]
    so that it is an integer. *)
Definition ulp (K e : Z) : Z := (2 ^ (e + K))%Z.

(** 100 as a binary64 value. *)
Definition hundred : float := S754_finite false 7036874417766400 (-46).

(** [n] hundredths are less than one hundredth away from the percentage
    [100 * passed / total]. *)
Definition near_percentage (passed total : nat) (n : Z) : Prop :=
  (10000 * Z.of_nat passed - Z.of_nat total < n * Z.of_nat total
   < 10000 * Z.of_nat passed + Z.of_nat total)%Z.

(** The text before the first occurrence of a code unit, or all of it. *)
Fixpoint before (sep : codeunit) (s : jsstring) : jsstring :=
  match s with
  | [] => []
  | c :: rest => if N.eqb c sep then [] else c :: before sep rest
  end.

(** No argument of the command line gives a format. *)
Definition no_format (argv : list jsstring) : Prop :=
  forall arg, In arg argv -> startsWith arg (js "--format=") = false.

(** ** What the suite asks of its reporter *)

(** The least verbosity at which the suite makes a call on its
    reporter. *)
Definition required_level (c : call) : nat :=
  match c with
  | CallTestFailed _ _ _ | CallError _ => QUIET
  | CallHeader _ | CallSection _ _ | CallSubsection _ _ _
  | CallSummary _ | CallInfo _ | CallWarn _ => NORMAL
  | CallCode _ _ _ | CallTestPassed _ _ | CallFailureDetails _
  | CallDiff _ _ _ | CallLog _ | CallSuccess _ => VERBOSE
  end.

(** The calls that [s'] has recorded beyond those of [s]. *)
Definition new_calls (s s' : t) : list call :=
  skipn (List.length (calls s)) (calls s').

Definition is_test_report (c : call) : bool :=
  match c with
  | CallTestPassed _ _ | CallTestFailed _ _ _ => true
  | _ => false
  end.

(** The report of a result at a verbosity: a passing one is reported
    from VERBOSE on, a failing one from QUIET on. *)
Definition test_report (verbosity : nat) (r : Result.t) : list call :=
  if passing r then
    if VERBOSE <=? verbosity
    then [CallTestPassed (Result.id r) (Result.description r)] else []
  else
    if QUIET <=? verbosity
    then [CallTestFailed (Result.id r) (Result.description r) r] else [].

(** [s'] comes from [s] by calls on the reporter that the verbosity
    allows; the test reports among them are those of the results that
    [s'] holds beyond [s]. *)
Definition reported (s s' : t) : Prop :=
  verbosity s' = verbosity s
  /\ exists made,
       calls s' = calls s ++ made
       /\ Forall (fun c => required_level c <= verbosity s) made
       /\ filter is_test_report made
          = flat_map (test_report (verbosity s)) (appended s s').

(** The values returned by an assertion callback that make a test pass:
    [true], and an object whose [passed] is truthy. *)
Definition accepted (v : value) : bool :=
  match v with
  | VBool b => b
  | VObject _ props => truthy (lookup (js "passed") props)
  | _ => false
  end.

(** A call that is neither a test nor a section: it only reports. *)
Definition narrates (o : op) : bool :=
  negb (is_test o) && negb (is_section o).

(** Two suites that differ at most in their verbosity, which is VERBOSE
    or above for both. *)
Definition equally_loud (a b : t) : Prop :=
  VERBOSE <= verbosity a /\ VERBOSE <= verbosity b
  /\ name a = name b /\ testNumber a = testNumber b
  /\ sectionNumber a = sectionNumber b
  /\ failures a = failures b /\ successes a = successes b
  /\ startTime a = startTime b /\ reporter a = reporter b
  /\ calls a = calls b.

(** The results a suite holds. *)
Definition stored (s : t) : list Result.t := successes s ++ failures s.

(** A suite whose stored results carry pairwise distinct ids, each one
    made of a section number and a test number that the counters have
    reached. *)
Definition well_numbered (s : t) : Prop :=
  NoDup (map Result.id (stored s))
  /\ forall r, In r (stored s) ->
       exists a b,
         Result.id r = testId a b
         /\ (a < sectionNumber s
             \/ (a = sectionNumber s /\ b <= testNumber s)).

(** ** What a terminal shows *)

(** The line without its colour sequences: an escape character hides
    everything up to the next [m]. *)
Fixpoint visible_from (hidden : bool) (s : jsstring) : jsstring :=
  match s with
  | [] => []
  | c :: rest =>
      if hidden then visible_from (negb (N.eqb c 109)) rest
      else if N.eqb c ESC then visible_from true rest
      else c :: visible_from false rest
  end.

Definition visible (s : jsstring) : jsstring := visible_from false s.

(** Whether a text ends inside a colour sequence. *)
Fixpoint hidden_after (hidden : bool) (s : jsstring) : bool :=
  match s with
  | [] => hidden
  | c :: rest =>
      if hidden then hidden_after (negb (N.eqb c 109)) rest
      else hidden_after (N.eqb c ESC) rest
  end.

Definition no_escape (s : jsstring) : Prop := ~ In ESC s.

(** The columns of a line, one for each code unit. *)
Definition width (line : jsstring) : nat := List.length line.

(** A text without escape character that fits a field of [n] columns. *)
Definition fits (n : nat) (text : jsstring) : Prop :=
  no_escape text /\ width text <= n.

Section Reports.

Variable String_ : value -> jsstring.
Variable JSON_stringify : value -> option jsstring.
Variable JSON_text : value -> jsstring.

(** What the reporter of a class writes for a call: its own method, or
    the one it inherits ([log] of the terminal and markdown reporters). *)
Definition report (r : reporter_kind) (m : Reporter.metadata) (c : call)
  : list jsstring :=
  match c with
  | CallHeader testSuiteName =>
      match r with
      | PlainReporter => Reporter.header m testSuiteName
      | Terminal => TerminalReporter.header m testSuiteName
      | Markdown => MarkdownReporter.header m testSuiteName
      end
  | CallSection sectionNumber title =>
      match r with
      | PlainReporter => Reporter.section String_ sectionNumber title
      | Terminal => TerminalReporter.section String_ sectionNumber title
      | Markdown => MarkdownReporter.section String_ sectionNumber title
      end
  | CallSubsection sectionNumber testNumber title =>
      match r with
      | PlainReporter =>
          Reporter.subsection String_ sectionNumber testNumber title
      | Terminal =>
          TerminalReporter.subsection String_ sectionNumber testNumber title
      | Markdown =>
          MarkdownReporter.subsection String_ sectionNumber testNumber title
      end
  | CallCode language content label =>
      match r with
      | PlainReporter => Reporter.code language content label
      | Terminal => TerminalReporter.code language content label
      | Markdown => MarkdownReporter.code language content label
      end
  | CallTestPassed testId description =>
      match r with
      | PlainReporter => Reporter.testPassed String_ testId description
      | Terminal => TerminalReporter.testPassed String_ testId description
      | Markdown => MarkdownReporter.testPassed String_ testId description
      end
  | CallTestFailed testId description result =>
      match r with
      | PlainReporter =>
          Reporter.testFailed String_ JSON_text testId description result
      | Terminal =>
          TerminalReporter.testFailed String_ JSON_text testId description
            result
      | Markdown =>
          MarkdownReporter.testFailed String_ JSON_text testId description
            result
      end
  | CallSummary stats =>
      match r with
      | PlainReporter => Reporter.summary String_ stats
      | Terminal => TerminalReporter.summary String_ stats
      | Markdown => MarkdownReporter.summary String_ stats
      end
  | CallFailureDetails failures =>
      match r with
      | PlainReporter => Reporter.failureDetails String_ failures
      | Terminal => TerminalReporter.failureDetails String_ failures
      | Markdown => MarkdownReporter.failureDetails String_ failures
      end
  | CallDiff expected actual label =>
      fst (reporter_diff String_ JSON_stringify r expected actual label)
  | CallLog args => Reporter.log String_ args
  | CallInfo args =>
      match r with
      | PlainReporter => Reporter.info String_ args
      | Terminal => TerminalReporter.info String_ args
      | Markdown => MarkdownReporter.info String_ args
      end
  | CallWarn args =>
      match r with
      | PlainReporter => Reporter.warn String_ args
      | Terminal => TerminalReporter.warn String_ args
      | Markdown => MarkdownReporter.warn String_ args
      end
  | CallError args =>
      match r with
      | PlainReporter => Reporter.error String_ args
      | Terminal => TerminalReporter.error String_ args
      | Markdown => MarkdownReporter.error String_ args
      end
  | CallSuccess args =>
      match r with
      | PlainReporter => Reporter.success String_ args
      | Terminal => TerminalReporter.success String_ args
      | Markdown => MarkdownReporter.success String_ args
      end
  end.

(** A value inside a template literal: a string as it is, any other
    value through [String]. *)
Definition interpolated (v : value) : jsstring :=
  match v with
  | VString s => s
  | _ => String_ v
  end.

(** A result whose id, description and message print without escape
    character. *)
Definition escape_free (f : Result.t) : Prop :=
  no_escape (Result.id f)
  /\ no_escape (Reporter.text String_ (Result.description f))
  /\ no_escape (Reporter.text String_ (Result.message f)).

End Reports.

(** The closed instances below never reach [Number::toString],
    [String(v)] or [JSON.stringify]; they run with these stand-ins. *)
Definition unreached {A : Type} (_ : A) : jsstring := [].
Definition no_text {A : Type} (_ : A) : option jsstring := None.

Section Observations.

Variable Number_toString : float -> jsstring.
Variable String_ : value -> jsstring.
Variable JSON_stringify : value -> option jsstring.

(** The results created by the test invocations of a sequence of calls,
    in the order of execution, up to the first call that raises: the
    caller does not catch. *)
Fixpoint results (ops : list op) (s : t) : list Result.t :=
  match ops with
  | [] => []
  | o :: rest =>
      match step Number_toString String_ JSON_stringify o s with
      | (s', Normal) => appended s s' ++ results rest s'
      | (s', TypeError) => appended s s'
      end
  end.

(** The test calls of a sequence of calls whose caller catches what a
    call raises and goes on with the next call: for each test call, in
    order, the results it created and how it ended. *)
Fixpoint test_calls (ops : list op) (s : t)
  : list (list Result.t * completion) :=
  match ops with
  | [] => []
  | o :: rest =>
      let '(s', c) := step Number_toString String_ JSON_stringify o s in
      (if is_test o then [(appended s s', c)] else [])
      ++ test_calls rest s'
  end.

(** [summary()] called once for each clock reading of [nows]. *)
Definition summaries (nows : list Z) (s : t) : t :=
  fold_left (fun s now => fst (summary Number_toString now s)) nows s.

End Observations.

(** * Properties *)

Lemma repeat_string_unit (c : codeunit) (n : nat) :
  repeat_string [c] n = repeat c n.
Proof.
  unfold repeat_string. induction n as [|n IH]; simpl; [reflexivity|].
  now rewrite IH.
Qed.

(** C8. For every string [text] and every natural [targetWidth],
    [_pad(text, targetWidth)] is [text] followed by spaces only, up to a
    length of at least [targetWidth] (exactly the larger of the two
    lengths); a text already that long comes back unchanged, never
    truncated.  [_pad("abc", 10)] is ["abc"] and 7 spaces,
    [_pad("abcdefghij", 5)] is ["abcdefghij"]. *)
Theorem pad_right_pads_never_truncates :
  (forall (text : jsstring) (targetWidth : nat),
      Reporter._pad text targetWidth
        = text ++ repeat SPACE (targetWidth - List.length text)
      /\ targetWidth <= List.length (Reporter._pad text targetWidth)
      /\ List.length (Reporter._pad text targetWidth)
           = Nat.max (List.length text) targetWidth
      /\ (targetWidth <= List.length text ->
          Reporter._pad text targetWidth = text))
  /\ Reporter._pad (js "abc") 10 = js "abc" ++ repeat SPACE 7
  /\ Reporter._pad (js "abc") 10 = js "abc       "
  /\ List.length (Reporter._pad (js "abc") 10) = 10
  /\ Reporter._pad (js "abcdefghij") 5 = js "abcdefghij".
Proof.
  split; [|repeat split; reflexivity].
  intros text targetWidth. unfold Reporter._pad.
  rewrite Nat.max_0_l, repeat_string_unit.
  repeat split.
  - rewrite length_app, repeat_length. lia.
  - rewrite length_app, repeat_length. lia.
  - intros Hlong. replace (targetWidth - List.length text) with 0 by lia.
    simpl. now rewrite app_nil_r.
Qed.

(** ** Strings and lines *)

Lemma jsstring_eqb_eq (a b : jsstring) : jsstring_eqb a b = true <-> a = b.
Proof.
  unfold jsstring_eqb. destruct (list_eq_dec N.eq_dec a b); split;
    congruence.
Qed.

Lemma jsstring_eqb_refl (a : jsstring) : jsstring_eqb a a = true.
Proof. now apply jsstring_eqb_eq. Qed.

Lemma jsstring_eqb_neq (a b : jsstring) : jsstring_eqb a b = false <-> a <> b.
Proof.
  unfold jsstring_eqb. destruct (list_eq_dec N.eq_dec a b); split;
    congruence.
Qed.

Lemma split_lines_not_nil (s : jsstring) : split_lines s <> [].
Proof.
  destruct s as [|c s]; simpl; [discriminate|].
  destruct (N.eqb c NEWLINE); [discriminate|].
  destruct (split_lines s); discriminate.
Qed.

(** Splitting loses nothing: joining the lines with line feeds gives the
    text back. *)
Lemma join_split_lines (s : jsstring) : join_lines (split_lines s) = s.
Proof.
  induction s as [|c s IH]; [reflexivity|].
  simpl. destruct (N.eqb c NEWLINE) eqn:Hc.
  - apply N.eqb_eq in Hc. subst c.
    pose proof (split_lines_not_nil s) as Hne.
    destruct (split_lines s) as [|l ls] eqn:Hs; [congruence|].
    simpl. simpl in IH. now rewrite IH.
  - pose proof (split_lines_not_nil s) as Hne.
    destruct (split_lines s) as [|l ls] eqn:Hs; [congruence|].
    destruct ls as [|l' ls]; simpl in *; now rewrite <- IH.
Qed.

(** No line of a split text holds a line feed. *)
Lemma split_lines_no_newline (s : jsstring) :
  Forall (fun line => ~ In NEWLINE line) (split_lines s).
Proof.
  induction s as [|c s IH]; simpl.
  - constructor; [intros []|constructor].
  - destruct (N.eqb c NEWLINE) eqn:Hc.
    + constructor; [intros []|exact IH].
    + apply N.eqb_neq in Hc.
      destruct (split_lines s) as [|l ls]; inversion IH; subst.
      * constructor; [|constructor]. intros [H|[]]. congruence.
      * constructor; [|assumption]. intros [H|H]; [congruence|tauto].
Qed.

(** ** The diff of the reporters *)

Lemma written_cons_neq (line h : jsstring) (out : list jsstring) :
  h <> line -> written line (h :: out) = written line out.
Proof. intros H. unfold written. now apply count_occ_cons_neq. Qed.

Lemma written_cons_eq (line : jsstring) (out : list jsstring) :
  written line (line :: out) = S (written line out).
Proof. unfold written. now apply count_occ_cons_eq. Qed.

Lemma written_app (line : jsstring) (a b : list jsstring) :
  written line (a ++ b) = written line a + written line b.
Proof. unfold written. apply count_occ_app. Qed.

Lemma written_map_none (line : jsstring) (f : jsstring -> jsstring)
    (lines : list jsstring) :
  (forall l, f l <> line) -> written line (map f lines) = 0.
Proof.
  intros Hf. induction lines as [|l lines IH]; [reflexivity|].
  cbn [map]. rewrite written_cons_neq; auto.
Qed.

Ltac differs := let H := fresh in intro H; cbv in H; discriminate H.

Lemma marker_once (r : reporter_kind) (label : jsstring) :
  written (marker r) (unchanged r label) = 1.
Proof.
  destruct r; unfold unchanged, opening, closing, marker; cbn [app];
    repeat first
      [ rewrite written_cons_eq
      | rewrite written_cons_neq by differs ];
    reflexivity.
Qed.

Lemma expected_line_not_marker (r : reporter_kind) (line : jsstring) :
  expected_line r line <> marker r.
Proof. destruct r; differs. Qed.

Lemma actual_line_not_marker (r : reporter_kind) (line : jsstring) :
  actual_line r line <> marker r.
Proof. destruct r; differs. Qed.

Lemma marker_not_opening (r : reporter_kind) (label : jsstring) :
  written (marker r) (opening r label) = 0.
Proof.
  destruct r; unfold opening, marker;
    repeat rewrite written_cons_neq by differs; reflexivity.
Qed.

Lemma marker_not_titles (r : reporter_kind) :
  written (marker r) (expected_title r) = 0
  /\ written (marker r) (actual_title r) = 0
  /\ written (marker r) (texts_end r) = 0.
Proof.
  destruct r; unfold expected_title, actual_title, texts_end, closing, marker;
    repeat split;
    repeat rewrite written_cons_neq by differs; reflexivity.
Qed.

Lemma marker_not_changed (r : reporter_kind)
    (label expectedStr actualStr : jsstring) :
  written (marker r) (changed r label expectedStr actualStr) = 0.
Proof.
  destruct (marker_not_titles r) as (He & Ha & Ht).
  unfold changed.
  rewrite !written_app, marker_not_opening, He, Ha, Ht.
  rewrite !written_map_none;
    auto using expected_line_not_marker, actual_line_not_marker.
Qed.

Section DiffProperties.

Variable String_ : value -> jsstring.
Variable JSON_stringify : value -> option jsstring.

Local Abbreviation _stringify :=
  (Reporter._stringify String_ JSON_stringify).
Local Abbreviation reporter_diff :=
  (TestSuite.reporter_diff String_ JSON_stringify).

(** A label that cannot be printed: the call raises after one empty
    line. *)
Lemma diff_unprinted (r : reporter_kind) (expected actual : value)
    (label : label_arg) :
  printed_label r label = None ->
  reporter_diff r expected actual label = ([ [] ], TypeError).
Proof.
  destruct label, r; cbn [printed_label]; try discriminate; reflexivity.
Qed.

(** What the call writes and how it ends, by the texts of the two
    values. *)
Lemma diff_texts (r : reporter_kind) (expected actual : value)
    (label : label_arg) (l : jsstring) :
  printed_label r label = Some l ->
  reporter_diff r expected actual label
  = match _stringify expected, _stringify actual with
    | Some e, Some a =>
        if jsstring_eqb e a then (unchanged r l, Normal)
        else (changed r l e a, Normal)
    | None, None => (unchanged r l, Normal)
    | None, Some _ => (opening r l ++ expected_title r, TypeError)
    | Some e, None =>
        (opening r l ++ expected_title r
         ++ map (expected_line r) (split_lines e) ++ actual_title r,
         TypeError)
    end.
Proof.
  intros Hl.
  assert (Hb : match r with
               | Markdown =>
                   Reporter.label_text (Reporter.bind_label label) = l
               | _ => Reporter.bind_label label = Some l
               end).
  { destruct label, r; cbn in Hl |- *; congruence. }
  destruct r; cbn [TestSuite.reporter_diff];
    unfold Reporter.diff, TerminalReporter.diff, MarkdownReporter.diff;
    rewrite Hb;
    unfold Reporter.diff_head, TerminalReporter.diff_head,
      MarkdownReporter.diff_head, Reporter.diff_foot,
      TerminalReporter.diff_foot;
    rewrite ?repeat_string_unit;
    destruct (_stringify expected) as [e|], (_stringify actual) as [a|];
    cbn [Reporter.same_text];
    try destruct (jsstring_eqb e a);
    unfold unchanged, changed; rewrite <- ?app_assoc; reflexivity.
Qed.

(** C7. For every reporter class, every pair of values and every label
    argument.  With a label that the reporter prints (a string, the
    default when it is left out, and for markdown also [null]) and two
    values that have a text: the call returns; when the two texts are
    the same string, what is written is the opening, one no-variance
    marker and the closing, nothing of the values, and the marker occurs
    exactly once; when the texts differ, what is written holds every
    line of the expected text after its sign [-] and every line of the
    actual text after its sign [+], in order, the lines add up to the
    whole texts, and no marker is written.  [diff(v, v, label)] writes
    the marker once.  Two values without a text are reported like equal
    ones.  The call raises a TypeError in three cases, having written no
    marker: the expected value alone has no text (nothing of the values
    is written), the actual value alone has no text (only the expected
    text is written), and a [null] label on the plain or the terminal
    reporter (one empty line is written), also for [diff(v, v, null)]. *)
Theorem diff_marker_both_texts_or_raise :
  forall (r : reporter_kind) (expected actual : value) (label : label_arg),
    let call := reporter_diff r expected actual label in
    let out := fst call in
    (forall l, printed_label r label = Some l ->
       (forall e a,
           _stringify expected = Some e -> _stringify actual = Some a ->
           snd call = Normal
           /\ (e = a ->
               out = unchanged r l /\ written (marker r) out = 1)
           /\ (e <> a ->
               out = changed r l e a
               /\ join_lines (split_lines e) = e
               /\ join_lines (split_lines a) = a
               /\ written (marker r) out = 0))
       /\ reporter_diff r expected expected label = (unchanged r l, Normal)
       /\ written (marker r) (unchanged r l) = 1
       /\ (_stringify expected = None -> _stringify actual = None ->
           call = (unchanged r l, Normal))
       /\ (forall a,
              _stringify expected = None -> _stringify actual = Some a ->
              call = (opening r l ++ expected_title r, TypeError))
       /\ (forall e,
              _stringify expected = Some e -> _stringify actual = None ->
              call = (opening r l ++ expected_title r
                      ++ map (expected_line r) (split_lines e)
                      ++ actual_title r, TypeError)))
    /\ (printed_label r label = None ->
        call = ([ [] ], TypeError)
        /\ reporter_diff r expected expected label = ([ [] ], TypeError))
    /\ (snd call = TypeError -> written (marker r) out = 0).
Proof.
  intros r expected actual label call out.
  split; [|split].
  - intros l Hl.
    pose proof (diff_texts r expected actual label Hl) as Hc.
    pose proof (diff_texts r expected expected label Hl) as Hv.
    fold call in Hc. subst out.
    split; [|split; [|split; [|split; [|split]]]].
    + intros e a He Ha. rewrite He, Ha in Hc.
      destruct (jsstring_dec e a) as [Heq|Hne].
      * rewrite (proj2 (@jsstring_eqb_eq e a) Heq) in Hc.
        rewrite Hc. cbn [fst snd].
        split; [reflexivity|]. split; [|contradiction].
        intros _. split; [reflexivity|apply marker_once].
      * rewrite (proj2 (@jsstring_eqb_neq e a) Hne) in Hc.
        rewrite Hc. cbn [fst snd].
        split; [reflexivity|]. split; [contradiction|].
        intros _. split; [reflexivity|].
        split; [apply join_split_lines|].
        split; [apply join_split_lines|apply marker_not_changed].
    + destruct (_stringify expected) as [e|]; [|exact Hv].
      now rewrite jsstring_eqb_refl in Hv.
    + apply marker_once.
    + intros He Ha. now rewrite He, Ha in Hc.
    + intros a He Ha. now rewrite He, Ha in Hc.
    + intros e He Ha. now rewrite He, Ha in Hc.
  - intros Hl. split; now apply diff_unprinted.
  - intros Hraise. subst out.
    destruct (printed_label r label) as [l|] eqn:Hl.
    + pose proof (diff_texts r expected actual label Hl) as Hc.
      fold call in Hc, Hraise.
      destruct (marker_not_titles r) as (He & Ha & _).
      destruct (_stringify expected) as [e|], (_stringify actual) as [a|];
        try destruct (jsstring_eqb e a);
        rewrite Hc in Hraise |- *; cbn [fst snd] in Hraise |- *;
        try discriminate Hraise.
      * rewrite !written_app, marker_not_opening, He, Ha.
        rewrite written_map_none by apply expected_line_not_marker.
        reflexivity.
      * rewrite !written_app, marker_not_opening, He. reflexivity.
    + subst call. rewrite (diff_unprinted r expected actual label Hl).
      cbn [fst]. destruct r; rewrite written_cons_neq by differs;
        reflexivity.
Qed.

End DiffProperties.

(** ** The suite engine *)

Lemma skipn_length_app {A : Type} (l x : list A) :
  skipn (List.length l) (l ++ x) = x.
Proof. induction l; simpl; auto. Qed.

Lemma skipn_length_self {A : Type} (l : list A) :
  skipn (List.length l) l = [].
Proof. induction l; simpl; auto. Qed.

Lemma settle_id (result r : Result.t) (assertion : outcome) :
  settle result assertion = Some r ->
  Result.id r = Result.id result
  /\ Result.description r = Result.description result.
Proof.
  destruct assertion as [v|e]; unfold settle.
  - destruct (jstype_eqb (typeof v) TBoolean);
      [|destruct (truthy v && jstype_eqb (typeof v) TObject)];
      intros [= <-]; auto.
  - destruct (get e (js "message")); [|discriminate].
    intros [= <-]; auto.
Qed.

(** [test], case by case. *)
Lemma test_cases (description : value) (assertion : outcome) (s : t) :
  match settle (blank description s) assertion with
  | None => test description assertion s = (counted s, TypeError)
  | Some r =>
      snd (test description assertion s) = Normal
      /\ let s' := fst (test description assertion s) in
         name s' = name s /\ verbosity s' = verbosity s
         /\ testNumber s' = testNumber s + 1
         /\ sectionNumber s' = sectionNumber s
         /\ startTime s' = startTime s /\ reporter s' = reporter s
         /\ (if passing r
             then successes s' = successes s ++ [r]
                  /\ failures s' = failures s
                  /\ calls s' = calls s
                       ++ (if VERBOSE <=? verbosity s
                           then [CallTestPassed (Result.id r) description]
                           else [])
             else failures s' = failures s ++ [r]
                  /\ successes s' = successes s
                  /\ calls s' = calls s
                       ++ (if QUIET <=? verbosity s
                           then [CallTestFailed (Result.id r) description r]
                           else []))
  end.
Proof.
  unfold test, blank, passing. cbn [sectionNumber testNumber].
  destruct (settle _ assertion) as [r|] eqn:Hs; [|reflexivity].
  apply settle_id in Hs. destruct Hs as [Hid _]. cbn in Hid.
  rewrite Hid.
  destruct (truthy (Result.passed r)); cbn [verbosity];
    [destruct (VERBOSE <=? verbosity s)|destruct (QUIET <=? verbosity s)];
    cbn; rewrite ?app_nil_r; repeat split; reflexivity.
Qed.

Lemma appended_none (s s' : t) :
  successes s' = successes s -> failures s' = failures s ->
  appended s s' = [].
Proof.
  intros Hs Hf. unfold appended. now rewrite Hs, Hf, !skipn_length_self.
Qed.

Lemma appended_success (s s' : t) (r : Result.t) :
  successes s' = successes s ++ [r] -> failures s' = failures s ->
  appended s s' = [r].
Proof.
  intros Hs Hf. unfold appended.
  now rewrite Hs, Hf, skipn_length_app, skipn_length_self.
Qed.

Lemma appended_failure (s s' : t) (r : Result.t) :
  failures s' = failures s ++ [r] -> successes s' = successes s ->
  appended s s' = [r].
Proof.
  intros Hf Hs. unfold appended.
  now rewrite Hs, Hf, skipn_length_app, skipn_length_self.
Qed.

Lemma same_suite_refl (s : t) : same_suite s s.
Proof. unfold same_suite. tauto. Qed.

Lemma same_suite_forward (s : t) (c : call) : same_suite (forward s c) s.
Proof. unfold same_suite, forward. cbn. tauto. Qed.

Lemma same_suite_trans (a b c : t) :
  same_suite a b -> same_suite b c -> same_suite a c.
Proof. unfold same_suite. intuition congruence. Qed.

Lemma same_suite_sym (a b : t) : same_suite a b -> same_suite b a.
Proof. unfold same_suite. intuition congruence. Qed.

Create HintDb suite.
#[local] Hint Resolve same_suite_refl same_suite_forward : suite.

(** ** Magnitudes of binary64 results *)

Section Binary64.

Local Open Scope Z_scope.

Lemma digits2_pos_size (p : positive) : digits2_pos p = Pos.size p.
Proof. induction p; cbn; congruence. Qed.

Lemma digits_upper (p : positive) : Z.pos p < 2 ^ Z.pos (digits2_pos p).
Proof.
  rewrite digits2_pos_size. pose proof (Pos.size_gt p) as H.
  rewrite <- Pos2Z.inj_pow. now apply Pos2Z.pos_lt_pos.
Qed.

Lemma digits_lower (p : positive) : 2 ^ Z.pos (digits2_pos p) <= 2 * Z.pos p.
Proof.
  rewrite digits2_pos_size. pose proof (Pos.size_le p) as H.
  rewrite <- Pos2Z.inj_pow. now apply Pos2Z.pos_le_pos.
Qed.

(** [m < 2^d] bounds the digits, and back. *)
Lemma digits_le_iff (p : positive) (d : Z) :
  Z.pos (digits2_pos p) <= d <-> Z.pos p < 2 ^ d.
Proof.
  split; intros H.
  - eapply Z.lt_le_trans; [apply digits_upper|].
    apply Z.pow_le_mono_r; lia.
  - pose proof (digits_lower p) as Hl.
    destruct (Z.le_gt_cases (Z.pos (digits2_pos p)) d) as [|Hgt]; [assumption|].
    assert (2 ^ (d + 1) <= 2 ^ Z.pos (digits2_pos p)).
    { destruct (Z.le_gt_cases 0 d).
      - apply Z.pow_le_mono_r; lia.
      - rewrite Z.pow_neg_r in H by lia. lia. }
    destruct (Z.le_gt_cases 0 d) as [Hd|Hd].
    + rewrite Z.pow_add_r in * by lia. lia.
    + rewrite Z.pow_neg_r in H by lia. lia.
Qed.

Lemma shr_1_m (mrs : shr_record) :
  0 <= shr_m mrs -> shr_m (shr_1 mrs) = shr_m mrs / 2.
Proof.
  destruct mrs as [m r s]. cbn [shr_m]. intros Hm. unfold shr_1.
  destruct m as [|[p|p|]|p]; cbn [shr_m]; try lia; try reflexivity.
  - apply Z.div_unique with (r := 1); lia.
  - apply Z.div_unique with (r := 0); lia.
Qed.

Lemma shr_1_nonneg (mrs : shr_record) :
  0 <= shr_m mrs -> 0 <= shr_m (shr_1 mrs).
Proof.
  intros H. rewrite shr_1_m by assumption. apply Z.div_pos; lia.
Qed.

Lemma iter_shr_1_m (p : positive) :
  forall mrs, 0 <= shr_m mrs ->
    shr_m (iter_pos shr_1 p mrs) = shr_m mrs / 2 ^ Z.pos p.
Proof.
  induction p as [p IH|p IH|]; intros mrs Hm; cbn [iter_pos].
  - assert (H1 : 0 <= shr_m (shr_1 mrs)) by now apply shr_1_nonneg.
    assert (H2 : 0 <= shr_m (iter_pos shr_1 p (shr_1 mrs))).
    { rewrite IH by assumption. apply Z.div_pos; lia. }
    rewrite IH, IH, shr_1_m by assumption.
    rewrite !Z.div_div by lia. f_equal.
    replace (Z.pos p~1) with (1 + Z.pos p + Z.pos p) by lia.
    rewrite !Z.pow_add_r by lia. lia.
  - assert (H2 : 0 <= shr_m (iter_pos shr_1 p mrs)).
    { rewrite IH by assumption. apply Z.div_pos; lia. }
    rewrite IH, IH by assumption.
    rewrite !Z.div_div by lia. f_equal.
    replace (Z.pos p~0) with (Z.pos p + Z.pos p) by lia.
    rewrite !Z.pow_add_r by lia. lia.
  - now rewrite shr_1_m.
Qed.

Lemma shr_m_e (mrs : shr_record) (e n : Z) :
  0 <= shr_m mrs ->
  shr_m (fst (shr mrs e n)) = shr_m mrs / 2 ^ Z.max 0 n
  /\ snd (shr mrs e n) = e + Z.max 0 n.
Proof.
  intros Hm. unfold shr. destruct n as [|p|p]; cbn [fst snd].
  - rewrite Z.max_id. cbn. rewrite Z.div_1_r. lia.
  - rewrite iter_shr_1_m by assumption. rewrite Z.max_r by lia. lia.
  - rewrite Z.max_l by lia. cbn. rewrite Z.div_1_r. lia.
Qed.

Local Abbreviation fexp64 := (fexp 53 1024).

Lemma fexp64_eq (x : Z) : fexp64 x = Z.max (x - 53) (-1074).
Proof. reflexivity. Qed.

Lemma shr_record_of_loc_m (m : Z) (l : location) :
  shr_m (shr_record_of_loc m l) = m.
Proof. destruct l as [|[| |]]; reflexivity. Qed.

Lemma shr_fexp_m_e (m e : Z) (l : location) :
  0 <= m ->
  let k := Z.max 0 (fexp64 (Zdigits2 m + e) - e) in
  shr_m (fst (shr_fexp 53 1024 m e l)) = m / 2 ^ k
  /\ snd (shr_fexp 53 1024 m e l) = e + k.
Proof.
  intros Hm k. unfold shr_fexp.
  pose proof (@shr_m_e (shr_record_of_loc m l) e
                (fexp64 (Zdigits2 m + e) - e)) as H.
  rewrite shr_record_of_loc_m in H. now apply H.
Qed.

Lemma round_nearest_even_bounds (m : Z) (l : location) :
  m <= round_nearest_even m l <= m + 1.
Proof.
  unfold round_nearest_even. destruct l as [|[| |]]; try lia.
  destruct (Z.even m); lia.
Qed.

Lemma Zdigits2_le (m d : Z) :
  0 < m -> m < 2 ^ d -> Zdigits2 m <= d.
Proof.
  intros Hm Hlt. destruct m as [|p|p]; try lia.
  cbn [Zdigits2]. now apply digits_le_iff.
Qed.

Lemma div_pow2_lt (m a k : Z) :
  0 <= m -> 0 <= k -> k <= a -> m < 2 ^ a -> m / 2 ^ k < 2 ^ (a - k).
Proof.
  intros Hm Hk Ha Hlt. apply Z.div_lt_upper_bound; [lia|].
  rewrite <- Z.pow_add_r by lia. now replace (k + (a - k)) with a by lia.
Qed.

Lemma binary_round_aux_magnitude (s : bool) (m e : Z) (l : location)
    (D : Z) :
  0 <= m -> m < 2 ^ (D - e) -> -1074 <= D <= 971 ->
  magnitude_below (D + 1) s (binary_round_aux 53 1024 s m e l).
Proof.
  intros Hm Hlt HD. unfold binary_round_aux.
  assert (HDe : 0 <= D - e).
  { destruct (Z.le_gt_cases 0 (D - e)); [assumption|].
    rewrite Z.pow_neg_r in Hlt by lia. lia. }
  pose proof (@shr_fexp_m_e m e l Hm) as H1. cbn zeta in H1.
  destruct (shr_fexp 53 1024 m e l) as [mrs' e'] eqn:E1.
  cbn [fst snd] in H1. destruct H1 as [Hm1 He1].
  set (k := Z.max 0 (fexp64 (Zdigits2 m + e) - e)) in *.
  assert (Hk : 0 <= k) by (subst k; lia).
  (* after the first shift *)
  assert (HA : 0 <= shr_m mrs' < 2 ^ (D - e') /\ e' <= D).
  { rewrite Hm1, He1. split; [split; [apply Z.div_pos; lia|]|].
    - destruct (Z.le_gt_cases k (D - e)) as [Hle|Hgt].
      + replace (D - (e + k)) with (D - e - k) by lia.
        now apply div_pow2_lt.
      + assert (m < 2 ^ k).
        { eapply Z.lt_le_trans; [exact Hlt|].
          apply Z.pow_le_mono_r; lia. }
        rewrite Z.div_small by lia.
        assert (Hfe : k = fexp64 (Zdigits2 m + e) - e) by (subst k; lia).
        assert (Zdigits2 m + e <= D).
        { destruct (Z.eq_dec m 0) as [->|]; [cbn; lia|].
          pose proof (@Zdigits2_le m (D - e)). lia. }
        rewrite fexp64_eq in Hfe.
        apply Z.pow_pos_nonneg; lia.
    - destruct (Z.le_gt_cases k (D - e)) as [Hle|Hgt]; [lia|].
      assert (Hfe : k = fexp64 (Zdigits2 m + e) - e) by (subst k; lia).
      assert (Zdigits2 m + e <= D).
      { destruct (Z.eq_dec m 0) as [->|]; [cbn; lia|].
        pose proof (@Zdigits2_le m (D - e)). lia. }
      rewrite fexp64_eq in Hfe. lia. }
  destruct HA as [[Hm1' Hlt1] He1'].
  pose proof (round_nearest_even_bounds (shr_m mrs')
                (loc_of_shr_record mrs')) as Hr.
  set (mr := round_nearest_even (shr_m mrs') (loc_of_shr_record mrs')) in *.
  assert (Hmr : 0 <= mr) by lia.
  assert (Hltr : mr < 2 ^ (D + 1 - e')).
  { replace (D + 1 - e') with (1 + (D - e')) by lia.
    rewrite Z.pow_add_r by lia. lia. }
  pose proof (@shr_fexp_m_e mr e' loc_Exact Hmr) as H2. cbn zeta in H2.
  destruct (shr_fexp 53 1024 mr e' loc_Exact) as [mrs'' e''] eqn:E2.
  cbn [fst snd] in H2. destruct H2 as [Hm2 He2].
  set (k2 := Z.max 0 (fexp64 (Zdigits2 mr + e') - e')) in *.
  assert (Hk2 : 0 <= k2) by (subst k2; lia).
  destruct (shr_m mrs'') as [|p|p] eqn:Ep.
  - reflexivity.
  - assert (Hk2' : k2 < D + 1 - e').
    { destruct (Z.le_gt_cases (D + 1 - e') k2) as [Hge|]; [|assumption].
      assert (mr < 2 ^ k2).
      { eapply Z.lt_le_trans; [exact Hltr|].
        apply Z.pow_le_mono_r; lia. }
      rewrite Z.div_small in Hm2 by lia. lia. }
    assert (Hfin : (e'' <=? 1024 - 53) = true) by (apply Z.leb_le; lia).
    rewrite Hfin. cbn [magnitude_below]. split; [reflexivity|].
    rewrite Hm2, He2.
    replace (D + 1 - (e' + k2)) with (D + 1 - e' - k2) by lia.
    apply div_pow2_lt; lia.
  - exfalso. assert (0 <= mr / 2 ^ k2) by (apply Z.div_pos; lia). lia.
Qed.

Lemma SFmul_magnitude (mx my : positive) (ex ey A B : Z) :
  Z.pos mx < 2 ^ (A - ex) -> Z.pos my < 2 ^ (B - ey) ->
  -1074 <= A + B <= 971 ->
  magnitude_below (A + B + 1) false
    (SFmul 53 1024 (S754_finite false mx ex) (S754_finite false my ey)).
Proof.
  intros Hx Hy HD. cbn [SFmul xorb].
  assert (0 <= A - ex).
  { destruct (Z.le_gt_cases 0 (A - ex)); [assumption|].
    rewrite Z.pow_neg_r in Hx by lia. lia. }
  assert (0 <= B - ey).
  { destruct (Z.le_gt_cases 0 (B - ey)); [assumption|].
    rewrite Z.pow_neg_r in Hy by lia. lia. }
  apply binary_round_aux_magnitude; [lia| |assumption].
  replace (A + B - (ex + ey)) with ((A - ex) + (B - ey)) by lia.
  rewrite Z.pow_add_r, Pos2Z.inj_mul by lia.
  apply Z.mul_lt_mono_nonneg; lia.
Qed.

Lemma SFdiv_magnitude (mx my : positive) (ex ey A B : Z) :
  Z.pos mx < 2 ^ (A - ex) -> 2 ^ (B - ey) <= Z.pos my -> 0 <= B - ey ->
  -1074 <= A - B <= 971 ->
  magnitude_below (A - B + 1) false
    (SFdiv 53 1024 (S754_finite false mx ex) (S754_finite false my ey)).
Proof.
  intros Hx Hy HB HD. cbn [SFdiv xorb]. unfold SFdiv_core_binary.
  set (d1 := Zdigits2 (Z.pos mx)). set (d2 := Zdigits2 (Z.pos my)).
  set (ez := Z.min (fexp64 (d1 + ex - (d2 + ey))) (ex - ey)).
  set (s := ex - ey - ez).
  assert (Hs : 0 <= s) by (subst s ez; lia).
  assert (HA : 0 <= A - ex).
  { destruct (Z.le_gt_cases 0 (A - ex)); [assumption|].
    rewrite Z.pow_neg_r in Hx by lia. lia. }
  assert (Hd1 : d1 <= A - ex) by (apply Zdigits2_le; lia).
  assert (Hd2 : B - ey < d2).
  { pose proof (digits_upper my) as Hu. subst d2. cbn [Zdigits2].
    apply (Z.pow_lt_mono_r_iff 2); [lia|lia|].
    eapply Z.le_lt_trans; eassumption. }
  assert (Hez : ez <= A - B).
  { subst ez. rewrite fexp64_eq. lia. }
  set (m' := match s with
             | 0 => Z.pos mx
             | Z.pos _ => Z.shiftl (Z.pos mx) s
             | Z.neg _ => 0
             end).
  assert (Hm' : m' = Z.pos mx * 2 ^ s).
  { subst m'. destruct s as [|p|p] eqn:Es; try lia.
    now rewrite Z.shiftl_mul_pow2 by lia. }
  pose proof (Z_div_mod m' (Z.pos my) ltac:(lia)) as Hdm.
  destruct (Z.div_eucl m' (Z.pos my)) as [q r].
  destruct Hdm as [Hq Hr].
  assert (Hq0 : 0 <= q) by nia.
  apply binary_round_aux_magnitude; [assumption| |assumption].
  (* q * my <= mx * 2^s *)
  assert (Hqm : q * 2 ^ (B - ey) < 2 ^ (A - ex + s)).
  { rewrite Z.pow_add_r by lia.
    assert (q * Z.pos my <= Z.pos mx * 2 ^ s) by lia.
    assert (q * 2 ^ (B - ey) <= q * Z.pos my) by (apply Z.mul_le_mono_nonneg_l; lia).
    assert (0 < 2 ^ s) by (apply Z.pow_pos_nonneg; lia).
    nia. }
  replace (A - ex + s) with ((A - B - ez) + (B - ey)) in Hqm by (subst s; lia).
  rewrite Z.pow_add_r in Hqm by lia.
  assert (0 < 2 ^ (B - ey)) by (apply Z.pow_pos_nonneg; lia).
  nia.
Qed.

Lemma digits_iter_xO (p k : positive) :
  digits2_pos (Pos.iter xO p k) = (digits2_pos p + k)%positive.
Proof.
  induction k as [|k IH] using Pos.peano_ind.
  - cbn. lia.
  - rewrite Pos.iter_succ. cbn [digits2_pos]. rewrite IH. lia.
Qed.

(** A mantissa that already has its exponent is kept as it is. *)
Lemma binary_round_aux_canonical (s : bool) (m : positive) (e : Z) :
  fexp64 (Z.pos (digits2_pos m) + e) = e -> e <= 971 ->
  binary_round_aux 53 1024 s (Z.pos m) e loc_Exact = S754_finite s m e.
Proof.
  intros Hc He. unfold binary_round_aux, shr_fexp.
  cbn [Zdigits2 shr_record_of_loc]. rewrite Hc, Z.sub_diag.
  cbn [shr shr_m loc_of_shr_record round_nearest_even Zdigits2
       shr_record_of_loc].
  rewrite Hc, Z.sub_diag. cbn [shr shr_m].
  assert (H : (e <=? 1024 - 53) = true) by (apply Z.leb_le; lia).
  now rewrite H.
Qed.

(** A positive integer below 2^53 converts to a finite value of 53
    digits at least 1 and below 2^53. *)
Lemma float_of_pos_magnitude (p : positive) :
  Z.pos p < 2 ^ 53 ->
  exists m e,
    float_of_Z (Z.pos p) = S754_finite false m e
    /\ e <= 0
    /\ 2 ^ (Z.pos (digits2_pos p) - 1 - e) <= Z.pos m
    /\ Z.pos m < 2 ^ (Z.pos (digits2_pos p) - e).
Proof.
  intros Hp. unfold float_of_Z, binary_normalize, binary_round.
  assert (Hd : Z.pos (digits2_pos p) <= 53) by now apply digits_le_iff.
  set (d := Z.pos (digits2_pos p)) in *.
  assert (Hf : fexp64 (d + 0) = d - 53) by (rewrite fexp64_eq; lia).
  rewrite Hf. unfold shl_align.
  destruct (d - 53 - 0) as [|k|k] eqn:Ek; try lia.
  - (* no shift: 53 digits already *)
    assert (d = 53) by lia.
    exists p, 0. rewrite binary_round_aux_canonical.
    + pose proof (digits_lower p). pose proof (digits_upper p).
      fold d in H0, H1. rewrite H in *.
      replace (53 - 1 - 0) with 52 by lia.
      replace (53 - 0) with 53 by lia.
      change (2 ^ 53) with (2 * 2 ^ 52) in H0.
      repeat split; lia.
    + fold d. rewrite fexp64_eq. lia.
    + lia.
  - exists (Pos.iter xO p k), (d - 53).
    assert (Hdk : Z.pos (digits2_pos (Pos.iter xO p k)) = 53).
    { rewrite digits_iter_xO, Pos2Z.inj_add. fold d. lia. }
    rewrite binary_round_aux_canonical.
    + pose proof (digits_lower (Pos.iter xO p k)) as Hl.
      pose proof (digits_upper (Pos.iter xO p k)) as Hu.
      rewrite Hdk in Hl, Hu.
      replace (d - 1 - (d - 53)) with 52 by lia.
      replace (d - (d - 53)) with 53 by lia.
      change (2 ^ 53) with (2 * 2 ^ 52) in Hl.
      repeat split; lia.
    + rewrite Hdk, fexp64_eq. lia.
    + lia.
Qed.

Lemma magnitude_below_1e21 (m : positive) (e : Z) :
  Z.pos m < 2 ^ (62 - e) -> at_least_1e21 m e = false.
Proof.
  intros Hm. unfold at_least_1e21.
  assert (He : 0 <= 62 - e).
  { destruct (Z.le_gt_cases 0 (62 - e)); [assumption|].
    rewrite Z.pow_neg_r in Hm by lia. lia. }
  assert (H62 : 2 ^ 62 < 10 ^ 21) by reflexivity.
  destruct (0 <=? e) eqn:E; apply Z.leb_gt.
  - apply Z.leb_le in E.
    assert (Z.pos m * 2 ^ e < 2 ^ 62); [|lia].
    replace 62 with ((62 - e) + e) at 1 by lia.
    rewrite Z.pow_add_r by lia.
    apply Z.mul_lt_mono_pos_r; [apply Z.pow_pos_nonneg; lia|assumption].
  - apply Z.leb_gt in E.
    replace (62 - e) with (62 + - e) in Hm by lia.
    rewrite Z.pow_add_r in Hm by lia.
    assert (0 < 2 ^ (- e)) by (apply Z.pow_pos_nonneg; lia).
    nia.
Qed.


(** What [binary_round_aux] computes from a mantissa that is not
    negative: a shift, a step of at most one, a second shift. *)
Lemma binary_round_aux_steps (s : bool) (m e : Z) (l : location) :
  0 <= m ->
  exists k mr k2,
    k = Z.max 0 (fexp64 (Zdigits2 m + e) - e)
    /\ m / 2 ^ k <= mr <= m / 2 ^ k + 1
    /\ k2 = Z.max 0 (fexp64 (Zdigits2 mr + (e + k)) - (e + k))
    /\ binary_round_aux 53 1024 s m e l
       = match mr / 2 ^ k2 with
         | 0 => S754_zero s
         | Z.pos p =>
             if e + k + k2 <=? 1024 - 53
             then S754_finite s p (e + k + k2) else S754_infinity s
         | Z.neg _ => S754_nan
         end.
Proof.
  intros Hm. unfold binary_round_aux.
  pose proof (@shr_fexp_m_e m e l Hm) as H1. cbn zeta in H1.
  destruct (shr_fexp 53 1024 m e l) as [mrs' e'] eqn:E1.
  cbn [fst snd] in H1. destruct H1 as [Hm1 He1].
  pose proof (round_nearest_even_bounds (shr_m mrs')
                (loc_of_shr_record mrs')) as Hr.
  set (mr := round_nearest_even (shr_m mrs') (loc_of_shr_record mrs')) in *.
  assert (Hmr : 0 <= mr).
  { assert (0 <= shr_m mrs'); [|lia]. rewrite Hm1. apply Z.div_pos; lia. }
  pose proof (@shr_fexp_m_e mr e' loc_Exact Hmr) as H2. cbn zeta in H2.
  destruct (shr_fexp 53 1024 mr e' loc_Exact) as [mrs'' e''] eqn:E2.
  cbn [fst snd] in H2. destruct H2 as [Hm2 He2].
  exists (Z.max 0 (fexp64 (Zdigits2 m + e) - e)), mr,
    (Z.max 0 (fexp64 (Zdigits2 mr + e') - e')).
  rewrite <- He1. split; [reflexivity|]. rewrite <- Hm1.
  split; [exact Hr|]. split; [reflexivity|].
  rewrite Hm2, He2. reflexivity.
Qed.

Lemma pow2_pos (x : Z) : 0 <= x -> 0 < 2 ^ x.
Proof. intros H. apply Z.pow_pos_nonneg; lia. Qed.

Lemma pow2_ge_1 (x : Z) : 0 <= x -> 1 <= 2 ^ x.
Proof. intros H. pose proof (pow2_pos H). lia. Qed.

Lemma div_pow2_bounds (m k : Z) :
  0 <= m -> 0 <= k ->
  m / 2 ^ k * 2 ^ k <= m /\ m + 1 <= (m / 2 ^ k + 1) * 2 ^ k.
Proof.
  intros Hm Hk. pose proof (pow2_pos Hk) as Hp.
  pose proof (Z.mul_div_le m (2 ^ k) Hp).
  pose proof (Z.mul_succ_div_gt m (2 ^ k) Hp). lia.
Qed.

Lemma ulp_add (K e k : Z) :
  0 <= e + K -> 0 <= k -> ulp K (e + k) = 2 ^ k * ulp K e.
Proof.
  intros He Hk. unfold ulp.
  replace (e + k + K) with (k + (e + K)) by lia.
  now rewrite Z.pow_add_r by lia.
Qed.

Lemma ulp_pos (K e : Z) : 0 <= e + K -> 0 < ulp K e.
Proof. intros H. now apply pow2_pos. Qed.

Lemma ulp_le (K e e' : Z) : 0 <= e + K -> e <= e' -> ulp K e <= ulp K e'.
Proof. intros H Hle. unfold ulp. apply Z.pow_le_mono_r; lia. Qed.

(** The result of rounding is within one unit in the last place of the
    value rounded, and its exponent is bounded by the magnitude.  The
    value is [P / Q], scaled by [2^K]. *)
Lemma binary_round_aux_error (s : bool) (m e : Z) (l : location)
    (D K P Q : Z) :
  0 <= m -> m < 2 ^ (D - e) -> -1074 <= D <= 971 ->
  0 <= e + K -> 0 < Q ->
  m * (ulp K e * Q) <= P < (m + 1) * (ulp K e * Q) ->
  exists e'',
    e <= e'' <= Z.max e (Z.max (D - 52) (-1074))
    /\ match binary_round_aux 53 1024 s m e l with
       | S754_zero _ => P < ulp K e'' * Q
       | S754_finite _ m'' e2 =>
           e2 = e''
           /\ (Z.pos m'' - 1) * (ulp K e'' * Q) <= P
              < (Z.pos m'' + 1) * (ulp K e'' * Q)
       | _ => False
       end.
Proof.
  intros Hm Hlt HD HK HQ HP.
  assert (HDe : 0 <= D - e).
  { destruct (Z.le_gt_cases 0 (D - e)); [assumption|].
    rewrite Z.pow_neg_r in Hlt by lia. lia. }
  destruct (@binary_round_aux_steps s m e l Hm)
    as (k & mr & k2 & Hk & Hmr & Hk2 & ->).
  assert (Hk0 : 0 <= k) by lia. assert (Hk20 : 0 <= k2) by lia.
  destruct (@div_pow2_bounds m k Hm Hk0) as [Hd1 Hd2].
  set (m1 := m / 2 ^ k) in *.
  assert (Hm1 : 0 <= m1) by (subst m1; apply Z.div_pos; lia).
  assert (Hmr0 : 0 <= mr) by lia.
  destruct (@div_pow2_bounds mr k2 Hmr0 Hk20) as [Hd3 Hd4].
  remember (mr / 2 ^ k2) as m2 eqn:Em2.
  assert (Hm2 : 0 <= m2) by (subst m2; apply Z.div_pos; lia).
  clear Em2.
  (* the exponents *)
  assert (Hdm : Zdigits2 m + e <= Z.max e D).
  { destruct (Z.eq_dec m 0) as [->|]; [cbn [Zdigits2]; lia|].
    pose proof (@Zdigits2_le m (D - e)). lia. }
  assert (He' : e + k <= Z.max e (Z.max (D - 53) (-1074))).
  { rewrite Hk, fexp64_eq. lia. }
  assert (Hm1lt : m1 = 0 \/ m1 < 2 ^ (D - (e + k))).
  { destruct (Z.le_gt_cases k (D - e)) as [Hle|Hgt].
    - right. replace (D - (e + k)) with (D - e - k) by lia.
      subst m1. now apply div_pow2_lt.
    - left. subst m1. apply Z.div_small. split; [assumption|].
      eapply Z.lt_le_trans; [exact Hlt|]. apply Z.pow_le_mono_r; lia. }
  assert (Hdr : Zdigits2 mr + (e + k) <= Z.max (e + k + 1) (D + 1)).
  { destruct (Z.eq_dec mr 0) as [->|Hnz]; [cbn [Zdigits2]; lia|].
    destruct Hm1lt as [Hz|Hl].
    - assert (mr = 1) as -> by lia. cbn [Zdigits2 digits2_pos]. lia.
    - assert (0 <= D - (e + k)).
      { destruct (Z.le_gt_cases 0 (D - (e + k))); [assumption|].
        rewrite Z.pow_neg_r in Hl by lia. lia. }
      assert (mr < 2 ^ (D + 1 - (e + k))).
      { replace (D + 1 - (e + k)) with (1 + (D - (e + k))) by lia.
        rewrite Z.pow_add_r by lia. lia. }
      pose proof (@Zdigits2_le mr (D + 1 - (e + k))). lia. }
  assert (He'' : e + k + k2 <= Z.max e (Z.max (D - 52) (-1074))).
  { rewrite Hk2, fexp64_eq. lia. }
  exists (e + k + k2). split; [lia|].
  (* the values *)
  pose proof (@ulp_pos K e HK) as HX.
  assert (HY : 0 < ulp K e * Q) by lia.
  set (Y := ulp K e * Q) in *.
  assert (HU : ulp K (e + k + k2) * Q = 2 ^ k2 * (2 ^ k * Y)).
  { rewrite ulp_add, ulp_add by lia. subst Y. ring. }
  pose proof (@pow2_ge_1 k Hk0) as HA. pose proof (@pow2_ge_1 k2 Hk20) as HB.
  set (A := 2 ^ k) in *. set (B := 2 ^ k2) in *.
  assert (Hup : P < (m2 + 1) * (B * (A * Y))).
  { assert (P < (m1 + 1) * A * Y) by nia.
    assert ((m1 + 1) * A * Y <= (mr + 1) * A * Y) by nia.
    assert ((mr + 1) * (A * Y) <= (m2 + 1) * B * (A * Y)).
    { apply Z.mul_le_mono_nonneg_r; nia. }
    nia. }
  assert (Hlow : (m2 - 1) * (B * (A * Y)) <= P).
  { assert (m1 * A * Y <= P) by nia.
    assert ((mr - 1) * A * Y <= m1 * A * Y) by nia.
    assert ((m2 - 1) * B * (A * Y) <= (mr - 1) * (A * Y)).
    { apply Z.mul_le_mono_nonneg_r; nia. }
    nia. }
  rewrite HU. destruct m2 as [|p|p]; [lia| |lia].
  assert (Hfin : (e + k + k2 <=? 1024 - 53) = true)
    by (apply Z.leb_le; lia).
  rewrite Hfin. split; [reflexivity|]. lia.
Qed.

Lemma iter_xO_value (p k : positive) :
  Z.pos (Pos.iter xO p k) = Z.pos p * 2 ^ Z.pos k.
Proof.
  induction k as [|k IH] using Pos.peano_ind.
  - cbn [Pos.iter]. lia.
  - rewrite Pos.iter_succ, Pos2Z.inj_xO, IH, Pos2Z.inj_succ,
      Z.pow_succ_r by lia. ring.
Qed.

(** A positive integer below 2^53 converts exactly. *)
Lemma float_of_pos_exact (p : positive) :
  Z.pos p < 2 ^ 53 ->
  exists m e,
    float_of_Z (Z.pos p) = S754_finite false m e
    /\ -52 <= e <= 0
    /\ Z.pos m = Z.pos p * 2 ^ (- e)
    /\ 2 ^ (Z.pos (digits2_pos p) - 1 - e) <= Z.pos m
    /\ Z.pos m < 2 ^ (Z.pos (digits2_pos p) - e).
Proof.
  intros Hp. unfold float_of_Z, binary_normalize, binary_round.
  assert (Hd : Z.pos (digits2_pos p) <= 53) by now apply digits_le_iff.
  set (d := Z.pos (digits2_pos p)) in *.
  assert (Hd1 : 1 <= d) by (subst d; lia).
  assert (Hf : fexp64 (d + 0) = d - 53) by (rewrite fexp64_eq; lia).
  rewrite Hf. unfold shl_align.
  destruct (d - 53 - 0) as [|k|k] eqn:Ek; try lia.
  - assert (d = 53) by lia.
    exists p, 0. rewrite binary_round_aux_canonical.
    + pose proof (digits_lower p). pose proof (digits_upper p).
      fold d in H0, H1. rewrite H in *.
      replace (53 - 1 - 0) with 52 by lia.
      replace (53 - 0) with 53 by lia.
      change (2 ^ 53) with (2 * 2 ^ 52) in H0.
      change (2 ^ (- 0)) with 1.
      split; [reflexivity|]. split; [lia|]. split; [lia|]. split; lia.
    + fold d. rewrite fexp64_eq. lia.
    + lia.
  - exists (Pos.iter xO p k), (d - 53).
    assert (Hdk : Z.pos (digits2_pos (Pos.iter xO p k)) = 53).
    { rewrite digits_iter_xO, Pos2Z.inj_add. fold d. lia. }
    rewrite binary_round_aux_canonical.
    + pose proof (digits_lower (Pos.iter xO p k)) as Hl.
      pose proof (digits_upper (Pos.iter xO p k)) as Hu.
      rewrite Hdk in Hl, Hu.
      replace (d - 1 - (d - 53)) with 52 by lia.
      replace (d - (d - 53)) with 53 by lia.
      change (2 ^ 53) with (2 * 2 ^ 52) in Hl.
      assert (Hv : Z.pos (Pos.iter xO p k) = Z.pos p * 2 ^ (- (d - 53))).
      { rewrite iter_xO_value. do 2 f_equal. lia. }
      split; [reflexivity|]. split; [lia|]. split; [exact Hv|].
      split; lia.
    + rewrite Hdk, fexp64_eq. lia.
    + lia.
Qed.

Lemma digits_mono (p t : positive) :
  Z.pos p <= Z.pos t -> Z.pos (digits2_pos p) <= Z.pos (digits2_pos t).
Proof.
  intros H. apply digits_le_iff.
  eapply Z.le_lt_trans; [exact H|apply digits_upper].
Qed.

(** The quotient of two integers below 2^53, [p <= t], as [fdiv] rounds
    it: within one unit in the last place of [p / t], at an exponent of
    at most -51. *)
Lemma fdiv_error (p t : positive) (K : Z) :
  Z.pos p <= Z.pos t -> Z.pos t < 2 ^ 53 -> 1074 <= K ->
  exists e1,
    -1074 <= e1 <= -51
    /\ match fdiv (float_of_Z (Z.pos p)) (float_of_Z (Z.pos t)) with
       | S754_zero s => s = false /\ Z.pos p * 2 ^ K < ulp K e1 * Z.pos t
       | S754_finite s m1 e =>
           s = false /\ e = e1
           /\ Z.pos m1 < 2 ^ (2 - e1)
           /\ (Z.pos m1 - 1) * (ulp K e1 * Z.pos t) <= Z.pos p * 2 ^ K
              < (Z.pos m1 + 1) * (ulp K e1 * Z.pos t)
       | _ => False
       end.
Proof.
  intros Hpt Ht HK.
  assert (Hp : Z.pos p < 2 ^ 53) by lia.
  destruct (@float_of_pos_exact p Hp) as (mx & ex & -> & Hex & Hvx & Hxl & Hxu).
  destruct (@float_of_pos_exact t Ht) as (my & ey & -> & Hey & Hvy & Hyl & Hyu).
  pose proof (@digits_mono p t Hpt) as Hmono.
  assert (Hdp : Z.pos (digits2_pos p) <= 53) by now apply digits_le_iff.
  assert (Hdt : Z.pos (digits2_pos t) <= 53) by now apply digits_le_iff.
  set (dp := Z.pos (digits2_pos p)) in *.
  set (dt := Z.pos (digits2_pos t)) in *.
  assert (Hdp1 : 1 <= dp) by (subst dp; lia).
  assert (Hdt1 : 1 <= dt) by (subst dt; lia).
  pose proof (@SFdiv_magnitude mx my ex ey dp (dt - 1)) as Hmag.
  unfold fdiv in *. cbn [SFdiv xorb] in *. unfold SFdiv_core_binary in *.
  set (d1 := Zdigits2 (Z.pos mx)) in *. set (d2 := Zdigits2 (Z.pos my)) in *.
  set (ez := Z.min (fexp64 (d1 + ex - (d2 + ey))) (ex - ey)) in *.
  set (s := ex - ey - ez) in *.
  assert (Hs : 0 <= s) by (subst s ez; lia).
  assert (Hd1 : d1 <= dp - ex) by (apply Zdigits2_le; lia).
  assert (Hd2 : dt - 1 - ey < d2).
  { pose proof (digits_upper my) as Hu. subst d2. cbn [Zdigits2].
    apply (Z.pow_lt_mono_r_iff 2); [lia|lia|].
    eapply Z.le_lt_trans; eassumption. }
  assert (Hez : -1074 <= ez <= -53).
  { subst ez. rewrite fexp64_eq. lia. }
  set (m' := match s with
             | 0 => Z.pos mx
             | Z.pos _ => Z.shiftl (Z.pos mx) s
             | Z.neg _ => 0
             end) in *.
  assert (Hm' : m' = Z.pos mx * 2 ^ s).
  { subst m'. destruct s as [|q|q] eqn:Es; try lia.
    now rewrite Z.shiftl_mul_pow2 by lia. }
  pose proof (Z_div_mod m' (Z.pos my) ltac:(lia)) as Hdm.
  destruct (Z.div_eucl m' (Z.pos my)) as [q r].
  destruct Hdm as [Hq Hr].
  assert (Hq0 : 0 <= q) by nia.
  specialize (Hmag ltac:(assumption) ltac:(assumption) ltac:(lia) ltac:(lia)).
  (* the quotient is within the magnitude *)
  assert (Hqlt : q < 2 ^ (dp - (dt - 1) - ez)).
  { assert (Hqm : q * 2 ^ (dt - 1 - ey) < 2 ^ (dp - ex + s)).
    { rewrite Z.pow_add_r by lia.
      assert (q * Z.pos my <= Z.pos mx * 2 ^ s) by lia.
      assert (q * 2 ^ (dt - 1 - ey) <= q * Z.pos my)
        by (apply Z.mul_le_mono_nonneg_l; lia).
      assert (0 < 2 ^ s) by (apply Z.pow_pos_nonneg; lia).
      nia. }
    replace (dp - ex + s) with ((dp - (dt - 1) - ez) + (dt - 1 - ey)) in Hqm
      by (subst s; lia).
    rewrite Z.pow_add_r in Hqm by lia.
    assert (0 < 2 ^ (dt - 1 - ey)) by (apply Z.pow_pos_nonneg; lia).
    nia. }
  pose proof (@ulp_pos K ez ltac:(lia)) as Hu.
  destruct (@binary_round_aux_error false q ez
              (new_location (Z.pos my) r) (dp - (dt - 1)) K
              (Z.pos mx * 2 ^ s * ulp K ez) (Z.pos my)
              Hq0 Hqlt ltac:(lia) ltac:(lia) ltac:(lia))
    as (e1 & He1 & Hres).
  { split; nia. }
  exists e1. split; [lia|].
  (* back to [p] and [t] *)
  assert (Hcancel : Z.pos mx * 2 ^ s * ulp K ez
                    = Z.pos p * 2 ^ K * 2 ^ (- ey)).
  { rewrite Hvx. unfold ulp.
    rewrite <- !Z.mul_assoc, <- !Z.pow_add_r by lia.
    do 2 f_equal. subst s. lia. }
  rewrite Hcancel in Hres.
  assert (Hw : 0 < 2 ^ (- ey)) by (apply Z.pow_pos_nonneg; lia).
  destruct (binary_round_aux 53 1024 false q ez
              (new_location (Z.pos my) r)) as [s0|s0| |s0 m1 e];
    cbn [magnitude_below] in Hmag; try contradiction;
    rewrite Hvy in Hres.
  - split; [assumption|].
    apply (Z.mul_lt_mono_pos_r (2 ^ (- ey))); [assumption|]. lia.
  - destruct Hmag as [-> Hmag]. destruct Hres as (-> & Hlo & Hhi).
    split; [reflexivity|]. split; [reflexivity|]. split.
    + eapply Z.lt_le_trans; [exact Hmag|].
      apply Z.pow_le_mono_r; lia.
    + split.
      * apply (Z.mul_le_mono_pos_r _ _ (2 ^ (- ey))); [assumption|]. lia.
      * apply (Z.mul_lt_mono_pos_r (2 ^ (- ey))); [assumption|]. lia.
Qed.

(** The arithmetic behind the two roundings: units in the last place of
    at most 2^-51 and 2^-43 leave the rounded hundredths less than one
    away from [10000 p / t]. *)
Lemma near_from_roundings (p t m1 m2 n a b C W : Z) :
  0 < t -> 0 < a -> 0 < b -> 0 < C -> 0 < W ->
  a * 2 ^ 51 <= C -> b * 2 ^ 43 <= C -> b * W = C ->
  (m1 - 1) * (a * t) <= p * C < (m1 + 1) * (a * t) ->
  (m2 - 1) * b <= 100 * m1 * a < (m2 + 1) * b ->
  2 * W * n <= 200 * m2 + W < 2 * W * (n + 1) ->
  10000 * p - t < n * t < 10000 * p + t.
Proof.
  intros Ht Ha Hb HC HW Ha51 Hb43 HbW [H1l H1u] [H2l H2u] [H3l H3u].
  change (2 ^ 51) with 2251799813685248 in Ha51.
  change (2 ^ 43) with 8796093022208 in Hb43.
  assert (Hsmall : 20000 * a + 200 * b < C) by lia.
  (* everything in units of [C * t] *)
  assert (U1 : 2 * C * n <= 200 * (m2 * b) + C).
  { assert (2 * W * n * b <= (200 * m2 + W) * b)
      by (apply Z.mul_le_mono_nonneg_r; lia).
    nia. }
  assert (L1 : 200 * (m2 * b) + C < 2 * C * (n + 1)).
  { assert ((200 * m2 + W) * b < 2 * W * (n + 1) * b)
      by (apply Z.mul_lt_mono_pos_r; lia).
    nia. }
  assert (U2 : m2 * b <= 100 * (m1 * a) + b) by lia.
  assert (L2 : 100 * (m1 * a) < m2 * b + b) by lia.
  assert (U3 : m1 * a * t <= p * C + a * t) by lia.
  assert (L3 : p * C < m1 * a * t + a * t) by lia.
  assert (U2t : m2 * b * t <= 100 * (m1 * a * t) + b * t).
  { assert (m2 * b * t <= (100 * (m1 * a) + b) * t)
      by (apply Z.mul_le_mono_nonneg_r; lia).
    lia. }
  assert (L2t : 100 * (m1 * a * t) < m2 * b * t + b * t).
  { assert (100 * (m1 * a) * t < (m2 * b + b) * t)
      by (apply Z.mul_lt_mono_pos_r; lia).
    lia. }
  assert (U1t : 2 * C * n * t <= 200 * (m2 * b * t) + C * t).
  { assert (2 * C * n * t <= (200 * (m2 * b) + C) * t)
      by (apply Z.mul_le_mono_nonneg_r; lia).
    lia. }
  assert (L1t : 200 * (m2 * b * t) + C * t < 2 * C * (n + 1) * t).
  { assert ((200 * (m2 * b) + C) * t < 2 * C * (n + 1) * t)
      by (apply Z.mul_lt_mono_pos_r; lia).
    lia. }
  assert (Hs : (20000 * a + 200 * b) * t < C * t)
    by (apply Z.mul_lt_mono_pos_r; lia).
  split.
  - (* 2 C (10000 p - t) < 2 C n t *)
    apply (Z.mul_lt_mono_pos_l (2 * C)); [lia|]. lia.
  - apply (Z.mul_lt_mono_pos_l (2 * C)); [lia|]. lia.
Qed.

(** The product with 100 as [fmul] rounds it. *)
Lemma fmul_100_error (m1 : positive) (e1 K : Z) :
  -1074 <= e1 <= -51 -> Z.pos m1 < 2 ^ (2 - e1) -> 1120 <= K ->
  exists e2,
    e1 - 46 <= e2 <= -43
    /\ match fmul (S754_finite false m1 e1) hundred with
       | S754_zero s => s = false /\ 100 * Z.pos m1 * ulp K e1 < ulp K e2
       | S754_finite s m2 e =>
           s = false /\ e = e2
           /\ Z.pos m2 < 2 ^ (62 - e2)
           /\ (Z.pos m2 - 1) * ulp K e2 <= 100 * Z.pos m1 * ulp K e1
              < (Z.pos m2 + 1) * ulp K e2
       | _ => False
       end.
Proof.
  intros He1 Hm1 HK.
  pose proof (@SFmul_magnitude m1 7036874417766400 e1 (-46) 2 7
                Hm1 ltac:(reflexivity) ltac:(lia)) as Hmag.
  unfold fmul, hundred in *. cbn [SFmul xorb] in *.
  assert (Hlt : Z.pos (m1 * 7036874417766400) < 2 ^ (9 - (e1 + -46))).
  { replace (9 - (e1 + -46)) with ((2 - e1) + 53) by lia.
    rewrite Z.pow_add_r, Pos2Z.inj_mul by lia.
    change (2 ^ 53) with 9007199254740992.
    assert (0 < 2 ^ (2 - e1)) by (apply Z.pow_pos_nonneg; lia). nia. }
  destruct (@binary_round_aux_error false (Z.pos (m1 * 7036874417766400))
              (e1 + -46) loc_Exact 9 K
              (Z.pos (m1 * 7036874417766400) * (ulp K (e1 + -46) * 1)) 1
              ltac:(lia) Hlt ltac:(lia) ltac:(lia) ltac:(lia))
    as (e2 & He2 & Hres).
  { pose proof (@ulp_pos K (e1 + -46) ltac:(lia)). split; nia. }
  exists e2. split; [lia|].
  assert (Hc : Z.pos (m1 * 7036874417766400) * (ulp K (e1 + -46) * 1)
               = 100 * Z.pos m1 * ulp K e1).
  { replace (ulp K e1) with (2 ^ 46 * ulp K (e1 + -46)).
    - rewrite Pos2Z.inj_mul. change (2 ^ 46) with 70368744177664. ring.
    - rewrite <- ulp_add by lia. f_equal. lia. }
  rewrite Hc in Hres.
  destruct (binary_round_aux 53 1024 false (Z.pos (m1 * 7036874417766400))
              (e1 + -46) loc_Exact) as [s|s| |s m2 e];
    cbn [magnitude_below] in Hmag; try contradiction.
  - split; [assumption|]. lia.
  - destruct Hmag as [-> Hmag]. destruct Hres as (-> & Hlo & Hhi).
    split; [reflexivity|]. split; [reflexivity|]. split; [|lia].
    eapply Z.lt_le_trans; [exact Hmag|]. apply Z.pow_le_mono_r; lia.
Qed.

(** The hundredths that [toFixed(2)] prints for a finite value with a
    negative exponent. *)
Lemma nearest_scaled_bounds (m : positive) (e : Z) :
  e < 0 ->
  let n := nearest_scaled m e 2 in
  2 * 2 ^ (- e) * n <= 200 * Z.pos m + 2 ^ (- e)
  < 2 * 2 ^ (- e) * (n + 1).
Proof.
  intros He n. subst n. unfold nearest_scaled.
  assert (E : (0 <=? e) = false) by (apply Z.leb_gt; lia).
  rewrite E.
  assert (HW : 0 < 2 * 2 ^ (- e)).
  { assert (0 < 2 ^ (- e)) by (apply Z.pow_pos_nonneg; lia). lia. }
  change (Z.of_nat 2) with 2. change (10 ^ 2) with 100.
  pose proof (Z.mul_div_le (2 * (Z.pos m * 100) + 2 ^ (- e))
                (2 * 2 ^ (- e)) HW).
  pose proof (Z.mul_succ_div_gt (2 * (Z.pos m * 100) + 2 ^ (- e))
                (2 * 2 ^ (- e)) HW).
  lia.
Qed.

Lemma ulp_small (K e b : Z) :
  0 <= e + K -> 0 <= b -> e <= - b -> ulp K e * 2 ^ b <= 2 ^ K.
Proof.
  intros HK Hb He. unfold ulp. rewrite <- Z.pow_add_r by lia.
  apply Z.pow_le_mono_r; lia.
Qed.

(** [toFixed(2)] of the binary64 value [passed / total * 100] prints
    hundredths that are less than one away from [10000 passed / total]. *)
Lemma percentage_hundredths (Number_toString : float -> jsstring)
    (passed total : nat) :
  (0 < total)%nat -> (passed <= total)%nat -> Z.of_nat total < 2 ^ 53 ->
  exists n,
    toFixed Number_toString
      (fmul (fdiv (float_of_nat passed) (float_of_nat total))
            (float_of_nat 100)) 2
    = fixed_digits n 2
    /\ near_percentage passed total n.
Proof.
  intros Ht Hp Hb. unfold float_of_nat, near_percentage.
  change (float_of_Z (Z.of_nat 100)) with hundred.
  destruct (Z.of_nat total) as [|t|t] eqn:Et; try lia.
  destruct (Z.of_nat passed) as [|p|p] eqn:Ep; try lia.
  - destruct (@float_of_pos_exact t Hb) as (mt & et & -> & _).
    exists 0. split; [reflexivity|]. lia.
  - pose (K := 1120). assert (HK : 1120 <= K) by (subst K; lia).
    clearbody K.
    destruct (@fdiv_error p t K ltac:(lia) Hb ltac:(lia))
      as (e1 & He1 & H1).
    pose proof (@ulp_pos K e1 ltac:(lia)) as Ha.
    pose proof (@ulp_small K e1 51 ltac:(lia) ltac:(lia) ltac:(lia)) as Ha51.
    assert (HC : 0 < 2 ^ K) by (apply Z.pow_pos_nonneg; lia).
    change (2 ^ 51) with 2251799813685248 in Ha51.
    destruct (fdiv (float_of_Z (Z.pos p)) (float_of_Z (Z.pos t)))
      as [s|s| |s m1 e]; try contradiction.
    + destruct H1 as [-> H1]. exists 0. split; [reflexivity|].
      assert (Z.pos p * 2251799813685248 < Z.pos t); [|lia].
      apply (Z.mul_lt_mono_pos_l (ulp K e1)); [assumption|]. nia.
    + destruct H1 as (-> & -> & Hm1 & H1l & H1u).
      destruct (@fmul_100_error m1 e1 K He1 Hm1 HK) as (e2 & He2 & H2).
      pose proof (@ulp_pos K e2 ltac:(lia)) as Hbpos.
      pose proof (@ulp_small K e2 43 ltac:(lia) ltac:(lia) ltac:(lia))
        as Hb43.
      destruct (fmul (S754_finite false m1 e1) hundred)
        as [s|s| |s m2 e]; try contradiction.
      * destruct H2 as [-> H2]. exists 0. split; [reflexivity|].
        change (2 ^ 43) with 8796093022208 in Hb43.
        assert (10000 * Z.pos p * 2 ^ K < Z.pos t * 2 ^ K); [|nia].
        assert (100 * Z.pos m1 * ulp K e1 * Z.pos t
                < ulp K e2 * Z.pos t)
          by (apply Z.mul_lt_mono_pos_r; lia).
        assert ((100 * ulp K e2 + 10000 * ulp K e1) * Z.pos t
                < 2 ^ K * Z.pos t)
          by (apply Z.mul_lt_mono_pos_r; lia).
        nia.
      * destruct H2 as (-> & -> & Hm2 & H2l & H2u).
        exists (nearest_scaled m2 e2 2). split.
        { unfold toFixed. now rewrite (magnitude_below_1e21 _ Hm2). }
        pose proof (@nearest_scaled_bounds m2 e2 ltac:(lia)) as H3.
        cbn zeta in H3.
        assert (HW : 0 < 2 ^ (- e2)) by (apply Z.pow_pos_nonneg; lia).
        assert (HbW : ulp K e2 * 2 ^ (- e2) = 2 ^ K).
        { unfold ulp. rewrite <- Z.pow_add_r by lia. f_equal. lia. }
        assert (Ha51' : ulp K e1 * 2 ^ 51 <= 2 ^ K) by exact Ha51.
        assert (H1 : (Z.pos m1 - 1) * (ulp K e1 * Z.pos t)
                     <= Z.pos p * 2 ^ K
                     < (Z.pos m1 + 1) * (ulp K e1 * Z.pos t)) by lia.
        assert (H2 : (Z.pos m2 - 1) * ulp K e2
                     <= 100 * Z.pos m1 * ulp K e1
                     < (Z.pos m2 + 1) * ulp K e2) by lia.
        exact (@near_from_roundings (Z.pos p) (Z.pos t) (Z.pos m1)
                 (Z.pos m2) (nearest_scaled m2 e2 2)
                 (ulp K e1) (ulp K e2) (2 ^ K) (2 ^ (- e2))
                 ltac:(lia) Ha Hbpos HC HW Ha51' Hb43 HbW H1 H2 H3).
Qed.

End Binary64.

Section SuiteProperties.

Variable Number_toString : float -> jsstring.
Variable String_ : value -> jsstring.
Variable JSON_stringify : value -> option jsstring.

Local Abbreviation summary := (TestSuite.summary Number_toString).
Local Abbreviation exit := (TestSuite.exit Number_toString).
Local Abbreviation diff := (TestSuite.diff String_ JSON_stringify).
Local Abbreviation step :=
  (TestSuite.step Number_toString String_ JSON_stringify).
Local Abbreviation run :=
  (TestSuite.run Number_toString String_ JSON_stringify).
Local Abbreviation results :=
  (results Number_toString String_ JSON_stringify).
Local Abbreviation test_calls :=
  (test_calls Number_toString String_ JSON_stringify).
Local Abbreviation summaries := (summaries Number_toString).

Lemma summary_same_suite (now : Z) (s : t) :
  same_suite (fst (summary now s)) s.
Proof.
  unfold TestSuite.summary.
  destruct (verbosity s <? NORMAL); cbn [fst]; auto with suite.
  match goal with |- context [if ?c then _ else _] => destruct c end;
    eauto using same_suite_trans with suite.
Qed.

Lemma summary_value (now : Z) (s : t) :
  snd (summary now s) = (List.length (failures s) =? 0).
Proof.
  unfold TestSuite.summary. now destruct (verbosity s <? NORMAL).
Qed.

Lemma diff_same_suite (expected actual : value) (label : label_arg)
    (s : t) :
  same_suite (fst (diff expected actual label s)) s.
Proof.
  unfold TestSuite.diff. destruct (VERBOSE <=? verbosity s); cbn [fst];
    auto with suite.
Qed.

(** A call that is neither a test nor a section touches the reporter
    only. *)
Lemma step_other (o : op) (s : t) :
  is_test o = false -> is_section o = false ->
  same_suite (fst (step o s)) s.
Proof.
  destruct o; cbn [is_test is_section]; try discriminate; intros _ _;
    cbn [TestSuite.step fst].
  - unfold header. destruct (_ <? _); auto with suite.
  - unfold subsection. destruct (_ <? _); auto with suite.
  - unfold code. destruct (_ <? _); auto with suite.
  - unfold javascript, code. destruct (_ <? _); auto with suite.
  - apply summary_same_suite.
  - apply diff_same_suite.
  - unfold log. destruct (_ <=? _); auto with suite.
  - unfold info. destruct (_ <=? _); auto with suite.
  - unfold warn. destruct (_ <=? _); auto with suite.
  - unfold error. destruct (_ <=? _); auto with suite.
  - unfold success. destruct (_ <=? _); auto with suite.
Qed.

(** The three test calls are [test] on some assertion outcome. *)
Lemma step_test (o : op) (s : t) :
  is_test o = true ->
  exists description assertion, step o s = test description assertion s.
Proof.
  destruct o; cbn [is_test]; try discriminate; intros _;
    cbn [TestSuite.step]; unfold assertEqual, assertArraysEqual; eauto.
Qed.

Lemma section_cases (title : value) (s : t) :
  (NORMAL <= verbosity s ->
   section title s
   = mk (name s) (verbosity s) 0 (sectionNumber s + 1) (failures s)
        (successes s) (startTime s) (reporter s)
        (calls s ++ [CallSection (sectionNumber s + 1) title]))
  /\ (verbosity s < NORMAL -> section title s = s).
Proof.
  unfold section. split; intros H.
  - apply Nat.ltb_ge in H. now rewrite H.
  - apply Nat.ltb_lt in H. now rewrite H.
Qed.

Lemma section_accumulators (title : value) (s : t) :
  successes (section title s) = successes s
  /\ failures (section title s) = failures s.
Proof. unfold section. destruct (_ <? _); cbn; auto. Qed.

(** What one call does to the counters and the accumulators. *)
Lemma step_effect (o : op) (s : t) :
  let s' := fst (step o s) in
  if is_test o then
    testNumber s' = testNumber s + 1
    /\ sectionNumber s' = sectionNumber s
    /\ match snd (step o s) with
       | Normal =>
           exists r,
             Result.id r = testId (sectionNumber s) (testNumber s + 1)
             /\ appended s s' = [r]
             /\ successes s' = successes s ++ filter passing [r]
             /\ failures s'
                = failures s ++ filter (fun r => negb (passing r)) [r]
       | TypeError =>
           successes s' = successes s /\ failures s' = failures s
       end
  else
    successes s' = successes s /\ failures s' = failures s
    /\ (is_section o = false ->
        testNumber s' = testNumber s /\ sectionNumber s' = sectionNumber s).
Proof.
  intros s'. subst s'. destruct (is_test o) eqn:Ht.
  - destruct (step_test o s Ht) as (d & a & ->).
    pose proof (test_cases d a s) as Hc.
    destruct (settle (blank d s) a) as [r|] eqn:Hs.
    + destruct Hc as (-> & _ & _ & Htn & Hsn & _ & _ & Hacc).
      split; [assumption|]. split; [assumption|].
      exists r. apply settle_id in Hs. destruct Hs as [Hid _].
      split; [exact Hid|]. cbn [filter].
      destruct (passing r); cbn [negb]; destruct Hacc as (H1 & H2 & _);
        rewrite H1, H2, app_nil_r; repeat split;
        eauto using appended_success, appended_failure.
    + rewrite Hc. cbn. repeat split; reflexivity.
  - destruct (is_section o) eqn:Hsec.
    + destruct o; try discriminate. cbn [TestSuite.step fst].
      destruct (section_accumulators title s).
      split; [assumption|]. split; [assumption|]. discriminate.
    + destruct (step_other o s Ht Hsec) as (_ & _ & ? & ? & ? & ? & _).
      auto.
Qed.

(** Without a section call in between, the results of the test
    invocations carry the section number of the start and consecutive
    test numbers. *)
Lemma results_ids (ops : list op) :
  forall s,
    section_free ops = true ->
    map Result.id (results ops s)
    = map (testId (sectionNumber s))
          (seq (testNumber s + 1) (List.length (results ops s))).
Proof.
  induction ops as [|o ops IH]; intros s Hfree; [reflexivity|].
  cbn [section_free forallb] in Hfree.
  apply andb_true_iff in Hfree. destruct Hfree as [Ho Hfree].
  apply negb_true_iff in Ho.
  pose proof (step_effect o s) as He. cbn zeta in He.
  cbn [results]. destruct (step o s) as [s' c]. cbn [fst snd] in He.
  destruct (is_test o).
  - destruct He as (Htn & Hsn & Hm). destruct c.
    + destruct Hm as (r & Hid & Happ & _). rewrite Happ.
      cbn [app map List.length]. rewrite (IH s' Hfree), Hsn, Htn, Hid.
      replace (testNumber s + 1 + 1) with (S (testNumber s + 1)) by lia.
      reflexivity.
    + destruct Hm as [Hs Hf]. now rewrite appended_none.
  - destruct He as (Hs & Hf & Hc). destruct (Hc Ho) as [Htn Hsn].
    rewrite appended_none by assumption. destruct c; [|reflexivity].
    cbn [app]. now rewrite (IH s' Hfree), Hsn, Htn.
Qed.

(** Each accumulator grows by the results of its kind, in the order of
    execution; nothing is removed or rewritten. *)
Lemma run_accumulators (ops : list op) :
  forall s,
    successes (fst (run ops s))
    = successes s ++ filter passing (results ops s)
    /\ failures (fst (run ops s))
       = failures s ++ filter (fun r => negb (passing r)) (results ops s).
Proof.
  induction ops as [|o ops IH]; intros s.
  - cbn. now rewrite !app_nil_r.
  - pose proof (step_effect o s) as He. cbn zeta in He.
    cbn [TestSuite.run results].
    destruct (step o s) as [s' c]. cbn [fst snd] in He.
    destruct (is_test o).
    + destruct He as (_ & _ & Hm). destruct c.
      * destruct Hm as (r & _ & Happ & Hs & Hf).
        destruct (IH s') as [IHs IHf].
        rewrite IHs, IHf, Hs, Hf, Happ, !filter_app, !app_assoc.
        split; reflexivity.
      * destruct Hm as [Hs Hf]. cbn [fst].
        rewrite appended_none by assumption. cbn.
        now rewrite !app_nil_r.
    + destruct He as (Hs & Hf & _).
      rewrite appended_none by assumption. destruct c.
      * destruct (IH s') as [IHs IHf]. now rewrite IHs, IHf, Hs, Hf.
      * cbn. now rewrite !app_nil_r.
Qed.

(** When no call raises, every test invocation has its result. *)
Lemma run_normal_results (ops : list op) :
  forall s,
    snd (run ops s) = Normal ->
    List.length (results ops s) = invocations ops.
Proof.
  induction ops as [|o ops IH]; intros s Hn; [reflexivity|].
  pose proof (step_effect o s) as He. cbn zeta in He.
  cbn [TestSuite.run] in Hn. cbn [results].
  unfold invocations. cbn [filter].
  destruct (step o s) as [s' c]. cbn [fst snd] in He.
  destruct c; [|discriminate].
  destruct (is_test o).
  - destruct He as (_ & _ & r & _ & Happ & _). rewrite Happ.
    cbn [app List.length]. f_equal. now apply IH.
  - destruct He as (Hs & Hf & _). rewrite appended_none by assumption.
    now apply IH.
Qed.

Lemma filter_failing_nil (l : list Result.t) :
  filter (fun r => negb (passing r)) l = [] <-> forallb passing l = true.
Proof.
  induction l as [|r l IH]; cbn; [tauto|].
  destruct (passing r); cbn; [exact IH|].
  split; discriminate.
Qed.

Lemma length_zero_nil {A : Type} (l : list A) :
  (List.length l =? 0) = true <-> l = [].
Proof. destruct l; cbn; split; congruence. Qed.

Lemma summary_below_normal (now : Z) (s : t) :
  verbosity s < NORMAL -> fst (summary now s) = s.
Proof.
  intros H. apply Nat.ltb_lt in H. unfold TestSuite.summary. now rewrite H.
Qed.

(** C2. For every suite, at every verbosity, [summary()] returns [true]
    exactly when the failure accumulator is empty; started from a suite
    without failures, after any sequence of calls, that is exactly when
    every result created passed.  Below NORMAL the call leaves the suite
    as it is, the record of reporter calls included: nothing is
    rendered. *)
Theorem summary_true_iff_no_failure :
  forall (now : Z) (s : t),
    (snd (summary now s) = true <-> failures s = [])
    /\ (forall ops s0,
           failures s0 = [] -> s = fst (run ops s0) ->
           (snd (summary now s) = true
            <-> forallb passing (results ops s0) = true))
    /\ (verbosity s < NORMAL ->
        calls (fst (summary now s)) = calls s
        /\ fst (summary now s) = s).
Proof.
  intros now s. rewrite summary_value.
  split; [apply length_zero_nil|]. split.
  - intros ops s0 H0 ->. rewrite length_zero_nil.
    destruct (run_accumulators ops s0) as [_ ->]. rewrite H0. cbn [app].
    apply filter_failing_nil.
  - intros H. now rewrite summary_below_normal.
Qed.

(** [same_suite] is all that [test] looks at. *)
Lemma test_same_suite (description : value) (assertion : outcome)
    (a b : t) :
  same_suite a b ->
  same_suite (fst (test description assertion a))
             (fst (test description assertion b))
  /\ snd (test description assertion a) = snd (test description assertion b)
  /\ appended a (fst (test description assertion a))
     = appended b (fst (test description assertion b)).
Proof.
  intros (Hn & Hv & Ht & Hsn & Hf & Hs & Hst & Hr).
  pose proof (test_cases description assertion a) as Ha.
  pose proof (test_cases description assertion b) as Hb.
  assert (Hblank : blank description a = blank description b)
    by (unfold blank; now rewrite Hsn, Ht).
  rewrite Hblank in Ha.
  destruct (settle (blank description b) assertion) as [r|].
  - destruct Ha as (Hca & Ha1 & Ha2 & Ha3 & Ha4 & Ha5 & Ha6 & Ha).
    destruct Hb as (Hcb & Hb1 & Hb2 & Hb3 & Hb4 & Hb5 & Hb6 & Hb).
    split; [|split; [congruence|]].
    + unfold same_suite.
      destruct (passing r); destruct Ha as (? & ? & _);
        destruct Hb as (? & ? & _); intuition congruence.
    + destruct (passing r); destruct Ha as (Hx & Hy & _);
        destruct Hb as (Hx' & Hy' & _).
      * now rewrite (@appended_success _ _ _ Hx Hy),
                    (@appended_success _ _ _ Hx' Hy').
      * now rewrite (@appended_failure _ _ _ Hx Hy),
                    (@appended_failure _ _ _ Hx' Hy').
  - rewrite Ha, Hb. cbn [fst snd]. split; [|split; [reflexivity|]].
    + unfold same_suite, counted. cbn. intuition congruence.
    + rewrite !appended_none; reflexivity.
Qed.

Lemma summaries_same_suite (nows : list Z) :
  forall s, same_suite (summaries nows s) s.
Proof.
  induction nows as [|now nows IH]; intros s; cbn; auto with suite.
  eapply same_suite_trans; [apply IH|apply summary_same_suite].
Qed.

(** C10. At every verbosity [summary()] leaves the name, the verbosity,
    both counters, both accumulators, the start time and the reporter of
    the suite as they were.  Hence, after any number of [summary()]
    calls, a further [summary()] returns the same boolean, and a [test]
    call creates the same result (the same id in particular), ends the
    same way and leaves the same counters and accumulators as it would
    have without them. *)
Theorem summary_leaves_suite_unchanged :
  forall (now : Z) (s : t),
    (sectionNumber (fst (summary now s)) = sectionNumber s
     /\ testNumber (fst (summary now s)) = testNumber s
     /\ successes (fst (summary now s)) = successes s
     /\ failures (fst (summary now s)) = failures s
     /\ same_suite (fst (summary now s)) s)
    /\ forall (nows : list Z),
        let s' := summaries nows s in
        same_suite s' s
        /\ (forall now', snd (summary now' s') = snd (summary now s))
        /\ (forall description assertion,
               appended s' (fst (test description assertion s'))
               = appended s (fst (test description assertion s))
               /\ snd (test description assertion s')
                  = snd (test description assertion s)
               /\ same_suite (fst (test description assertion s'))
                             (fst (test description assertion s))).
Proof.
  intros now s. split.
  - pose proof (summary_same_suite now s) as H.
    destruct H as (? & ? & ? & ? & ? & ? & ? & ?).
    repeat split; assumption.
  - intros nows s'. pose proof (summaries_same_suite nows s) as H.
    fold s' in H. split; [assumption|]. split.
    + intros now'. rewrite !summary_value.
      destruct H as (_ & _ & _ & _ & -> & _). reflexivity.
    + intros d a. destruct (test_same_suite d a H) as (? & ? & ?).
      auto.
Qed.

Lemma results_nth (ops : list op) (s : t) (n : nat) (r : Result.t) :
  section_free ops = true ->
  nth_error (results ops s) n = Some r ->
  Result.id r = testId (sectionNumber s) (testNumber s + 1 + n).
Proof.
  intros Hfree Hn.
  pose proof (map_nth_error Result.id n (results ops s) Hn) as Hid.
  rewrite (results_ids ops s Hfree), nth_error_map, nth_error_seq in Hid.
  destruct (n <? List.length (results ops s)); cbn in Hid; congruence.
Qed.

(** What one call does to the verbosity and to the counters: only a
    section call at NORMAL or above touches the section number, and
    every test call, raising or not, uses up one test number. *)
Lemma step_counters (o : op) (s : t) :
  let s' := fst (step o s) in
  verbosity s' = verbosity s
  /\ (is_section o = false \/ verbosity s < NORMAL ->
      sectionNumber s' = sectionNumber s
      /\ testNumber s' = testNumber s + (if is_test o then 1 else 0)).
Proof.
  intros s'. subst s'. destruct (is_test o) eqn:Ht.
  - destruct (step_test o s Ht) as (d & a & ->).
    pose proof (test_cases d a s) as Hc.
    destruct (settle (blank d s) a) as [r|].
    + destruct Hc as (_ & _ & Hv & Htn & Hsn & _). auto.
    + rewrite Hc. cbn. auto.
  - destruct (is_section o) eqn:Hsec.
    + destruct o; try discriminate. cbn [TestSuite.step fst].
      destruct (section_cases title s) as [Hhigh Hlow].
      split.
      * destruct (Nat.lt_ge_cases (verbosity s) NORMAL) as [Hl|Hg];
          [now rewrite (Hlow Hl)|now rewrite (Hhigh Hg)].
      * intros [Hf|Hl]; [discriminate|].
        rewrite (Hlow Hl). split; [reflexivity|lia].
    + destruct (step_other o s Ht Hsec) as (_ & Hv & Htn & Hsn & _).
      split; [assumption|]. intros _. split; [assumption|lia].
Qed.

(** There is one entry for each test call. *)
Lemma test_calls_length (ops : list op) :
  forall s, List.length (test_calls ops s) = invocations ops.
Proof.
  induction ops as [|o ops IH]; intros s; [reflexivity|].
  cbn [test_calls]. unfold invocations. cbn [filter].
  destruct (step o s) as [s' c].
  rewrite length_app, IH.
  destruct (is_test o); reflexivity.
Qed.

(** Where the section number stays, the test calls use up consecutive
    test numbers, whether they raise or not. *)
Lemma test_calls_numbered (ops : list op) :
  forall (s : t) (n : nat) (created : list Result.t) (c : completion),
    section_free ops = true \/ verbosity s < NORMAL ->
    nth_error (test_calls ops s) n = Some (created, c) ->
    match c with
    | Normal =>
        exists r,
          created = [r]
          /\ Result.id r = testId (sectionNumber s) (testNumber s + 1 + n)
    | TypeError => created = []
    end.
Proof.
  induction ops as [|o ops IH]; intros s n created c Hq Hn;
    [destruct n; discriminate|].
  assert (Hstay : is_section o = false \/ verbosity s < NORMAL).
  { destruct Hq as [Hfree|Hl]; [left|now right].
    cbn [section_free forallb] in Hfree.
    apply andb_true_iff in Hfree. now apply negb_true_iff. }
  assert (Hrest : section_free ops = true
                  \/ verbosity (fst (step o s)) < NORMAL).
  { destruct Hq as [Hfree|Hl].
    - left. cbn [section_free forallb] in Hfree.
      now apply andb_true_iff in Hfree.
    - right. now rewrite (proj1 (step_counters o s)). }
  destruct (proj2 (step_counters o s) Hstay) as [Hsn Htn].
  pose proof (step_effect o s) as He. cbn zeta in He.
  cbn [test_calls] in Hn.
  destruct (step o s) as [s' c'] eqn:Hstep. cbn [fst snd] in *.
  destruct (is_test o).
  - destruct n as [|n]; cbn [app nth_error] in Hn.
    + injection Hn as <- <-.
      destruct He as (_ & _ & Hm). destruct c'.
      * destruct Hm as (r & Hid & Happ & _). exists r.
        split; [exact Happ|]. rewrite Hid. f_equal. lia.
      * destruct Hm as [Hs Hf]. now apply appended_none.
    + specialize (IH s' n created c Hrest Hn).
      rewrite Hsn, Htn in IH.
      replace (testNumber s + 1 + 1 + n) with (testNumber s + 1 + S n)
        in IH by lia.
      exact IH.
  - cbn [app] in Hn. specialize (IH s' n created c Hrest Hn).
    rewrite Hsn, Htn, Nat.add_0_r in IH. exact IH.
Qed.

(** C1, as the code has it.  At verbosity NORMAL or above [section(title)]
    adds 1 to [sectionNumber], sets [testNumber] to 0 and forwards to the
    reporter; below NORMAL it changes nothing at all, counters included.
    At every verbosity, in a sequence of calls without a section call
    (below NORMAL: in every sequence of calls) that starts with the
    counters at [S] and [T], with a caller that catches what a call
    raises and goes on: the N-th test call, if it returns, creates
    exactly one result, with the id ["S.(T+N)"]; if it raises, it
    creates none, and its number is used up all the same.  Up to the
    first call that raises, the N-th result created is therefore that of
    the N-th test call.  So right after a section call at NORMAL or
    above, the N-th test call of the section, if it returns, produces
    the id ["<sectionNumber>.N"], counted from 1 again. *)
Theorem section_numbering_gated_by_verbosity :
  (forall (title : value) (s : t),
      (NORMAL <= verbosity s ->
       section title s
       = mk (name s) (verbosity s) 0 (sectionNumber s + 1) (failures s)
            (successes s) (startTime s) (reporter s)
            (calls s ++ [CallSection (sectionNumber s + 1) title]))
      /\ (verbosity s < NORMAL -> section title s = s))
  /\ (forall (ops : list op) (s : t),
         section_free ops = true \/ verbosity s < NORMAL ->
         List.length (test_calls ops s) = invocations ops
         /\ forall n created c,
              nth_error (test_calls ops s) n = Some (created, c) ->
              match c with
              | Normal =>
                  exists r,
                    created = [r]
                    /\ Result.id r
                       = testId (sectionNumber s) (testNumber s + 1 + n)
              | TypeError => created = []
              end)
  /\ (forall (ops : list op) (s : t),
         section_free ops = true ->
         (forall n r,
             nth_error (results ops s) n = Some r ->
             Result.id r = testId (sectionNumber s) (testNumber s + 1 + n))
         /\ (snd (run ops s) = Normal ->
             List.length (results ops s) = invocations ops))
  /\ (forall (ops : list op) (title : value) (s : t),
         NORMAL <= verbosity s ->
         section_free ops = true ->
         forall n created,
           nth_error (test_calls ops (section title s)) n
           = Some (created, Normal) ->
           exists r,
             created = [r]
             /\ Result.id r = testId (sectionNumber s + 1) (n + 1)).
Proof.
  split; [intros title s; apply section_cases|]. split; [|split].
  - intros ops s Hq. split; [apply test_calls_length|].
    intros n created c. now apply test_calls_numbered.
  - intros ops s Hfree. split.
    + intros n r. now apply results_nth.
    + apply run_normal_results.
  - intros ops title s Hv Hfree n created Hn.
    apply test_calls_numbered in Hn; [|now left].
    destruct Hn as (r & Hc & Hid). exists r. split; [exact Hc|].
    rewrite Hid, (proj1 (section_cases title s) Hv).
    cbn [sectionNumber testNumber]. f_equal. lia.
Qed.

(** C1 as stated fails below NORMAL: at QUIET a section call leaves
    [sectionNumber] at 0 and does not reset [testNumber], so the test
    after it is numbered 0.2, not 1.1. *)
Lemma section_below_normal_changes_no_counter :
  let failing := Returns (VBool false) in
  let s0 := create (js "suite") (Some QUIET) Terminal 0 in
  let s1 := fst (test (VString (js "a")) failing s0) in
  let s2 := section (VString (js "B")) s1 in
  let s3 := fst (test (VString (js "b")) failing s2) in
  sectionNumber s2 = 0
  /\ testNumber s2 = 1
  /\ map Result.id (failures s3) = [js "0.1"; js "0.2"]
  /\ ~ (forall (title : value) (s : t),
           sectionNumber (section title s) = sectionNumber s + 1
           /\ testNumber (section title s) = 0).
Proof.
  cbv zeta. repeat split; try reflexivity.
  intros H.
  specialize (H VNull (create (js "suite") (Some QUIET) Terminal 0)).
  destruct H as [H _]. cbv in H. discriminate H.
Qed.

(** C3, at the failing input: an assertion that throws [null] or
    [undefined] makes [test] itself raise a TypeError (from reading
    [error.message] in the [catch] block); the call leaves the test
    counter advanced and creates no result. *)
Theorem test_propagates_when_null_is_thrown :
  forall (description : value) (s : t),
    test description (Throws VNull) s = (counted s, TypeError)
    /\ test description (Throws VUndefined) s = (counted s, TypeError).
Proof. intros description s. split; reflexivity. Qed.

(** C9, at the failing input: a test invocation whose assertion throws
    [null] appends to neither accumulator, so the two lengths add up to
    one less than the invocations performed, and the next result skips a
    number. *)
Theorem raising_test_appends_no_result :
  forall (description : value) (s : t),
    let s1 := fst (test description (Throws VNull) s) in
    let s2 := fst (test description (Returns (VBool true)) s1) in
    successes s1 = successes s
    /\ failures s1 = failures s
    /\ List.length (successes s2) + List.length (failures s2)
       = List.length (successes s) + List.length (failures s) + 1
    /\ map Result.id (appended s s2)
       = [testId (sectionNumber s) (testNumber s + 2)].
Proof.
  intros description s. cbv zeta.
  change (test description (Throws VNull) s) with (counted s, TypeError).
  cbn [fst]. split; [reflexivity|]. split; [reflexivity|].
  pose proof (test_cases description (Returns (VBool true)) (counted s))
    as Hc.
  cbn [settle typeof jstype_eqb blank] in Hc.
  destruct Hc as (_ & _ & _ & _ & _ & _ & _ & Hacc).
  unfold passing in Hacc. cbn [Result.passed truthy] in Hacc.
  destruct Hacc as (Hs & Hf & _). cbn [counted successes failures] in Hs, Hf.
  rewrite Hs, Hf, length_app. cbn [List.length]. split; [lia|].
  rewrite (@appended_success s _ _ Hs Hf). cbn [map Result.id].
  unfold blank. cbn [counted sectionNumber testNumber Result.id].
  now replace (testNumber s + 1 + 1) with (testNumber s + 2) by lia.
Qed.

(** A thrown value other than [null] and [undefined] is recovered: the
    call returns, and one failing result is appended whose message is the
    [message] of the thrown value. *)
Lemma test_recovers_thrown_value (description error : value) (s : t) :
  error <> VNull -> error <> VUndefined ->
  let r := Result.mk (testId (sectionNumber s) (testNumber s + 1))
                     description (VBool false) VNull VNull
                     (prop error (js "message")) in
  snd (test description (Throws error) s) = Normal
  /\ failures (fst (test description (Throws error) s)) = failures s ++ [r]
  /\ successes (fst (test description (Throws error) s)) = successes s.
Proof.
  intros Hnull Hundef r.
  pose proof (test_cases description (Throws error) s) as Hc.
  assert (Hs : settle (blank description s) (Throws error) = Some r).
  { unfold settle, blank, get, prop.
    destruct error; try reflexivity; congruence. }
  rewrite Hs in Hc. destruct Hc as (Hn & _ & _ & _ & _ & _ & _ & Hacc).
  unfold passing in Hacc. cbn [r Result.passed truthy] in Hacc.
  destruct Hacc as (Hf & Hsucc & _). auto.
Qed.

(** The accumulators after a sequence of calls that does not raise: their
    lengths add up to the earlier lengths plus the test invocations, and
    each one is the earlier accumulator followed by the new results of
    its kind in the order of execution. *)
Lemma run_counts_invocations (ops : list op) (s : t) :
  snd (run ops s) = Normal ->
  let s' := fst (run ops s) in
  List.length (successes s') + List.length (failures s')
  = List.length (successes s) + List.length (failures s) + invocations ops
  /\ successes s' = successes s ++ filter passing (results ops s)
  /\ failures s'
     = failures s ++ filter (fun r => negb (passing r)) (results ops s).
Proof.
  intros Hn s'. subst s'.
  destruct (run_accumulators ops s) as [Hs Hf].
  split; [|split; assumption].
  rewrite Hs, Hf, !length_app, <- (run_normal_results ops s Hn).
  pose proof (filter_length passing (results ops s)). lia.
Qed.

(** With the label left out, [diff] of the suite hands [null] to the
    reporter; the plain and the terminal reporter then raise a TypeError
    after one empty line, the markdown reporter prints the label as the
    text null and goes on: it returns unless exactly one of the two
    values has no text. *)
Lemma diff_without_label_raises (expected actual : value) (s : t) :
  VERBOSE <= verbosity s ->
  (reporter s = PlainReporter \/ reporter s = Terminal ->
   snd (diff expected actual LabelOmitted s) = TypeError)
  /\ (reporter s = Markdown ->
      snd (diff expected actual LabelOmitted s)
      = (if lone_text (Reporter._stringify String_ JSON_stringify expected)
                      (Reporter._stringify String_ JSON_stringify actual)
         then TypeError else Normal)
      /\ exists rest,
           fst (MarkdownReporter.diff String_ JSON_stringify expected actual
                  LabelNull)
           = [] :: js "### null" :: [] :: rest)
  /\ Reporter.diff String_ JSON_stringify expected actual LabelNull
     = ([ [] ], TypeError)
  /\ TerminalReporter.diff String_ JSON_stringify expected actual LabelNull
     = ([ [] ], TypeError).
Proof.
  intros Hv. apply Nat.leb_le in Hv. unfold TestSuite.diff. rewrite Hv.
  cbn [snd]. split; [|split; [|split; reflexivity]].
  - intros [-> | ->]; reflexivity.
  - intros ->.
    pose proof (@diff_texts String_ JSON_stringify Markdown expected actual
                  LabelNull (js "null") eq_refl) as Hc.
    cbn [TestSuite.reporter_diff] in Hc |- *. rewrite Hc.
    destruct (Reporter._stringify String_ JSON_stringify expected) as [e|],
             (Reporter._stringify String_ JSON_stringify actual) as [a|];
      cbn [lone_text]; try destruct (jsstring_eqb e a); cbn [fst snd];
      (split; [reflexivity|]); eexists; reflexivity.
Qed.

(** *** The pass rate *)

Lemma string_of_uint_digits (d : Decimal.uint) :
  Forall is_digit (js (NilEmpty.string_of_uint d)).
Proof.
  induction d; cbn [NilEmpty.string_of_uint js list_ascii_of_string map];
    constructor; try assumption; unfold is_digit; cbn; lia.
Qed.

Lemma Z_digits_digits (n : Z) : Forall is_digit (Z_digits n).
Proof. apply string_of_uint_digits. Qed.

(** With at least one fraction digit, the fixed notation is a non-empty
    whole part, a point, and exactly [f] more characters, all of them
    digits. *)
Lemma fixed_digits_shape (n : Z) (f : nat) :
  0 < f ->
  exists whole frac,
    fixed_digits n f = whole ++ DOT :: frac
    /\ whole <> [] /\ List.length frac = f
    /\ Forall is_digit whole /\ Forall is_digit frac.
Proof.
  intros Hf. unfold fixed_digits. destruct f as [|f]; [lia|].
  set (m := if List.length (Z_digits n) <=? S f
            then repeat ZERO_DIGIT (S f + 1 - List.length (Z_digits n))
                 ++ Z_digits n
            else Z_digits n).
  assert (Hlen : S f < List.length m).
  { subst m. destruct (List.length (Z_digits n) <=? S f) eqn:Hk.
    - apply Nat.leb_le in Hk. rewrite length_app, repeat_length. lia.
    - apply Nat.leb_gt in Hk. exact Hk. }
  assert (Hdig : Forall is_digit m).
  { subst m. destruct (List.length (Z_digits n) <=? S f).
    - apply Forall_app. split; [|apply Z_digits_digits].
      apply Forall_forall. intros c Hc. apply repeat_spec in Hc.
      subst c. unfold is_digit, ZERO_DIGIT. lia.
    - apply Z_digits_digits. }
  rewrite <- (firstn_skipn (List.length m - S f) m) in Hdig.
  apply Forall_app in Hdig. destruct Hdig as [Hw Hfr].
  exists (firstn (List.length m - S f) m), (skipn (List.length m - S f) m).
  split; [reflexivity|]. split; [|split; [|split; assumption]].
  - intros Hnil. apply (f_equal (@List.length _)) in Hnil.
    rewrite length_firstn in Hnil. cbn in Hnil. lia.
  - rewrite length_skipn. lia.
Qed.

(** For every suite an array can hold, the pass rate of a suite with
    tests is a text in fixed notation with two decimals, less than one
    hundredth away from the percentage. *)
Lemma pass_rate_text (passed total : nat) :
  0 < total -> passed <= total -> (Z.of_nat total < 2 ^ 53)%Z ->
  exists n,
    passRate Number_toString passed total = VString (fixed_digits n 2)
    /\ two_decimals (fixed_digits n 2)
    /\ near_percentage passed total n.
Proof.
  intros Ht Hp Hb. unfold passRate.
  apply Nat.ltb_lt in Ht as Ht'. rewrite Ht'.
  destruct (@percentage_hundredths Number_toString passed total Ht Hp Hb)
    as (n & -> & Hnear).
  exists n. split; [reflexivity|]. split; [|assumption].
  apply fixed_digits_shape. lia.
Qed.

Lemma summary_calls (now : Z) (s : t) :
  NORMAL <= verbosity s ->
  let passed := List.length (successes s) in
  let failed := List.length (failures s) in
  calls (fst (summary now s))
  = calls s
    ++ CallSummary (Stats.mk (passed + failed) passed failed
                      (passRate Number_toString passed (passed + failed))
                      (now - startTime s))
    :: (if (VERBOSE <=? verbosity s) && (0 <? failed)
        then [CallFailureDetails (failures s)] else []).
Proof.
  intros Hv passed failed. apply Nat.ltb_ge in Hv.
  unfold TestSuite.summary. rewrite Hv.
  cbn [forward verbosity failures fst calls].
  fold passed. fold failed.
  destruct ((VERBOSE <=? verbosity s) && (0 <? failed));
    cbn [forward calls]; now rewrite <- ?app_assoc.
Qed.

(** C6, as the code has it.  At verbosity NORMAL or above [summary()]
    hands the reporter a Stats record in which [passed] and [failed] are
    the lengths of the two accumulators, [total] is their sum and
    [duration] is the time since the start; [passRate] is the number 0
    when no test has run, and otherwise the text [x.toFixed(2)] of the
    binary64 value [x = passed / total * 100]: for every total below
    2^53 (an array holds fewer than 2^32 results) digits, a point and
    two digits, less than one hundredth away from the percentage.  The
    call returns whether [failed] is 0.  One passing and one failing
    test at VERBOSE give total 2, passed 1, failed 1, passRate "50.00"
    and [false]. *)
Theorem summary_stats_snapshot :
  (forall (now : Z) (s : t),
      NORMAL <= verbosity s ->
      let passed := List.length (successes s) in
      let failed := List.length (failures s) in
      exists stats,
        calls (fst (summary now s))
        = calls s
          ++ CallSummary stats
          :: (if (VERBOSE <=? verbosity s) && (0 <? failed)
              then [CallFailureDetails (failures s)] else [])
        /\ Stats.passed stats = passed
        /\ Stats.failed stats = failed
        /\ Stats.total stats = Stats.passed stats + Stats.failed stats
        /\ Stats.duration stats = (now - startTime s)%Z
        /\ (Stats.total stats = 0 -> Stats.passRate stats = VNumber fzero)
        /\ (0 < Stats.total stats ->
            Stats.passRate stats
            = VString (toFixed Number_toString
                         (fmul (fdiv (float_of_nat passed)
                                     (float_of_nat (passed + failed)))
                               (float_of_nat 100)) 2))
        /\ (0 < Stats.total stats ->
            (Z.of_nat (Stats.total stats) < 2 ^ 53)%Z ->
            exists n,
              Stats.passRate stats = VString (fixed_digits n 2)
              /\ two_decimals (fixed_digits n 2)
              /\ near_percentage passed (passed + failed) n)
        /\ snd (summary now s) = (failed =? 0))
  /\ (forall (suiteName : jsstring) (r : reporter_kind) (start now : Z)
             (address : nat),
         let s0 := create suiteName (Some VERBOSE) r start in
         let s1 := fst (test (VString (js "t1")) (Returns (VBool true)) s0) in
         let t2 := VObject address
                     [ (js "passed", VBool false);
                       (js "actual", VNumber (float_of_nat 1));
                       (js "expected", VNumber (float_of_nat 2)) ] in
         let s2 := fst (test (VString (js "t2")) (Returns t2) s1) in
         filter (fun c => match c with CallSummary _ => true | _ => false end)
                (calls (fst (summary now s2)))
         = [CallSummary (Stats.mk 2 1 1 (VString (js "50.00"))
                                  (now - start))]
         /\ snd (summary now s2) = false).
Proof.
  split.
  - intros now s Hv passed failed.
    eexists. split; [apply (summary_calls now s Hv)|].
    cbn [Stats.passed Stats.failed Stats.total Stats.duration
         Stats.passRate].
    fold passed. fold failed.
    split; [reflexivity|]. split; [reflexivity|]. split; [reflexivity|].
    split; [reflexivity|]. unfold passRate.
    split; [intros ->; reflexivity|].
    split.
    { intros Ht. apply Nat.ltb_lt in Ht. now rewrite Ht. }
    split; [|apply summary_value].
    intros Ht Hb. fold (passRate Number_toString passed (passed + failed)).
    apply pass_rate_text; [assumption|lia|assumption].
  - intros suiteName r start now address. cbv zeta.
    split; reflexivity.
Qed.

(** *** The calls on the reporter *)

Lemma reported_refl (s : t) : reported s s.
Proof.
  split; [reflexivity|]. exists []. rewrite app_nil_r.
  rewrite appended_none by reflexivity. repeat split. constructor.
Qed.

Lemma reported_forward (s : t) (c : call) :
  is_test_report c = false -> required_level c <= verbosity s ->
  reported s (forward s c).
Proof.
  intros Hc Hl. split; [reflexivity|]. exists [c].
  rewrite appended_none by reflexivity. cbn [filter flat_map].
  rewrite Hc. repeat split. now constructor.
Qed.

Lemma reported_trans (a b c : t) :
  successes b = successes a -> failures b = failures a ->
  reported a b -> reported b c -> reported a c.
Proof.
  intros Hs Hf (Hv & m1 & Hc1 & Hl1 & Hr1) (Hv2 & m2 & Hc2 & Hl2 & Hr2).
  split; [congruence|]. exists (m1 ++ m2).
  rewrite Hc2, Hc1, app_assoc. split; [reflexivity|].
  rewrite Hv in Hl2, Hr2. split; [apply Forall_app; now split|].
  rewrite filter_app, Hr1, Hr2.
  rewrite (@appended_none a b Hs Hf). cbn [flat_map app].
  unfold appended. now rewrite Hs, Hf.
Qed.

Lemma test_reported (description : value) (assertion : outcome) (s : t) :
  reported s (fst (test description assertion s)).
Proof.
  pose proof (test_cases description assertion s) as Hc.
  destruct (settle (blank description s) assertion) as [r|] eqn:Hs.
  - destruct Hc as (_ & _ & Hv & _ & _ & _ & _ & Hacc).
    apply settle_id in Hs. destruct Hs as [_ Hd]. cbn in Hd.
    split; [exact Hv|].
    unfold test_report. destruct (passing r) eqn:Hp.
    + destruct Hacc as (H1 & H2 & H3).
      rewrite (@appended_success s _ r H1 H2). cbn [flat_map]. rewrite Hp.
      rewrite app_nil_r, Hd.
      destruct (VERBOSE <=? verbosity s) eqn:Hl.
      * exists [CallTestPassed (Result.id r) description].
        repeat split; [exact H3|]. constructor; [|constructor].
        now apply Nat.leb_le.
      * exists []. repeat split; [exact H3|constructor].
    + destruct Hacc as (H1 & H2 & H3).
      rewrite (@appended_failure s _ r H1 H2). cbn [flat_map]. rewrite Hp.
      rewrite app_nil_r, Hd.
      destruct (QUIET <=? verbosity s) eqn:Hl.
      * exists [CallTestFailed (Result.id r) description r].
        repeat split; [exact H3|]. constructor; [|constructor].
        now apply Nat.leb_le.
      * exists []. repeat split; [exact H3|constructor].
  - rewrite Hc. cbn [fst]. split; [reflexivity|]. exists [].
    rewrite appended_none by reflexivity. cbn [calls counted].
    rewrite app_nil_r. repeat split. constructor.
Qed.

Lemma summary_reported (now : Z) (s : t) :
  reported s (fst (summary now s)).
Proof.
  unfold TestSuite.summary.
  destruct (verbosity s <? NORMAL) eqn:Hv; cbn [fst];
    [apply reported_refl|].
  apply Nat.ltb_ge in Hv.
  match goal with |- context [CallSummary ?st] => set (stats := st) end.
  cbn [forward verbosity failures].
  destruct ((VERBOSE <=? verbosity s) && (0 <? List.length (failures s)))
    eqn:Hd.
  - apply andb_true_iff in Hd. destruct Hd as [Hd _].
    apply Nat.leb_le in Hd.
    eapply reported_trans; [| |apply reported_forward|
                            apply reported_forward];
      try reflexivity; assumption.
  - apply reported_forward; [reflexivity|assumption].
Qed.

(** Every call of the suite is made within its verbosity and reports
    the results it adds. *)
Lemma step_reported (o : op) (s : t) : reported s (fst (step o s)).
Proof.
  destruct o; cbn [TestSuite.step fst].
  - unfold header. destruct (verbosity s <? NORMAL) eqn:Hv;
      [apply reported_refl|].
    apply Nat.ltb_ge in Hv. now apply reported_forward.
  - unfold section. destruct (verbosity s <? NORMAL) eqn:Hv;
      [apply reported_refl|].
    apply Nat.ltb_ge in Hv. split; [reflexivity|].
    exists [CallSection (sectionNumber s + 1) title].
    rewrite appended_none by reflexivity. repeat split.
    now constructor.
  - unfold subsection. destruct (verbosity s <? NORMAL) eqn:Hv;
      [apply reported_refl|].
    apply Nat.ltb_ge in Hv. now apply reported_forward.
  - unfold code. destruct (verbosity s <? VERBOSE) eqn:Hv;
      [apply reported_refl|].
    apply Nat.ltb_ge in Hv. now apply reported_forward.
  - unfold javascript, code. destruct (verbosity s <? VERBOSE) eqn:Hv;
      [apply reported_refl|].
    apply Nat.ltb_ge in Hv. now apply reported_forward.
  - apply test_reported.
  - unfold assertEqual. apply test_reported.
  - unfold assertArraysEqual. apply test_reported.
  - apply summary_reported.
  - unfold TestSuite.diff. destruct (VERBOSE <=? verbosity s) eqn:Hv;
      cbn [fst]; [|apply reported_refl].
    apply Nat.leb_le in Hv. now apply reported_forward.
  - unfold log. destruct (VERBOSE <=? verbosity s) eqn:Hv;
      [|apply reported_refl].
    apply Nat.leb_le in Hv. now apply reported_forward.
  - unfold info. destruct (NORMAL <=? verbosity s) eqn:Hv;
      [|apply reported_refl].
    apply Nat.leb_le in Hv. now apply reported_forward.
  - unfold warn. destruct (NORMAL <=? verbosity s) eqn:Hv;
      [|apply reported_refl].
    apply Nat.leb_le in Hv. now apply reported_forward.
  - unfold error. destruct (QUIET <=? verbosity s) eqn:Hv;
      [|apply reported_refl].
    apply Nat.leb_le in Hv. now apply reported_forward.
  - unfold success. destruct (VERBOSE <=? verbosity s) eqn:Hv;
      [|apply reported_refl].
    apply Nat.leb_le in Hv. now apply reported_forward.
Qed.

(** A sequence of calls: the calls made on the reporter are within the
    verbosity, and the test reports among them are those of the results
    of the sequence, in order. *)
Lemma run_reported (ops : list op) :
  forall s,
    verbosity (fst (run ops s)) = verbosity s
    /\ exists made,
         calls (fst (run ops s)) = calls s ++ made
         /\ Forall (fun c => required_level c <= verbosity s) made
         /\ filter is_test_report made
            = flat_map (test_report (verbosity s)) (results ops s).
Proof.
  induction ops as [|o ops IH]; intros s.
  - split; [reflexivity|]. exists []. cbn. rewrite app_nil_r.
    repeat split. constructor.
  - pose proof (step_reported o s) as (Hv & m1 & Hc1 & Hl1 & Hr1).
    cbn [TestSuite.run results].
    destruct (step o s) as [s1 c]. cbn [fst] in *.
    destruct c.
    + destruct (IH s1) as (Hv2 & m2 & Hc2 & Hl2 & Hr2).
      split; [congruence|]. exists (m1 ++ m2).
      rewrite Hc2, Hc1, app_assoc. split; [reflexivity|].
      rewrite Hv in Hl2, Hr2. split; [apply Forall_app; now split|].
      now rewrite filter_app, flat_map_app, Hr1, Hr2.
    + cbn [fst]. split; [exact Hv|]. exists m1. auto.
Qed.

(** The suite calls its reporter only as its verbosity allows: every
    call that a sequence of suite calls makes on the reporter needs at
    most the verbosity of the suite (QUIET for [testFailed] and [error];
    NORMAL for [header], [section], [subsection], [summary], [info] and
    [warn]; VERBOSE for the others), so a SILENT suite makes none. *)
Theorem reporter_calls_within_verbosity (ops : list op) (s : t) :
  exists made,
    calls (fst (run ops s)) = calls s ++ made
    /\ Forall (fun c => required_level c <= verbosity s) made
    /\ (verbosity s = SILENT -> made = []).
Proof.
  destruct (run_reported ops s) as (_ & made & Hc & Hl & _).
  exists made. split; [exact Hc|]. split; [exact Hl|].
  intros Hs. destruct made as [|c made]; [reflexivity|].
  apply Forall_inv in Hl. rewrite Hs in Hl.
  destruct c; cbn in Hl; inversion Hl.
Qed.

(** Every result of a sequence of suite calls is reported at most once
    and in the order of execution: a passing one as [testPassed] when
    the verbosity is VERBOSE or above, a failing one as [testFailed],
    with the stored record, when it is QUIET or above; the suite makes
    no other [testPassed] or [testFailed] call. *)
Theorem results_reported_in_order (ops : list op) (s : t) :
  filter is_test_report (calls (fst (run ops s)))
  = filter is_test_report (calls s)
    ++ flat_map (test_report (verbosity s)) (results ops s).
Proof.
  destruct (run_reported ops s) as (_ & made & Hc & _ & Hr).
  now rewrite Hc, filter_app, Hr.
Qed.

(** *** What makes a test pass *)

(** A callback that returns passes the test exactly when it returns
    [true] or an object whose [passed] is truthy: the call returns and
    appends one result, to the successes in that case and to the
    failures in every other; a returned number, string, function,
    [undefined] or [null] leaves the failing record the call started
    from. *)
Theorem test_passes_iff_accepted (description v : value) (s : t) :
  let s' := fst (test description (Returns v) s) in
  snd (test description (Returns v) s) = Normal
  /\ exists r,
       appended s s' = [r]
       /\ passing r = accepted v
       /\ (if accepted v
           then successes s' = successes s ++ [r]
                /\ failures s' = failures s
           else failures s' = failures s ++ [r]
                /\ successes s' = successes s)
       /\ match v with
          | VBool _ | VArray _ _ | VObject _ _ => True
          | _ => r = blank description s
          end.
Proof.
  intros s'. subst s'.
  pose proof (test_cases description (Returns v) s) as Hc.
  assert (Hs : exists r,
             settle (blank description s) (Returns v) = Some r
             /\ passing r = accepted v
             /\ match v with
                | VBool _ | VArray _ _ | VObject _ _ => True
                | _ => r = blank description s
                end).
  { unfold settle, passing.
    destruct v; cbn [typeof jstype_eqb truthy andb];
      rewrite ?andb_false_r; eexists; (split; [reflexivity|]);
      cbn [Result.passed accepted prop blank]; try (split; reflexivity).
    - split; [|exact I].
      now destruct (lookup (js "passed") props). }
  destruct Hs as (r & Hs & Hp & Hb). rewrite Hs in Hc.
  destruct Hc as (Hn & _ & _ & _ & _ & _ & _ & Hacc).
  split; [exact Hn|]. exists r. rewrite <- Hp.
  destruct (passing r); destruct Hacc as (H1 & H2 & _).
  - split; [exact (@appended_success s _ r H1 H2)|]. auto.
  - split; [exact (@appended_failure s _ r H1 H2)|]. auto.
Qed.

(** *** Subsections and the status of the process *)

(** At NORMAL or above [subsection] announces the number of the next
    test: the reporter is handed the section number and the test number
    plus one, no counter moves, and the result of a [test] call that
    follows carries exactly that pair as its id. *)
Theorem subsection_announces_next_test (title description : value)
    (assertion : outcome) (s : t) :
  NORMAL <= verbosity s ->
  let s1 := subsection title s in
  let s2 := fst (test description assertion s1) in
  new_calls s s1
  = [CallSubsection (sectionNumber s) (testNumber s + 1) title]
  /\ same_suite s1 s
  /\ (forall r, In r (appended s1 s2) ->
        Result.id r = testId (sectionNumber s) (testNumber s + 1))
  /\ (snd (test description assertion s1) = Normal ->
      exists r, appended s1 s2 = [r]).
Proof.
  intros Hv s1 s2. subst s1 s2. apply Nat.ltb_ge in Hv.
  unfold subsection. rewrite Hv.
  set (s1 := forward s _).
  split; [unfold new_calls; cbn; apply skipn_length_app|].
  split; [apply same_suite_forward|].
  pose proof (test_cases description assertion s1) as Hc.
  destruct (settle (blank description s1) assertion) as [r|] eqn:Hs.
  - destruct Hc as (Hn & _ & _ & _ & _ & _ & _ & Hacc).
    apply settle_id in Hs. destruct Hs as [Hid _]. cbn in Hid.
    assert (Happ : appended s1 (fst (test description assertion s1)) = [r]).
    { destruct (passing r); destruct Hacc as (H1 & H2 & _).
      - exact (@appended_success s1 _ r H1 H2).
      - exact (@appended_failure s1 _ r H1 H2). }
    rewrite Happ. split; [|eauto]. intros r' [<-|[]]. exact Hid.
  - rewrite Hc. cbn [fst snd].
    rewrite (@appended_none s1 (counted s1) eq_refl eq_refl).
    split; [intros r' []|discriminate].
Qed.


(** *** Ids of the results *)

Lemma js_inj (a b : string) : js a = js b -> a = b.
Proof.
  unfold js. intros H.
  rewrite <- (string_of_list_ascii_of_string a),
          <- (string_of_list_ascii_of_string b).
  f_equal. revert H.
  generalize (list_ascii_of_string a) (list_ascii_of_string b).
  induction l as [|x l IH]; intros [|y l']; cbn; try discriminate;
    [reflexivity|].
  intros [= Hxy Hl]. f_equal; [|now apply IH].
  now rewrite <- (ascii_N_embedding x), <- (ascii_N_embedding y), Hxy.
Qed.

Lemma nat_toString_inj (a b : nat) : nat_toString a = nat_toString b -> a = b.
Proof.
  unfold nat_toString. intros H. apply js_inj in H.
  apply Unsigned.to_uint_inj.
  pose proof (NilEmpty.usu (Nat.to_uint a)) as Ha.
  pose proof (NilEmpty.usu (Nat.to_uint b)) as Hb.
  rewrite H in Ha. congruence.
Qed.

Lemma nat_toString_digits (n : nat) : Forall is_digit (nat_toString n).
Proof. apply string_of_uint_digits. Qed.

(** A text of digits, a point and more: the digits are determined. *)
Lemma digits_before_point (x x' y y' : jsstring) :
  Forall is_digit x -> Forall is_digit x' ->
  x ++ DOT :: y = x' ++ DOT :: y' -> x = x' /\ y = y'.
Proof.
  revert x'. induction x as [|c x IH]; intros [|c' x'] Hx Hx' H.
  - cbn in H. injection H as ->. auto.
  - cbn in H. injection H as <- _. apply Forall_inv in Hx'.
    unfold is_digit, DOT in Hx'. lia.
  - cbn in H. injection H as -> _. apply Forall_inv in Hx.
    unfold is_digit, DOT in Hx. lia.
  - cbn in H. injection H as -> H.
    destruct (IH x' (Forall_inv_tail Hx) (Forall_inv_tail Hx') H)
      as [-> ->].
    auto.
Qed.

Lemma testId_inj (a b a' b' : nat) :
  testId a b = testId a' b' -> a = a' /\ b = b'.
Proof.
  unfold testId. intros H.
  apply digits_before_point in H; try apply nat_toString_digits.
  destruct H as [Ha Hb]. split; now apply nat_toString_inj.
Qed.

(** Results that are kept while the counters move on stay well
    numbered. *)
Lemma well_numbered_kept (s s' : t) :
  successes s' = successes s -> failures s' = failures s ->
  (sectionNumber s < sectionNumber s'
   \/ (sectionNumber s = sectionNumber s'
       /\ testNumber s <= testNumber s')) ->
  well_numbered s -> well_numbered s'.
Proof.
  unfold well_numbered, stored. intros -> -> Hc [Hn Hr].
  split; [exact Hn|]. intros r Hin.
  destruct (Hr r Hin) as (a & b & Hid & Hab).
  exists a, b. split; [exact Hid|]. lia.
Qed.

Lemma well_numbered_added (s s' : t) (r : Result.t) :
  Permutation (stored s') (r :: stored s) ->
  Result.id r = testId (sectionNumber s) (testNumber s + 1) ->
  sectionNumber s' = sectionNumber s ->
  testNumber s' = testNumber s + 1 ->
  well_numbered s -> well_numbered s'.
Proof.
  intros Hp Hid Hsn Htn [Hn Hr]. split.
  - apply (Permutation_NoDup
             (l := map Result.id (r :: stored s))).
    + apply Permutation_map. now apply Permutation_sym.
    + cbn [map]. constructor; [|exact Hn].
      intros Hin. apply in_map_iff in Hin.
      destruct Hin as (r' & Hid' & Hin').
      destruct (Hr r' Hin') as (a & b & Hab & Hle).
      rewrite Hid, Hab in Hid'. apply testId_inj in Hid'. lia.
  - intros r' Hin. apply (Permutation_in _ Hp) in Hin.
    destruct Hin as [<-|Hin].
    + exists (sectionNumber s), (testNumber s + 1).
      split; [exact Hid|]. lia.
    + destruct (Hr r' Hin) as (a & b & Hab & Hle).
      exists a, b. split; [exact Hab|]. lia.
Qed.

Lemma step_well_numbered (o : op) (s : t) :
  well_numbered s -> well_numbered (fst (step o s)).
Proof.
  intros Hw. pose proof (step_effect o s) as He. cbn zeta in He.
  destruct (is_test o) eqn:Ht.
  - destruct He as (Htn & Hsn & He).
    destruct (snd (step o s)).
    + destruct He as (r & Hid & _ & Hs & Hf).
      apply (@well_numbered_added s _ r); try assumption.
      unfold stored. rewrite Hs, Hf. cbn [filter].
      destruct (passing r); cbn [negb]; rewrite ?app_nil_r.
      * rewrite <- app_assoc. cbn [app].
        apply Permutation_sym, Permutation_middle.
      * rewrite app_assoc.
        apply Permutation_sym, Permutation_cons_append.
    + destruct He as [Hs Hf].
      apply (@well_numbered_kept s); try assumption. lia.
  - destruct He as (Hs & Hf & Hc).
    destruct (is_section o) eqn:Hsec.
    + destruct o; try discriminate. cbn [TestSuite.step fst] in *.
      apply (@well_numbered_kept s); try assumption.
      unfold section. destruct (verbosity s <? NORMAL); cbn; lia.
    + destruct (Hc eq_refl) as [Htn Hsn].
      apply (@well_numbered_kept s); try assumption. lia.
Qed.

Lemma run_well_numbered (ops : list op) :
  forall s, well_numbered s -> well_numbered (fst (run ops s)).
Proof.
  induction ops as [|o ops IH]; intros s Hw; [exact Hw|].
  cbn [TestSuite.run]. pose proof (step_well_numbered o Hw) as H1.
  destruct (step o s) as [s1 c]. cbn [fst] in H1.
  destruct c; [now apply IH|exact H1].
Qed.


(** *** The summary of a run *)

(** After a sequence of calls that does not raise, on a suite that held
    no result before, [summary] at NORMAL or above hands the reporter
    statistics that count the run: the total is the number of test
    invocations, and passed and failed are the numbers of passing and
    failing results; it returns [true] exactly when every result
    passes. *)
Theorem summary_counts_the_run (ops : list op) (s : t) (later : Z) :
  successes s = [] -> failures s = [] ->
  snd (run ops s) = Normal -> NORMAL <= verbosity s ->
  let s' := fst (run ops s) in
  exists stats,
    In (CallSummary stats) (new_calls s' (fst (summary later s')))
    /\ Stats.total stats = invocations ops
    /\ Stats.passed stats = List.length (filter passing (results ops s))
    /\ Stats.failed stats
       = List.length (filter (fun r => negb (passing r)) (results ops s))
    /\ Stats.duration stats = (later - startTime s)%Z
    /\ snd (summary later s') = forallb passing (results ops s).
Proof.
  intros Hs Hf Hn Hv s'.
  destruct (run_accumulators ops s) as [Hs' Hf'].
  rewrite Hs in Hs'. rewrite Hf in Hf'. cbn [app] in Hs', Hf'.
  destruct (run_reported ops s) as [Hv' _].
  assert (Hst : startTime s' = startTime s).
  { subst s'. clear. revert s.
    induction ops as [|o ops IH]; intros s; [reflexivity|].
    cbn [TestSuite.run].
    assert (Ho : startTime (fst (step o s)) = startTime s).
    { destruct (is_test o) eqn:Ht.
      - destruct (step_test o s Ht) as (d & a & ->).
        pose proof (test_cases d a s) as Hc.
        destruct (settle (blank d s) a).
        + now destruct Hc as (_ & _ & _ & _ & _ & ? & _).
        + now rewrite Hc.
      - destruct (is_section o) eqn:Hsec.
        + destruct o; try discriminate. cbn [TestSuite.step fst].
          unfold section. now destruct (verbosity s <? NORMAL).
        + now destruct (step_other o s Ht Hsec)
            as (_ & _ & _ & _ & _ & _ & ? & _). }
    destruct (step o s) as [s1 c]. cbn [fst] in Ho.
    destruct c; [now rewrite IH|exact Ho]. }
  fold s' in Hs', Hf', Hv'.
  assert (Hv2 : NORMAL <= verbosity s') by lia.
  pose proof (summary_calls later s' Hv2) as Hc. cbn zeta in Hc.
  eexists. split.
  - unfold new_calls. rewrite Hc, skipn_length_app. now left.
  - cbn [Stats.total Stats.passed Stats.failed Stats.duration].
    rewrite Hs', Hf', Hst.
    split; [|split; [reflexivity|split; [reflexivity|split;
                                          [reflexivity|]]]].
    + rewrite <- (run_normal_results ops s Hn).
      pose proof (filter_length passing (results ops s)). lia.
    + rewrite summary_value, Hf'.
      destruct (forallb passing (results ops s)) eqn:Ha.
      * apply filter_failing_nil in Ha. now rewrite Ha.
      * destruct (filter (fun r => negb (passing r)) (results ops s))
          eqn:E; [|reflexivity].
        apply filter_failing_nil in E. congruence.
Qed.

(** *** Calls that only report *)

(** Results come from test calls only, and the counters move in test and
    section calls only: after any sequence of other calls ([header],
    [subsection], [code], [javascript], [summary], [diff] and the
    logging calls) the suite differs at most in the calls recorded for
    its reporter, even when a [diff] raises. *)
Theorem reporting_calls_leave_the_suite_unchanged (ops : list op) (s : t) :
  forallb narrates ops = true -> same_suite (fst (run ops s)) s.
Proof.
  revert s. induction ops as [|o ops IH]; intros s Hn;
    [apply same_suite_refl|].
  cbn [forallb] in Hn. apply andb_true_iff in Hn. destruct Hn as [Ho Hn].
  unfold narrates in Ho. apply andb_true_iff in Ho.
  destruct Ho as [Ht Hs]. apply negb_true_iff in Ht, Hs.
  pose proof (step_other o s Ht Hs) as H1.
  cbn [TestSuite.run]. destruct (step o s) as [s1 c]. cbn [fst] in H1.
  destruct c; [|exact H1].
  eapply same_suite_trans; [apply IH, Hn|exact H1].
Qed.

(** *** Pass rates with two decimals *)

(** Whenever the percentage of passing tests has at most two decimals,
    the pass rate that [summary] prints is exactly that percentage
    (for every total below 2^53): in particular 100.00 when every test
    passes and 0.00 when none does. *)
Theorem pass_rate_exact_for_two_decimals (total : nat) :
  0 < total -> (Z.of_nat total < 2 ^ 53)%Z ->
  (forall passed,
     passed <= total ->
     ((10000 * Z.of_nat passed) mod Z.of_nat total = 0)%Z ->
     passRate Number_toString passed total
     = VString (fixed_digits (10000 * Z.of_nat passed / Z.of_nat total) 2))
  /\ passRate Number_toString total total = VString (js "100.00")
  /\ passRate Number_toString 0 total = VString (js "0.00").
Proof.
  intros Ht Hb.
  assert (Hexact : forall passed,
             passed <= total ->
             ((10000 * Z.of_nat passed) mod Z.of_nat total = 0)%Z ->
             passRate Number_toString passed total
             = VString
                 (fixed_digits (10000 * Z.of_nat passed / Z.of_nat total) 2)).
  { intros passed Hp Hm.
    destruct (@pass_rate_text passed total Ht Hp Hb) as (n & -> & _ & Hnear).
    unfold near_percentage in Hnear. do 2 f_equal.
    apply Z.div_exact in Hm; [|lia].
    set (q := (10000 * Z.of_nat passed / Z.of_nat total)%Z) in *.
    rewrite Hm in Hnear. nia. }
  split; [exact Hexact|]. split.
  - rewrite (Hexact total (Nat.le_refl _)).
    + replace (10000 * Z.of_nat total / Z.of_nat total)%Z with 10000%Z;
        [reflexivity|].
      symmetry. apply Z.div_mul. lia.
    + apply Z.mod_mul. lia.
  - rewrite (Hexact 0); [reflexivity|lia|reflexivity].
Qed.

(** *** Verbosities above VERBOSE *)

Lemma loud_tests (v : nat) :
  VERBOSE <= v ->
  (v <? NORMAL) = false /\ (v <? VERBOSE) = false
  /\ (VERBOSE <=? v) = true /\ (NORMAL <=? v) = true
  /\ (QUIET <=? v) = true.
Proof.
  unfold VERBOSE, NORMAL, QUIET. intros Hv. repeat split;
    first [apply Nat.ltb_ge; lia | apply Nat.leb_le; lia].
Qed.

Lemma step_equally_loud (o : op) (a b : t) :
  equally_loud a b ->
  equally_loud (fst (step o a)) (fst (step o b))
  /\ snd (step o a) = snd (step o b).
Proof.
  destruct a as [na va ta sa fa pa ba ra ca], b as [nb vb tb sb fb pb bb rb cb].
  unfold equally_loud. cbn [name verbosity testNumber sectionNumber
                            failures successes startTime reporter calls].
  intros (Ha & Hb & <- & <- & <- & <- & <- & <- & <- & <-).
  destruct (loud_tests Ha) as (A1 & A2 & A3 & A4 & A5).
  destruct (loud_tests Hb) as (B1 & B2 & B3 & B4 & B5).
  destruct o; cbn [TestSuite.step];
    unfold header, section, subsection, javascript, code, assertEqual,
           assertArraysEqual, test, TestSuite.summary, TestSuite.diff, log,
           info, warn, error, success, forward;
    cbn [name verbosity testNumber sectionNumber failures successes
         startTime reporter calls];
    rewrite ?A1, ?A2, ?A3, ?A4, ?A5, ?B1, ?B2, ?B3, ?B4, ?B5;
    cbn [andb fst snd];
    repeat match goal with
           | |- context [match settle ?r ?x with _ => _ end] =>
               destruct (settle r x)
           | |- context [if truthy ?x then _ else _] => destruct (truthy x)
           | |- context [if 0 <? ?x then _ else _] => destruct (0 <? x)
           end;
    cbn [fst snd name verbosity testNumber sectionNumber failures successes
         startTime reporter calls];
    rewrite ?A3, ?A5, ?B3, ?B5;
    cbn [fst snd name verbosity testNumber sectionNumber failures successes
         startTime reporter calls];
    repeat split; assumption.
Qed.

(** The suite never looks at a verbosity beyond VERBOSE: two suites that
    differ only in verbosities of VERBOSE or more (DEBUG, say, and
    VERBOSE) make the same calls on their reporter, hold the same
    results and end the same way after every sequence of calls. *)
Theorem debug_adds_nothing_to_verbose (ops : list op) :
  forall a b,
    equally_loud a b ->
    equally_loud (fst (run ops a)) (fst (run ops b))
    /\ snd (run ops a) = snd (run ops b).
Proof.
  induction ops as [|o ops IH]; intros a b Hab; [now split|].
  cbn [TestSuite.run].
  destruct (step_equally_loud o Hab) as [H1 H2].
  destruct (step o a) as [a1 c1], (step o b) as [b1 c2].
  cbn [fst snd] in *. subst c2. destruct c1; [now apply IH|now split].
Qed.

End SuiteProperties.

(** ** The assertion helpers *)

Lemma settle_assertion_record (description passed actual expected
    message : value) (s : t) :
  settle (blank description s)
         (Returns (assertion_record passed actual expected message))
  = Some (Result.mk (testId (sectionNumber s) (testNumber s + 1))
            description (nullish_or passed (VBool false))
            actual expected message).
Proof. reflexivity. Qed.

(** A test whose assertion returns the record of an assertion helper
    with a boolean [passed]. *)
Lemma test_assertion_record (description actual expected message : value)
    (passed : bool) (s : t) :
  let r := Result.mk (testId (sectionNumber s) (testNumber s + 1))
                     description (VBool passed) actual expected message in
  let call := test description
                (Returns (assertion_record (VBool passed) actual expected
                            message)) s in
  snd call = Normal
  /\ (if passed
      then successes (fst call) = successes s ++ [r]
           /\ failures (fst call) = failures s
      else failures (fst call) = failures s ++ [r]
           /\ successes (fst call) = successes s).
Proof.
  intros r call. subst call.
  pose proof (test_cases description
                (Returns (assertion_record (VBool passed) actual expected
                            message)) s) as Hc.
  rewrite settle_assertion_record in Hc. cbn [nullish_or] in Hc.
  destruct Hc as (Hn & _ & _ & _ & _ & _ & _ & Hacc).
  unfold passing in Hacc. cbn [Result.passed truthy] in Hacc.
  split; [assumption|].
  destruct passed; destruct Hacc as (H1 & H2 & _); auto.
Qed.

Lemma feqb_refl (x : float) : x <> S754_nan -> feqb x x = true.
Proof.
  intros Hx. unfold feqb, SFeqb, SFcompare.
  destruct x as [[|]|[|]| |[|] m e]; try reflexivity; try congruence;
    rewrite Z.compare_refl, Pos.compare_cont_refl; reflexivity.
Qed.

Lemma strict_eq_refl (x : value) : x <> NaN -> strict_eq x x = true.
Proof.
  intros Hx. destruct x; cbn [strict_eq]; try reflexivity.
  - apply Bool.eqb_reflx.
  - apply feqb_refl. unfold NaN in Hx. congruence.
  - apply jsstring_eqb_refl.
  - apply Nat.eqb_refl.
  - apply Nat.eqb_refl.
  - apply Nat.eqb_refl.
Qed.

(** C4, as the code has it.  [assertEqual(x, y, d)] returns and appends
    one result with [actual = x] and [expected = y]: a passing one with
    no message ([null]) when [x === y], a failing one with the message
    "Values do not match" when [x !== y].  [x === x] holds for every
    value except NaN, so [assertEqual(x, x, d)] passes for every [x]
    other than NaN. *)
Theorem assertEqual_by_strict_equality :
  forall (x y description : value) (s : t),
    let testId := testId (sectionNumber s) (testNumber s + 1) in
    let s' := fst (assertEqual x y description s) in
    snd (assertEqual x y description s) = Normal
    /\ (strict_eq x y = true ->
        successes s'
        = successes s ++ [Result.mk testId description (VBool true) x y VNull]
        /\ failures s' = failures s)
    /\ (strict_eq x y = false ->
        failures s'
        = failures s
          ++ [Result.mk testId description (VBool false) x y
                (VString (js "Values do not match"))]
        /\ successes s' = successes s)
    /\ (x <> NaN ->
        successes (fst (assertEqual x x description s))
        = successes s ++ [Result.mk testId description (VBool true) x x VNull]
        /\ failures (fst (assertEqual x x description s)) = failures s).
Proof.
  intros x y description s tid s'. subst s' tid.
  assert (Hgen : forall a b,
    snd (assertEqual a b description s) = Normal
    /\ (strict_eq a b = true ->
        successes (fst (assertEqual a b description s))
        = successes s
          ++ [Result.mk (testId (sectionNumber s) (testNumber s + 1))
                description (VBool true) a b VNull]
        /\ failures (fst (assertEqual a b description s)) = failures s)
    /\ (strict_eq a b = false ->
        failures (fst (assertEqual a b description s))
        = failures s
          ++ [Result.mk (testId (sectionNumber s) (testNumber s + 1))
                description (VBool false) a b
                (VString (js "Values do not match"))]
        /\ successes (fst (assertEqual a b description s)) = successes s)).
  { intros a b. unfold assertEqual.
    destruct (strict_eq a b).
    - destruct (@test_assertion_record description a b VNull true s)
        as [Hn Hacc].
      split; [exact Hn|]. split; intros H; [exact Hacc|discriminate H].
    - destruct (@test_assertion_record description a b
                  (VString (js "Values do not match")) false s)
        as [Hn Hacc].
      split; [exact Hn|]. split; intros H; [discriminate H|exact Hacc]. }
  destruct (Hgen x y) as (Hn & Heq & Hne).
  split; [exact Hn|]. split; [exact Heq|]. split; [exact Hne|].
  intros Hx. apply (Hgen x x). now apply strict_eq_refl.
Qed.

(** C4 as stated fails for NaN: [NaN === NaN] is false, and
    [assertEqual(NaN, NaN, d)] appends a failing result with the message
    "Values do not match". *)
Lemma assertEqual_NaN_fails :
  let s := create (js "suite") None Terminal 0 in
  let d := VString (js "same value") in
  strict_eq NaN NaN = false
  /\ successes (fst (assertEqual NaN NaN d s)) = []
  /\ failures (fst (assertEqual NaN NaN d s))
     = [Result.mk (js "0.1") d (VBool false) NaN NaN
          (VString (js "Values do not match"))]
  /\ ~ (forall (x description : value) (s : t),
           successes (fst (assertEqual x x description s))
           = successes s
             ++ [Result.mk (testId (sectionNumber s) (testNumber s + 1))
                   description (VBool true) x x VNull]).
Proof.
  cbv zeta. repeat split; try reflexivity.
  intros H.
  specialize (H NaN VNull (create (js "suite") None Terminal 0)).
  cbv in H. discriminate H.
Qed.

Lemma every_from_true (a : list (option value))
    (callback : value -> nat -> bool) :
  forall index,
    every_from index a callback = true
    <-> forall k x, nth_error a k = Some (Some x) ->
                    callback x (index + k) = true.
Proof.
  induction a as [|[element|] rest IH]; intros index; cbn [every_from].
  - split; [|reflexivity]. intros _ [|k] x; discriminate.
  - rewrite andb_true_iff, IH. split.
    + intros [H0 Hrest] [|k] x Hk; cbn in Hk.
      * injection Hk as <-. now rewrite Nat.add_0_r.
      * rewrite Nat.add_succ_r. now apply (Hrest k x).
    + intros H. split.
      * rewrite <- (Nat.add_0_r index). now apply H.
      * intros k x Hk. cbn [Nat.add]. rewrite <- Nat.add_succ_r.
        now apply H.
  - rewrite IH. split.
    + intros Hrest [|k] x Hk; cbn in Hk; [discriminate|].
      rewrite Nat.add_succ_r. now apply Hrest.
    + intros H k x Hk. cbn [Nat.add]. rewrite <- Nat.add_succ_r.
      now apply H.
Qed.

(** [arraysEqual] by what it looks at: two arrays of one length, and the
    elements present in the first strictly equal to what the second
    holds at their index. *)
Lemma arraysEqual_true (a b : value) :
  arraysEqual a b = true
  <-> exists ia ea ib eb,
      a = VArray ia ea /\ b = VArray ib eb
      /\ List.length ea = List.length eb
      /\ forall k x, nth_error ea k = Some (Some x) ->
                     strict_eq x (read eb k) = true.
Proof.
  unfold arraysEqual, every. split.
  - intros H. repeat (apply andb_true_iff in H; destruct H as [H ?]).
    destruct a as [| | | | |ia ea| |]; try discriminate.
    destruct b as [| | | | |ib eb| |]; try discriminate.
    cbn [elements] in *. exists ia, ea, ib, eb.
    split; [reflexivity|]. split; [reflexivity|].
    split; [now apply Nat.eqb_eq|].
    exact (proj1 (@every_from_true ea _ 0) H0).
  - intros (ia & ea & ib & eb & -> & -> & Hlen & Hall).
    cbn [isArray elements andb]. rewrite Hlen, Nat.eqb_refl. cbn [andb].
    exact (proj2 (@every_from_true ea _ 0) Hall).
Qed.

Lemma read_dense (elems : list (option value)) (k : nat) :
  dense elems -> k < List.length elems ->
  nth_error elems k = Some (Some (read elems k)).
Proof.
  intros Hd Hk. unfold read. specialize (Hd k Hk).
  destruct (nth_error elems k) as [[x|]|] eqn:Hn; try congruence.
  apply nth_error_None in Hn. lia.
Qed.

(** C5, as the code has it.  [assertArraysEqual(actual, expected, d)]
    appends a passing result exactly when [arraysEqual] holds, a failing
    one with the message "Arrays do not match" otherwise; [arraysEqual]
    holds exactly when both arguments are arrays of the same length and
    every element present in the first is strictly equal to what the
    second holds at the same index: holes of the first array are not
    compared.  For a first array without holes this is strict equality
    at every position; nested arrays compare by identity.  [1,2,3]
    against [1,2,3] passes, [1,2] against [1,2,3] and [1,[2]] against
    [1,[2]] fail. *)
Theorem assertArraysEqual_elementwise :
  (forall (actual expected description : value) (s : t),
      let testId := testId (sectionNumber s) (testNumber s + 1) in
      let s' := fst (assertArraysEqual actual expected description s) in
      snd (assertArraysEqual actual expected description s) = Normal
      /\ (arraysEqual actual expected = true ->
          successes s'
          = successes s
            ++ [Result.mk testId description (VBool true) actual expected
                  VNull]
          /\ failures s' = failures s)
      /\ (arraysEqual actual expected = false ->
          failures s'
          = failures s
            ++ [Result.mk testId description (VBool false) actual expected
                  (VString (js "Arrays do not match"))]
          /\ successes s' = successes s))
  /\ (forall a b : value,
         arraysEqual a b = true
         <-> exists ia ea ib eb,
             a = VArray ia ea /\ b = VArray ib eb
             /\ List.length ea = List.length eb
             /\ forall k x, nth_error ea k = Some (Some x) ->
                            strict_eq x (read eb k) = true)
  /\ (forall (ia ib : nat) (ea eb : list (option value)),
         dense ea ->
         (arraysEqual (VArray ia ea) (VArray ib eb) = true
          <-> List.length ea = List.length eb
              /\ forall k, k < List.length ea ->
                           strict_eq (read ea k) (read eb k) = true))
  /\ arraysEqual
       (VArray 1 [Some (number 1); Some (number 2); Some (number 3)])
       (VArray 2 [Some (number 1); Some (number 2); Some (number 3)]) = true
  /\ arraysEqual
       (VArray 1 [Some (number 1); Some (number 2)])
       (VArray 2 [Some (number 1); Some (number 2); Some (number 3)]) = false
  /\ arraysEqual
       (VArray 1 [Some (number 1); Some (VArray 2 [Some (number 2)])])
       (VArray 3 [Some (number 1); Some (VArray 4 [Some (number 2)])])
     = false.
Proof.
  split; [|split; [exact arraysEqual_true|split; [|repeat split]]].
  - intros actual expected description s tid s'. subst tid s'.
    unfold assertArraysEqual. destruct (arraysEqual actual expected).
    + destruct (@test_assertion_record description actual expected VNull
                  true s) as [Hn Hacc].
      split; [exact Hn|]. split; intros H; [exact Hacc|discriminate H].
    + destruct (@test_assertion_record description actual expected
                  (VString (js "Arrays do not match")) false s)
        as [Hn Hacc].
      split; [exact Hn|]. split; intros H; [discriminate H|exact Hacc].
  - intros ia ib ea eb Hd. rewrite arraysEqual_true. split.
    + intros (ia' & ea' & ib' & eb' & [= <- <-] & [= <- <-] & Hlen & Hall).
      split; [exact Hlen|]. intros k Hk. apply Hall.
      now apply read_dense.
    + intros [Hlen Hall]. exists ia, ea, ib, eb.
      repeat split; try assumption.
      intros k x Hk.
      assert (Hlt : k < List.length ea)
        by (apply nth_error_Some; congruence).
      specialize (Hall k Hlt). unfold read in Hall at 1.
      now rewrite Hk in Hall.
Qed.

(** C5 as stated fails on a sparse array: [new Array(1)] against [[1]]
    passes, although position 0 reads [undefined] in the one and 1 in the
    other, because [every] skips the hole. *)
Lemma assertArraysEqual_skips_holes :
  let hole := VArray 1 [None] in
  let one := VArray 2 [Some (number 1)] in
  let s := create (js "suite") None Terminal 0 in
  let d := VString (js "same arrays") in
  strict_eq (read (elements hole) 0) (read (elements one) 0) = false
  /\ arraysEqual hole one = true
  /\ successes (fst (assertArraysEqual hole one d s))
     = [Result.mk (js "0.1") d (VBool true) hole one VNull]
  /\ failures (fst (assertArraysEqual hole one d s)) = []
  /\ ~ (forall a b : value,
           arraysEqual a b = true
           <-> isArray a = true /\ isArray b = true
               /\ List.length (elements a) = List.length (elements b)
               /\ forall k, k < List.length (elements a) ->
                            strict_eq (read (elements a) k)
                                      (read (elements b) k) = true).
Proof.
  cbv zeta. repeat split; try reflexivity.
  intros H.
  destruct (H (VArray 1 [None]) (VArray 2 [Some (number 1)])) as [H1 _].
  destruct (H1 eq_refl) as (_ & _ & _ & H0).
  specialize (H0 0 (Nat.lt_0_1)). cbv in H0. discriminate H0.
Qed.

(** ** The format of the command line and the choice of the reporter *)

Lemma startsWith_true (s prefix : jsstring) :
  startsWith s prefix = true <-> exists rest, s = prefix ++ rest.
Proof.
  revert s. induction prefix as [|p prefix IH]; intros s.
  - destruct s; cbn; split; eauto.
  - destruct s as [|c s]; cbn.
    + split; [discriminate|]. intros (rest & H). discriminate.
    + rewrite andb_true_iff, N.eqb_eq, IH. split.
      * intros (-> & rest & ->). eauto.
      * intros (rest & [= -> ->]). eauto.
Qed.

Lemma split_hd (sep : codeunit) (s : jsstring) :
  exists pieces, split sep s = before sep s :: pieces.
Proof.
  induction s as [|c s (pieces & IH)]; cbn; [eauto|].
  destruct (N.eqb c sep); [eauto|]. rewrite IH. eauto.
Qed.

Lemma split_after (sep : codeunit) (a b : jsstring) :
  ~ In sep a -> split sep (a ++ sep :: b) = a :: split sep b.
Proof.
  induction a as [|c a IH]; intros Hn; cbn.
  - now rewrite N.eqb_refl.
  - destruct (N.eqb c sep) eqn:E.
    + apply N.eqb_eq in E. subst c. exfalso. apply Hn. now left.
    + rewrite IH; [reflexivity|]. intros Hin. apply Hn. now right.
Qed.

(** The value of an argument [--format=value]: what stands between the
    first and the second equals sign. *)
Lemma format_of_argument (value : jsstring) :
  nth_error (split EQUALS_SIGN (js "--format=" ++ value)) 1
  = Some (before EQUALS_SIGN value).
Proof.
  change (js "--format=" ++ value)
    with (js "--format" ++ EQUALS_SIGN :: value).
  rewrite split_after.
  - destruct (split_hd EQUALS_SIGN value) as (pieces & ->). reflexivity.
  - cbv. intuition discriminate.
Qed.

Lemma find_first {A : Type} (f : A -> bool) (l1 l2 : list A) (x : A) :
  (forall y, In y l1 -> f y = false) -> f x = true ->
  find f (l1 ++ x :: l2) = Some x.
Proof.
  induction l1 as [|y l1 IH]; intros Hn Hx; cbn.
  - now rewrite Hx.
  - rewrite (Hn y) by now left. apply IH; [|exact Hx].
    intros z Hz. apply Hn. now right.
Qed.

Lemma find_none_iff {A : Type} (f : A -> bool) (l : list A) :
  (forall y, In y l -> f y = false) -> find f l = None.
Proof.
  induction l as [|y l IH]; intros Hn; cbn; [reflexivity|].
  rewrite (Hn y) by now left. apply IH. intros z Hz. apply Hn. now right.
Qed.

Lemma parseFormat_none (argv : list jsstring) :
  no_format argv -> parseFormat argv = Some (js "terminal").
Proof.
  intros Hn. unfold parseFormat. now rewrite find_none_iff.
Qed.

Lemma parseFormat_first (earlier later : list jsstring)
    (value : jsstring) :
  no_format earlier ->
  parseFormat (earlier ++ (js "--format=" ++ value) :: later)
  = Some (before EQUALS_SIGN value).
Proof.
  intros Hn. unfold parseFormat.
  rewrite find_first; [|exact Hn|].
  - cbn [truthy]. rewrite format_of_argument.
    now destruct (jsstring_eqb (js "--format=" ++ value) []) eqn:E.
  - apply startsWith_true. eauto.
Qed.

(** [parseFormat] always gives a string: [terminal] when no argument
    starts with [--format=], and otherwise what the first such argument
    holds between its first and its second equals sign (all that
    follows [--format=] when there is no second one). *)
Theorem parseFormat_reads_first_format_argument :
  (forall argv, parseFormat argv <> None)
  /\ (forall argv, no_format argv -> parseFormat argv = Some (js "terminal"))
  /\ (forall earlier later value,
        no_format earlier ->
        parseFormat (earlier ++ (js "--format=" ++ value) :: later)
        = Some (before EQUALS_SIGN value))
  /\ (forall value, ~ In EQUALS_SIGN value -> before EQUALS_SIGN value = value).
Proof.
  split; [|split; [exact parseFormat_none|split; [exact parseFormat_first|]]].
  - intros argv. unfold parseFormat.
    destruct (find _ argv) as [formatArg|] eqn:Hf; [|discriminate].
    apply find_some in Hf. destruct Hf as [_ Hs].
    apply startsWith_true in Hs. destruct Hs as (value & ->).
    rewrite format_of_argument.
    destruct (truthy _); discriminate.
  - intros v. induction v as [|c v IH]; intros Hn; cbn; [reflexivity|].
    destruct (N.eqb c EQUALS_SIGN) eqn:E.
    + apply N.eqb_eq in E. subst c. exfalso. apply Hn. now left.
    + rewrite IH; [reflexivity|]. intros Hin. apply Hn. now right.
Qed.

Lemma createReporter_cases (format : jsstring) :
  createReporter format
  = if jsstring_eqb format (js "markdown") then Markdown
    else if jsstring_eqb format (js "ascii") then PlainReporter
    else Terminal.
Proof.
  unfold createReporter.
  destruct (jsstring_eqb format (js "markdown")); [reflexivity|].
  destruct (jsstring_eqb format (js "terminal")) eqn:E; [|reflexivity].
  apply jsstring_eqb_eq in E. subst format. reflexivity.
Qed.

(** The reporter of a new suite: the [reporter] option when it is
    given; otherwise the class of the [format] option when that is
    given, whatever the command line holds; otherwise the class of the
    first [--format=] argument of the command line, and the terminal
    reporter when there is none.  The class of a format is markdown for
    [markdown], plain for [ascii] and terminal for every other text. *)
Theorem reporter_of_new_suite (name : jsstring) (verbosity : option nat)
    (argv : list jsstring) (now : Z) :
  (forall format r,
     reporter (new name (Options.mk verbosity format (Some r)) argv now)
     = r)
  /\ (forall format,
        reporter (new name (Options.mk verbosity (Some format) None)
                      argv now)
        = createReporter format)
  /\ (no_format argv ->
      reporter (new name (Options.mk verbosity None None) argv now)
      = Terminal)
  /\ (forall earlier later value,
        no_format earlier ->
        argv = earlier ++ (js "--format=" ++ value) :: later ->
        reporter (new name (Options.mk verbosity None None) argv now)
        = createReporter (before EQUALS_SIGN value))
  /\ (forall format,
        (createReporter format = Markdown <-> format = js "markdown")
        /\ (createReporter format = PlainReporter <-> format = js "ascii")).
Proof.
  split; [reflexivity|]. split; [reflexivity|].
  split; [|split].
  - intros Hn. unfold new. cbn [Options.format Options.reporter].
    now rewrite parseFormat_none.
  - intros earlier later value Hn ->. unfold new.
    cbn [Options.format Options.reporter].
    now rewrite parseFormat_first.
  - intros format. rewrite createReporter_cases.
    destruct (jsstring_eqb format (js "markdown")) eqn:Em.
    + apply jsstring_eqb_eq in Em. subst format.
      split; split; intros H; try reflexivity; discriminate.
    + apply jsstring_eqb_neq in Em.
      destruct (jsstring_eqb format (js "ascii")) eqn:Ea.
      * apply jsstring_eqb_eq in Ea. subst format.
        split; split; intros H; try reflexivity; try discriminate.
      * apply jsstring_eqb_neq in Ea.
        split; split; intros H; try discriminate; contradiction.
Qed.

(** ** The frames of the reporters *)

Lemma pad_length (str : jsstring) (length : nat) :
  width (Reporter._pad str length) = Nat.max (width str) length.
Proof.
  unfold Reporter._pad, width.
  rewrite length_app, repeat_string_unit, repeat_length. lia.
Qed.

Lemma row_length (inner : jsstring) :
  width (Reporter.row inner) = width inner + 2.
Proof. unfold Reporter.row, width. cbn. rewrite length_app. cbn. lia. Qed.

Lemma width_app (a b : jsstring) : width (a ++ b) = width a + width b.
Proof. apply length_app. Qed.

Lemma width_frames :
  width Reporter.FRAME_TOP = 81 /\ width Reporter.FRAME_MIDDLE = 81
  /\ width Reporter.FRAME_BOTTOM = 81.
Proof. repeat split. Qed.

Lemma width_cons (c : codeunit) (a : jsstring) :
  width (c :: a) = S (width a).
Proof. reflexivity. Qed.

Lemma width_js (s : string) : width (js s) = String.length s.
Proof.
  unfold width, js. rewrite length_map.
  induction s as [|c s IH]; cbn; auto.
Qed.

Lemma width_repeat (c : codeunit) (n : nat) :
  width (repeat_string [c] n) = n.
Proof. unfold width. now rewrite repeat_string_unit, repeat_length. Qed.

(** The widths of lines built from rows, literals and padded fields. *)
Ltac widths :=
  cbn [map visible visible_from];
  repeat first
    [ rewrite row_length | rewrite width_cons | rewrite width_app
    | rewrite pad_length | rewrite width_js | rewrite width_repeat ];
  destruct width_frames as (-> & -> & ->);
  cbn [width List.length String.length];
  repeat f_equal; unfold width in *; lia.

(** The header of the plain reporter is not aligned: with fields that
    fit, its
    frame lines and its first rows have 81 columns, but the rows of the
    suite name, the document id, the date and the time have 84, 82, 80
    and 80. *)
Theorem plain_header_rows_differ_in_width (m : Reporter.metadata)
    (testSuiteName : jsstring) :
  width (Reporter.classification m) <= 77 -> width testSuiteName <= 70 ->
  width (Reporter.documentId m) <= 60 -> width (Reporter.date m) <= 57 ->
  width (Reporter.time m) <= 65 ->
  map width (Reporter.header m testSuiteName)
  = [0; 81; 81; 81; 81; 84; 82; 80; 80; 81; 0].
Proof.
  intros Hc Hn Hd Ht Hm. unfold Reporter.header. widths.
Qed.

(** *** What the terminal shows of a line *)

Lemma visible_from_app (a b : jsstring) :
  forall hidden,
    visible_from hidden (a ++ b)
    = visible_from hidden a ++ visible_from (hidden_after hidden a) b.
Proof.
  induction a as [|c a IH]; intros hidden; cbn; [reflexivity|].
  destruct hidden; [apply IH|].
  destruct (N.eqb c ESC); [apply IH|]. cbn. f_equal. apply IH.
Qed.

Lemma visible_plain (a : jsstring) :
  no_escape a -> visible a = a /\ hidden_after false a = false.
Proof.
  unfold visible, no_escape. induction a as [|c a IH]; intros Hn; cbn;
    [auto|].
  destruct (N.eqb c ESC) eqn:E.
  - apply N.eqb_eq in E. subst c. exfalso. apply Hn. now left.
  - destruct IH as [-> ->]; [|auto]. intros Hin. apply Hn. now right.
Qed.

(** A colour sequence is not shown. *)
Lemma visible_colour (c rest : jsstring) :
  visible c = [] -> hidden_after false c = false ->
  visible (c ++ rest) = visible rest.
Proof.
  unfold visible. intros Hv Hh. now rewrite visible_from_app, Hv, Hh.
Qed.

(** A text without escape character is shown as it is. *)
Lemma visible_text (a rest : jsstring) :
  no_escape a -> visible (a ++ rest) = a ++ visible rest.
Proof.
  intros Hn. destruct (visible_plain Hn) as [Hv Hh].
  unfold visible in *. now rewrite visible_from_app, Hv, Hh.
Qed.

Lemma visible_cons (c : codeunit) (rest : jsstring) :
  c <> ESC -> visible (c :: rest) = c :: visible rest.
Proof.
  intros Hc. unfold visible. cbn. apply N.eqb_neq in Hc. now rewrite Hc.
Qed.

Lemma no_escape_app (a b : jsstring) :
  no_escape a -> no_escape b -> no_escape (a ++ b).
Proof.
  unfold no_escape. intros Ha Hb Hin. apply in_app_or in Hin. tauto.
Qed.

Lemma no_escape_repeat (c : codeunit) (n : nat) :
  c <> ESC -> no_escape (repeat_string [c] n).
Proof.
  intros Hc. rewrite repeat_string_unit. unfold no_escape. intros Hin.
  apply repeat_spec in Hin. congruence.
Qed.

Lemma no_escape_pad (str : jsstring) (length : nat) :
  no_escape str -> no_escape (Reporter._pad str length).
Proof.
  intros Hs. unfold Reporter._pad. apply no_escape_app; [exact Hs|].
  apply no_escape_repeat. discriminate.
Qed.

Lemma no_escape_digits (a : jsstring) : Forall is_digit a -> no_escape a.
Proof.
  unfold no_escape. intros Hd Hin.
  rewrite Forall_forall in Hd. apply Hd in Hin.
  unfold is_digit, ESC in Hin. lia.
Qed.

Lemma no_escape_nat (n : nat) : no_escape (nat_toString n).
Proof. apply no_escape_digits, string_of_uint_digits. Qed.

Lemma no_escape_frames :
  no_escape Reporter.FRAME_TOP /\ no_escape Reporter.FRAME_MIDDLE
  /\ no_escape Reporter.FRAME_BOTTOM.
Proof.
  unfold Reporter.FRAME_TOP, Reporter.FRAME_MIDDLE, Reporter.FRAME_BOTTOM.
  repeat split; apply (@no_escape_app [_]);
    try (intros [H|[]]; discriminate H);
    apply no_escape_app; try (intros [H|[]]; discriminate H);
    apply no_escape_repeat; discriminate.
Qed.

(** Side conditions: a piece has no escape character. *)
Ltac plain_text :=
  solve
    [ assumption
    | apply no_escape_nat
    | apply no_escape_pad; plain_text
    | apply no_escape_app; plain_text
    | apply no_escape_repeat; discriminate
    | apply no_escape_frames
    | let H := fresh in intro H; cbv in H; intuition discriminate ].

(** What is shown of a line that is built from colour sequences, single
    characters and texts without escape character. *)
Lemma visible_RESET : visible TerminalReporter.RESET = [].
Proof. reflexivity. Qed.

Lemma visible_last (a : jsstring) : no_escape a -> visible a = a.
Proof. intros Hn. now destruct (visible_plain Hn). Qed.

Ltac shown :=
  rewrite <- ?app_assoc;
  repeat first
    [ rewrite visible_cons by discriminate
    | rewrite visible_colour by reflexivity
    | rewrite visible_text by plain_text
    | rewrite visible_RESET
    | rewrite visible_last by plain_text ];
  rewrite ?app_nil_r.

(** The header of the terminal reporter shows a box of 81 columns,
    and so does the header of the markdown reporter inside its fence,
    whenever the classification, the suite name, the document id, the
    date and the time fit their fields: 77, 68, 60, 59 and 67 columns
    on the terminal, 77, 67, 59, 58 and 66 in markdown. *)
Theorem framed_header_is_aligned (m : Reporter.metadata)
    (testSuiteName : jsstring) :
  (fits 77 (Reporter.classification m) -> fits 68 testSuiteName ->
   fits 60 (Reporter.documentId m) -> fits 59 (Reporter.date m) ->
   fits 67 (Reporter.time m) ->
   map (fun line => width (visible line))
       (TerminalReporter.header m testSuiteName)
   = [0; 81; 81; 81; 81; 81; 81; 81; 81; 81; 0])
  /\ (width (Reporter.classification m) <= 77 ->
      width testSuiteName <= 67 ->
      width (Reporter.documentId m) <= 59 ->
      width (Reporter.date m) <= 58 ->
      width (Reporter.time m) <= 66 ->
      map width (MarkdownReporter.header m testSuiteName)
      = [3; 81; 81; 81; 81; 81; 81; 81; 81; 81; 3; 0]).
Proof.
  split.
  - intros [Hc Hc'] [Hn Hn'] [Hd Hd'] [Ht Ht'] [Hm Hm'].
    unfold TerminalReporter.header, TerminalReporter.row. cbn [map].
    shown.
    widths.
  - intros Hc Hn Hd Ht Hm. unfold MarkdownReporter.header. widths.
Qed.

Lemma no_escape_Z (z : Z) : no_escape (Z_toString z).
Proof.
  unfold Z_toString. destruct (z <? 0)%Z.
  - apply (@no_escape_app [MINUS]); [|apply no_escape_digits, Z_digits_digits].
    intros [H|[]]. discriminate H.
  - apply no_escape_digits, Z_digits_digits.
Qed.

(** The summary of the three reporters, for counts, a pass rate and a
    duration that fit the fields of 56 columns: the terminal reporter
    shows a box of 81 columns; the plain and the markdown reporter
    write rows of 81 columns, but for the row that announces failures,
    which has 83. *)
Theorem summary_frame_widths (String_ : value -> jsstring)
    (stats : Stats.t) :
  let rate := Reporter.text String_ (Stats.passRate stats) ++ js "%" in
  let time := Z_toString (Stats.duration stats) ++ js "ms" in
  let alert := if Stats.failed stats =? 0 then 81 else 83 in
  width (nat_toString (Stats.total stats)) <= 56 ->
  width (nat_toString (Stats.passed stats)) <= 56 ->
  width (nat_toString (Stats.failed stats)) <= 51 ->
  fits 56 rate -> width time <= 56 ->
  map (fun line => width (visible line))
      (TerminalReporter.summary String_ stats)
  = [0; 81; 81; 81; 81; 81; 81; 81; 81; 81; 81; 81; 0]
  /\ map width (Reporter.summary String_ stats)
     = [0; 81; 81; 81; 81; 81; 81; 81; 81; 81; alert; 81; 0]
  /\ map width (MarkdownReporter.summary String_ stats)
     = [0; 3; 81; 81; 81; 81; 81; 81; 81; 81; 81; alert; 81; 3; 0].
Proof.
  intros rate time alert Ht Hp Hf [Hr Hr'] Hd. subst alert.
  assert (Hz : no_escape time).
  { apply no_escape_app; [apply no_escape_Z|].
    intros H. cbv in H. intuition discriminate. }
  subst rate time.
  rewrite width_app, width_js in Hr', Hd. cbn [String.length] in Hr', Hd.
  split; [|split].
  - unfold TerminalReporter.summary, TerminalReporter.row.
    destruct (Stats.failed stats =? 0); cbn [map]; shown; widths.
  - unfold Reporter.summary.
    destruct (Stats.failed stats =? 0); widths.
  - unfold MarkdownReporter.summary.
    destruct (Stats.failed stats =? 0); widths.
Qed.

(** ** What is written about a failure *)


(** The registry of failures: nothing is written for an empty list;
    otherwise every reporter writes its heading, an empty line, then for
    each failure, in the order of the list, the line with its id and
    description, followed by the line with its message when the message
    is truthy, and an empty line at the end: 3 lines, one for each
    failure and one for each truthy message. *)
Theorem failureDetails_lines
    (String_ : value -> jsstring)
    (JSON_stringify : value -> option jsstring)
    (JSON_text : value -> jsstring)
    (r : reporter_kind) (m : Reporter.metadata)
    (failures : list Result.t) :
  let lines := report String_ JSON_stringify JSON_text r m
                 (CallFailureDetails failures) in
  let entry f :=
    registry_entry r (Result.id f)
      (interpolated String_ (Result.description f))
    :: (if truthy (Result.message f)
        then [ registry_message r
                 (interpolated String_ (Result.message f)) ]
        else []) in
  lines
  = match failures with
    | [] => []
    | _ :: _ =>
        registry_heading r :: [] :: flat_map entry failures ++ [ [] ]
    end
  /\ List.length lines
     = match failures with
       | [] => 0
       | _ :: _ =>
           3 + List.length failures
           + List.length
               (filter (fun f => truthy (Result.message f)) failures)
       end.
Proof.
  intros lines entry.
  assert (H : forall l : list Result.t,
             List.length (flat_map entry l)
             = List.length l
               + List.length
                   (filter (fun f => truthy (Result.message f)) l)).
  { intros l. induction l as [|f l IH]; [reflexivity|].
    cbn [flat_map filter List.length]. rewrite length_app, IH.
    subst entry. cbn beta.
    destruct (truthy (Result.message f)); cbn [List.length]; lia. }
  assert (Hlines : lines
                   = match failures with
                     | [] => []
                     | _ :: _ =>
                         registry_heading r :: []
                           :: flat_map entry failures ++ [ [] ]
                     end).
  { subst lines entry.
    destruct failures as [|f failures]; [now destruct r|].
    destruct r; reflexivity. }
  split; [exact Hlines|]. rewrite Hlines.
  destruct failures as [|f failures]; [reflexivity|].
  cbn [List.length]. rewrite length_app, H. cbn [List.length]. lia.
Qed.

(** ** The terminal reporter and the plain reporter *)

Lemma split_lines_in (s piece : jsstring) (c : codeunit) :
  In piece (split_lines s) -> In c piece -> In c s.
Proof.
  revert piece. induction s as [|x s IH]; intros piece Hp Hc.
  - destruct Hp as [<-|[]]. destruct Hc.
  - cbn [split_lines] in Hp. destruct (N.eqb x NEWLINE).
    + destruct Hp as [<-|Hp]; [destruct Hc|]. right. eauto.
    + destruct (split_lines s) as [|l ls] eqn:E.
      * destruct Hp as [<-|[]]. destruct Hc as [<-|[]]. now left.
      * destruct Hp as [<-|Hp].
        -- destruct Hc as [<-|Hc]; [now left|].
           right. apply (IH l); [now left|exact Hc].
        -- right. apply (IH piece); [now right|exact Hc].
Qed.

Lemma split_lines_no_escape (s : jsstring) :
  no_escape s -> Forall no_escape (split_lines s).
Proof.
  intros Hs. apply Forall_forall. intros piece Hp Hc.
  apply Hs. eapply split_lines_in; eassumption.
Qed.

Lemma visible_expected_lines (lines : list jsstring) :
  Forall no_escape lines ->
  map visible (map TerminalReporter.expected_line lines)
  = map Reporter.expected_line lines.
Proof.
  induction 1 as [|line lines Hl _ IH]; [reflexivity|].
  cbn [map]. rewrite IH. f_equal.
  unfold TerminalReporter.expected_line, Reporter.expected_line. shown.
  reflexivity.
Qed.

Lemma visible_actual_lines (lines : list jsstring) :
  Forall no_escape lines ->
  map visible (map TerminalReporter.actual_line lines)
  = map Reporter.actual_line lines.
Proof.
  induction 1 as [|line lines Hl _ IH]; [reflexivity|].
  cbn [map]. rewrite IH. f_equal.
  unfold TerminalReporter.actual_line, Reporter.actual_line. shown.
  reflexivity.
Qed.

(** For [section], [subsection], [code], [failureDetails] and [diff]
    the terminal reporter shows what the plain reporter writes: its
    lines are the plain lines with colour sequences added, as long as
    the texts that are printed hold no escape character themselves. *)
Theorem terminal_shows_the_plain_lines
    (String_ : value -> jsstring)
    (JSON_stringify : value -> option jsstring) :
  (forall sectionNumber title,
     no_escape (Reporter.text String_ title) ->
     map visible (TerminalReporter.section String_ sectionNumber title)
     = Reporter.section String_ sectionNumber title)
  /\ (forall sectionNumber testNumber title,
        no_escape (Reporter.text String_ title) ->
        map visible
          (TerminalReporter.subsection String_ sectionNumber testNumber
             title)
        = Reporter.subsection String_ sectionNumber testNumber title)
  /\ (forall language content label,
        no_escape (trim content) ->
        (forall l, label = Some l -> no_escape l) ->
        map visible (TerminalReporter.code language content label)
        = Reporter.code language content label)
  /\ (forall failures,
        Forall (escape_free String_) failures ->
        map visible (TerminalReporter.failureDetails String_ failures)
        = Reporter.failureDetails String_ failures)
  /\ (forall expected actual label,
        (forall text,
            Reporter._stringify String_ JSON_stringify expected = Some text ->
            no_escape text) ->
        (forall text,
            Reporter._stringify String_ JSON_stringify actual = Some text ->
            no_escape text) ->
        (forall l, label = LabelString l -> no_escape l) ->
        map visible
          (fst (TerminalReporter.diff String_ JSON_stringify expected actual
                  label))
        = fst (Reporter.diff String_ JSON_stringify expected actual label)).
Proof.
  split; [|split; [|split; [|split]]].
  - intros n title Ht.
    unfold TerminalReporter.section, Reporter.section. cbn [map].
    shown. reflexivity.
  - intros n k title Ht.
    unfold TerminalReporter.subsection, Reporter.subsection. cbn [map].
    shown. reflexivity.
  - intros language content label Hc Hl.
    unfold TerminalReporter.code, Reporter.code, Reporter.if_label.
    destruct label as [l|]; [|cbn [app map]; shown; reflexivity].
    specialize (Hl l eq_refl).
    destruct (truthy (VString l)); cbn [app map]; shown; reflexivity.
  - intros failures Hf.
    unfold TerminalReporter.failureDetails, Reporter.failureDetails.
    destruct failures as [|f failures]; [reflexivity|].
    rewrite !map_app. cbn [map]. shown. do 2 f_equal.
    induction Hf as [|g l (Hi & Hd & Hm) _ IH]; [reflexivity|].
    cbn [flat_map]. rewrite map_app, IH. f_equal.
    destruct (truthy (Result.message g)); cbn [map]; shown; reflexivity.
  - intros expected actual label He Ha Hl.
    unfold TerminalReporter.diff, Reporter.diff.
    destruct label as [| |l]; cbn [Reporter.bind_label fst];
      [|reflexivity|specialize (Hl l eq_refl)].
    + assert (Hd : no_escape Reporter.DEFAULT_LABEL)
        by (intros H; cbv in H; intuition discriminate).
      destruct (Reporter._stringify String_ JSON_stringify expected)
        as [e|];
        destruct (Reporter._stringify String_ JSON_stringify actual)
          as [a|];
        try specialize (He _ eq_refl); try specialize (Ha _ eq_refl);
        cbn [Reporter.same_text]; try destruct (jsstring_eqb _ _);
        cbn [fst];
        unfold TerminalReporter.diff_head, TerminalReporter.diff_foot,
               TerminalReporter.NO_VARIANCE;
        rewrite ?map_app; cbn [map];
        rewrite ?visible_expected_lines, ?visible_actual_lines
          by (now apply split_lines_no_escape);
        shown; reflexivity.
    + destruct (Reporter._stringify String_ JSON_stringify expected)
        as [e|];
        destruct (Reporter._stringify String_ JSON_stringify actual)
          as [a|];
        try specialize (He _ eq_refl); try specialize (Ha _ eq_refl);
        cbn [Reporter.same_text]; try destruct (jsstring_eqb _ _);
        cbn [fst];
        unfold TerminalReporter.diff_head, TerminalReporter.diff_foot,
               TerminalReporter.NO_VARIANCE;
        rewrite ?map_app; cbn [map];
        rewrite ?visible_expected_lines, ?visible_actual_lines
          by (now apply split_lines_no_escape);
        shown; reflexivity.
Qed.

(** ** Code blocks *)

(** What [code] writes: the trimmed content and an empty line; with a
    label that is not the empty string, the plain and the terminal
    reporter put the content between the top line of a frame, which
    holds the label, and its bottom line, and the markdown reporter
    writes the label in bold and an empty line first.  The markdown
    reporter puts the content inside a fence that names the language;
    the other two never print the language.  A label that is the empty
    string is treated like no label, and a label that is not empty adds
    two lines. *)
Theorem code_label_and_language
    (String_ : value -> jsstring)
    (JSON_stringify : value -> option jsstring)
    (JSON_text : value -> jsstring)
    (r : reporter_kind) (m : Reporter.metadata)
    (language content : jsstring) :
  let written label :=
    report String_ JSON_stringify JSON_text r m
      (CallCode language content label) in
  written (Some []) = written None
  /\ (forall label,
        label <> [] ->
        List.length (written (Some label)) = List.length (written None) + 2)
  /\ (forall other label,
        r <> Markdown ->
        report String_ JSON_stringify JSON_text r m
          (CallCode other content label)
        = written label)
  /\ (r = Markdown ->
      forall label, In (js "```" ++ language) (written label))
  /\ (forall label,
        written label = code_block r language content (caption label)).
Proof.
  intros written. subst written.
  split; [now destruct r|]. split; [|split; [|split]].
  - intros label Hl.
    assert (Ht : truthy (VString label) = true).
    { cbn. apply negb_true_iff. now apply jsstring_eqb_neq. }
    destruct r; cbn [report];
      unfold Reporter.code, TerminalReporter.code, MarkdownReporter.code,
             Reporter.if_label;
      rewrite Ht; reflexivity.
  - intros other label Hr. destruct r; [reflexivity|reflexivity|].
    now contradiction Hr.
  - intros -> label. cbn [report]. unfold MarkdownReporter.code.
    apply in_or_app. right. now left.
  - intros label.
    assert (Ht : forall c rest, truthy (VString (c :: rest)) = true).
    { intros c rest. reflexivity. }
    destruct r; cbn [report];
      unfold Reporter.code, TerminalReporter.code, MarkdownReporter.code,
             Reporter.if_label;
      destruct label as [[|c rest]|]; cbn [caption];
      rewrite ?Ht; cbn beta iota; rewrite ?repeat_string_unit;
      reflexivity.
Qed.

(** ** The legacy export [arraysEqual] *)

Section Lengths.

Local Open Scope Z_scope.

Lemma float_of_nat_finite (n : nat) :
  Z.of_nat n < 2 ^ 53 -> float_of_nat n <> S754_nan.
Proof.
  intros Hn. unfold float_of_nat. destruct (Z.of_nat n) as [|p|p] eqn:E.
  - discriminate.
  - destruct (@float_of_pos_exact p Hn) as (m & e & -> & _). discriminate.
  - lia.
Qed.

(** Two lengths are strictly equal as numbers exactly when they are
    equal. *)
Lemma float_of_nat_eqb (n m : nat) :
  Z.of_nat n < 2 ^ 53 -> Z.of_nat m < 2 ^ 53 ->
  feqb (float_of_nat n) (float_of_nat m) = Nat.eqb n m.
Proof.
  intros Hn Hm. destruct (Nat.eqb_spec n m) as [->|Hne].
  - now apply feqb_refl, float_of_nat_finite.
  - unfold float_of_nat.
    destruct (Z.of_nat n) as [|p|p] eqn:En;
      destruct (Z.of_nat m) as [|q|q] eqn:Em; try lia.
    + destruct (@float_of_pos_exact q Hm) as (m2 & e2 & -> & _).
      reflexivity.
    + destruct (@float_of_pos_exact p Hn) as (m1 & e1 & -> & _).
      reflexivity.
    + destruct (@float_of_pos_exact p Hn) as (m1 & e1 & -> & He1 & Hv1 & _).
      destruct (@float_of_pos_exact q Hm) as (m2 & e2 & -> & He2 & Hv2 & _).
      unfold feqb, SFeqb, SFcompare.
      destruct (e1 ?= e2) eqn:Ce; try reflexivity.
      apply Z.compare_eq in Ce. subst e2.
      destruct (PosDef.Pos.compare_cont Eq m1 m2) eqn:Cm; try reflexivity.
      apply Pos.compare_eq in Cm. subst m2. exfalso.
      assert (Hpos : 0 < 2 ^ (- e1)) by (apply Z.pow_pos_nonneg; lia).
      assert (Z.pos p = Z.pos q) by nia. lia.
Qed.

End Lengths.

Lemma every_characters (b : jsstring) :
  forall earlier rest,
    b = earlier ++ rest ->
    every_from (List.length earlier)
      (map (fun c => Some (VString [c])) rest)
      (fun element index =>
         strict_eq element (Legacy.at_index (VString b) index))
    = true.
Proof.
  intros earlier rest. revert earlier.
  induction rest as [|c rest IH]; intros earlier Hb; [reflexivity|].
  cbn [map every_from]. apply andb_true_iff. split.
  - cbn [Legacy.at_index]. subst b.
    rewrite nth_error_app2, Nat.sub_diag by lia. cbn.
    apply jsstring_eqb_refl.
  - specialize (IH (earlier ++ [c])).
    rewrite length_app, Nat.add_1_r in IH. apply IH.
    now rewrite <- app_assoc.
Qed.

(** The exported [arraysEqual] has no array guard.  On two arrays it
    answers as the comparison of [assertArraysEqual] does; with
    [undefined] or [null] on either side it raises a TypeError where
    that comparison answers [false]; on two strings of one length it
    raises as well, since a string has no [every]; and an array of the
    characters of a string equals the string. *)
Theorem legacy_arraysEqual_has_no_guard (arity : nat -> nat) :
  (forall i j a b,
     (Z.of_nat (List.length a) < 2 ^ 53)%Z ->
     (Z.of_nat (List.length b) < 2 ^ 53)%Z ->
     Legacy.arraysEqual arity (VArray i a) (VArray j b)
     = Legacy.Returned (arraysEqual (VArray i a) (VArray j b)))
  /\ (forall a b,
        a = VUndefined \/ a = VNull \/ b = VUndefined \/ b = VNull ->
        Legacy.arraysEqual arity a b = Legacy.Raised
        /\ arraysEqual a b = false)
  /\ (forall a b,
        (Z.of_nat (List.length a) < 2 ^ 53)%Z ->
        List.length a = List.length b ->
        Legacy.arraysEqual arity (VString a) (VString b) = Legacy.Raised)
  /\ (forall i b,
        (Z.of_nat (List.length b) < 2 ^ 53)%Z ->
        Legacy.arraysEqual arity
          (VArray i (map (fun c => Some (VString [c])) b)) (VString b)
        = Legacy.Returned true
        /\ arraysEqual (VArray i (map (fun c => Some (VString [c])) b))
             (VString b)
           = false).
Proof.
  split; [|split; [|split]].
  - intros i j a b Ha Hb. unfold Legacy.arraysEqual, arraysEqual.
    cbn [Legacy.length_of strict_eq isArray elements andb].
    rewrite float_of_nat_eqb by assumption.
    destruct (List.length a =? List.length b); reflexivity.
  - intros a b H. split.
    + unfold Legacy.arraysEqual.
      destruct H as [-> | [-> | [-> | ->]]]; try reflexivity;
        destruct (Legacy.length_of arity a); reflexivity.
    + unfold arraysEqual.
      destruct H as [-> | [-> | [-> | ->]]]; try reflexivity;
        destruct (isArray a); reflexivity.
  - intros a b Ha Hlen. unfold Legacy.arraysEqual.
    cbn [Legacy.length_of strict_eq]. rewrite <- Hlen.
    now rewrite feqb_refl by now apply float_of_nat_finite.
  - intros i b Hb. split; [|reflexivity].
    unfold Legacy.arraysEqual. cbn [Legacy.length_of strict_eq].
    rewrite length_map.
    rewrite feqb_refl by now apply float_of_nat_finite.
    f_equal. exact (@every_characters b [] b eq_refl).
Qed.

(** ** The metadata of a reporter that a suite creates *)

Lemma lookup_assign (k k' : jsstring) (v : value)
    (props : list (jsstring * value)) :
  lookup k (assign k' v props)
  = if jsstring_eqb k k' then v else lookup k props.
Proof.
  induction props as [|[k2 v2] props IH]; cbn [assign lookup].
  - now destruct (jsstring_eqb k k').
  - destruct (jsstring_eqb k' k2) eqn:E2; cbn [lookup].
    + apply jsstring_eqb_eq in E2. subst k2.
      now destruct (jsstring_eqb k k').
    + rewrite IH. destruct (jsstring_eqb k k2) eqn:E; [|reflexivity].
      apply jsstring_eqb_eq in E. subst k2.
      destruct (jsstring_eqb k k') eqn:E'; [|reflexivity].
      apply jsstring_eqb_eq in E'. subst k'.
      now rewrite jsstring_eqb_refl in E2.
Qed.

(** A key of [{ ...base, ...extra }] holds what [extra] holds when
    [extra] has the key, and what [base] holds otherwise. *)
Lemma lookup_spread (k : jsstring) (extra : list (jsstring * value)) :
  NoDup (map fst extra) ->
  forall base,
    lookup k (spread base extra)
    = if has_key k extra then lookup k extra else lookup k base.
Proof.
  unfold spread.
  induction extra as [|[k' v] extra IH]; intros Hn base; [reflexivity|].
  cbn [fold_left fst snd has_key existsb lookup map] in *.
  inversion Hn as [|? ? Hk Hn']; subst.
  rewrite (IH Hn'), lookup_assign.
  destruct (jsstring_eqb k k') eqn:E; cbn [orb]; [|reflexivity].
  apply jsstring_eqb_eq in E. subst k'.
  fold (has_key k extra).
  destruct (has_key k extra) eqn:Hh; [|reflexivity].
  exfalso. apply Hk. unfold has_key in Hh.
  apply existsb_exists in Hh. destruct Hh as ([k2 v2] & Hin & Hk2).
  cbn in Hk2. apply jsstring_eqb_eq in Hk2. subst k2.
  apply in_map_iff. exists (k, v2). auto.
Qed.

(** What the metadata of the reporter of a suite holds: every key of
    [options.metadata] keeps the value given there, [null] and
    [undefined] included, so that the defaults of the reporter never
    apply to [classification] and [documentId]; without such a key,
    [classification] and [documentId] are the options of these names or
    the defaults of the suite, [date] is the date of the suite, and
    [time] is the time of the reporter. *)
Theorem metadata_of_the_reporter
    (today stamp today' clock stamp' : jsstring)
    (classification documentId : value)
    (extra : list (jsstring * value)) :
  NoDup (map fst extra) ->
  let held := Reporter.constructor today' clock stamp'
                (metadata today stamp classification documentId
                   (Some extra)) in
  (forall k, has_key k extra = true -> lookup k held = lookup k extra)
  /\ (has_key (js "classification") extra = false ->
      lookup (js "classification") held
      = nullish_or classification (VString (js "UNCLASSIFIED")))
  /\ (has_key (js "documentId") extra = false ->
      lookup (js "documentId") held
      = nullish_or documentId (VString stamp))
  /\ (has_key (js "date") extra = false ->
      lookup (js "date") held = VString today)
  /\ (has_key (js "time") extra = false ->
      lookup (js "time") held = VString clock).
Proof.
  intros Hn held. subst held.
  unfold Reporter.constructor, metadata.
  set (given := spread _ extra).
  assert (Hg : forall k,
             lookup k given
             = if has_key k extra then lookup k extra
               else lookup k
                      [ (js "date", VString today);
                        (js "classification",
                         nullish_or classification
                           (VString (js "UNCLASSIFIED")));
                        (js "documentId",
                         nullish_or documentId (VString stamp)) ])
    by (intros k; apply lookup_spread, Hn).
  assert (Hkeys : NoDup (map fst given)).
  { subst given. unfold spread. clear Hg Hn.
    assert (Hb : NoDup (map fst
                          [ (js "date", VString today);
                            (js "classification",
                             nullish_or classification
                               (VString (js "UNCLASSIFIED")));
                            (js "documentId",
                             nullish_or documentId (VString stamp)) ])).
    { cbn [map fst]. repeat constructor; cbv; intuition discriminate. }
    revert Hb. generalize [ (js "date", VString today);
                            (js "classification",
                             nullish_or classification
                               (VString (js "UNCLASSIFIED")));
                            (js "documentId",
                             nullish_or documentId (VString stamp)) ].
    induction extra as [|[k v] extra IH]; intros base Hb; [exact Hb|].
    cbn [fold_left fst snd]. apply IH. clear IH.
    induction base as [|[k2 v2] base IHb]; cbn [assign map fst].
    - repeat constructor. intros [].
    - destruct (jsstring_eqb k k2) eqn:E.
      + apply jsstring_eqb_eq in E. subst k2. exact Hb.
      + cbn [map fst] in *. inversion Hb as [|? ? Hk Hb']; subst.
        constructor; [|now apply IHb].
        intros Hin. apply Hk. clear - Hin E.
        induction base as [|[k3 v3] base IH]; cbn [assign map fst] in *.
        * destruct Hin as [<-|[]]. now rewrite jsstring_eqb_refl in E.
        * destruct (jsstring_eqb k k3) eqn:E3.
          -- apply jsstring_eqb_eq in E3. subst k3. exact Hin.
          -- cbn [map fst] in Hin. destruct Hin as [<-|Hin]; [now left|].
             right. now apply IH. }
  assert (Hh : forall k, has_key k given
                         = has_key k extra
                           || has_key k
                                [ (js "date", VString today);
                                  (js "classification", VNull);
                                  (js "documentId", VNull) ]).
  { intros k. subst given. unfold spread. clear.
    assert (Hb : forall base : list (jsstring * value),
               has_key k (fold_left
                            (fun o kv => assign (fst kv) (snd kv) o)
                            extra base)
               = has_key k extra || has_key k base).
    { induction extra as [|[k' v] extra IH]; intros base; [reflexivity|].
      cbn [fold_left fst snd]. rewrite IH. cbn [has_key existsb fst].
      fold (has_key k extra).
      assert (Ha : has_key k (assign k' v base)
                   = jsstring_eqb k k' || has_key k base).
      { induction base as [|[k2 v2] base IHb];
          cbn [assign has_key existsb fst]; [now rewrite orb_false_r|].
        fold (has_key k base) in *.
        destruct (jsstring_eqb k' k2) eqn:E2; cbn [has_key existsb fst].
        - apply jsstring_eqb_eq in E2. subst k2.
          fold (has_key k base). now destruct (jsstring_eqb k k').
        - fold (has_key k (assign k' v base)). rewrite IHb.
          destruct (jsstring_eqb k k2), (jsstring_eqb k k');
            reflexivity. }
      rewrite Ha.
      destruct (has_key k extra), (jsstring_eqb k k'); reflexivity. }
    rewrite Hb. f_equal. }
  assert (Hl : forall k,
             lookup k (spread
                         [ (js "classification",
                            nullish_or (lookup (js "classification") given)
                                       (VString (js "UNCLASSIFIED")));
                           (js "documentId",
                            nullish_or (lookup (js "documentId") given)
                                       (VString stamp'));
                           (js "date", VString today');
                           (js "time", VString clock) ] given)
             = if has_key k given then lookup k given
               else lookup k
                      [ (js "classification",
                         nullish_or (lookup (js "classification") given)
                                    (VString (js "UNCLASSIFIED")));
                        (js "documentId",
                         nullish_or (lookup (js "documentId") given)
                                    (VString stamp'));
                        (js "date", VString today');
                        (js "time", VString clock) ])
    by (intros k; apply lookup_spread, Hkeys).
  split; [|split; [|split; [|split]]].
  - intros k Hk. now rewrite Hl, Hh, Hg, Hk.
  - intros Hk. now rewrite Hl, Hh, Hg, Hk.
  - intros Hk. now rewrite Hl, Hh, Hg, Hk.
  - intros Hk. now rewrite Hl, Hh, Hg, Hk.
  - intros Hk. now rewrite Hl, Hh, Hk.
Qed.

(** ** Closed instances *)

(** C6 as stated fails on a suite without tests: [passRate] is the
    number 0 there, not a text with two decimals. *)
Lemma pass_rate_of_empty_suite_is_number_zero :
  let s := create (js "suite") (Some NORMAL) Terminal 0 in
  calls (fst (TestSuite.summary unreached 5 s))
  = [CallSummary (Stats.mk 0 0 0 (VNumber fzero) 5)]
  /\ (forall text : jsstring,
         passRate unreached 0 0 <> VString text).
Proof.
  cbv zeta. split; [reflexivity|]. intros text H. cbv in H. discriminate H.
Qed.

Lemma pad_witness :
  5 <= List.length (js "abcdefghij")
  /\ Reporter._pad (js "abcdefghij") 5 = js "abcdefghij".
Proof.
  assert (H : 5 <= List.length (js "abcdefghij")) by (cbn; lia).
  split; [exact H|].
  exact (proj2 (proj2 (proj2
           (proj1 pad_right_pads_never_truncates (js "abcdefghij") 5))) H).
Defined.

Lemma section_numbering_witness :
  let s := create (js "suite") (Some NORMAL) Markdown 0 in
  let ops := [ DoTest (VString (js "a")) (Throws VNull);
               DoSubsection (VString (js "next"));
               DoTest (VString (js "b")) (Returns (VBool false)) ] in
  let made := test_calls unreached unreached no_text ops
                (section (VString (js "A")) s) in
  NORMAL <= verbosity s
  /\ section_free ops = true
  /\ map snd made = [TypeError; Normal]
  /\ forall created,
       nth_error made 1 = Some (created, Normal) ->
       exists r, created = [r] /\ Result.id r = js "1.2".
Proof.
  cbv zeta.
  assert (Hv : NORMAL
               <= verbosity (create (js "suite") (Some NORMAL) Markdown 0))
    by (cbn; lia).
  split; [exact Hv|]. split; [reflexivity|]. split; [reflexivity|].
  intros created Hc.
  exact (proj2 (proj2 (proj2 (section_numbering_gated_by_verbosity
                                unreached unreached no_text)))
           [ DoTest (VString (js "a")) (Throws VNull);
             DoSubsection (VString (js "next"));
             DoTest (VString (js "b")) (Returns (VBool false)) ]
           (VString (js "A"))
           (create (js "suite") (Some NORMAL) Markdown 0)
           Hv eq_refl 1 created Hc).
Defined.

Lemma summary_witness :
  let s := fst (test (VString (js "a")) (Returns (VBool false))
                  (create (js "suite") (Some QUIET) Terminal 0)) in
  verbosity s < NORMAL
  /\ calls (fst (TestSuite.summary unreached 7 s)) = calls s
  /\ snd (TestSuite.summary unreached 7 s) = false.
Proof.
  cbv zeta.
  set (s := fst (test (VString (js "a")) (Returns (VBool false))
                   (create (js "suite") (Some QUIET) Terminal 0))).
  assert (Hv : verbosity s < NORMAL) by (subst s; cbv; lia).
  split; [exact Hv|].
  split.
  - exact (proj1 (proj2 (proj2
             (summary_true_iff_no_failure unreached unreached no_text 7 s)) Hv)).
  - destruct (snd (TestSuite.summary unreached 7 s)) eqn:Hb;
      [|reflexivity].
    apply (proj1 (summary_true_iff_no_failure unreached unreached no_text 7 s)) in Hb.
    discriminate Hb.
Defined.

Lemma assertEqual_witness :
  let s := create (js "suite") None Terminal 0 in
  let d := VString (js "strings") in
  strict_eq (VString (js "a")) (VString (js "b")) = false
  /\ failures (fst (assertEqual (VString (js "a")) (VString (js "b")) d s))
     = [Result.mk (js "0.1") d (VBool false) (VString (js "a"))
          (VString (js "b")) (VString (js "Values do not match"))].
Proof.
  cbv zeta. split; [reflexivity|].
  exact (proj1 (proj1 (proj2 (proj2
           (assertEqual_by_strict_equality (VString (js "a"))
              (VString (js "b")) (VString (js "strings"))
              (create (js "suite") None Terminal 0)))) eq_refl)).
Defined.

Lemma assertArraysEqual_witness :
  let a := VArray 1 [Some (number 1); Some (number 2)] in
  let b := VArray 2 [Some (number 1); Some (number 2)] in
  dense [Some (number 1); Some (number 2)]
  /\ (forall k, k < 2 -> strict_eq (read (elements a) k)
                                   (read (elements b) k) = true)
  /\ arraysEqual a b = true.
Proof.
  cbv zeta.
  assert (Hd : dense [Some (number 1); Some (number 2)]).
  { intros [|[|k]] Hk; cbn in *; try discriminate; lia. }
  assert (Hall : forall k, k < 2 ->
            strict_eq (read [Some (number 1); Some (number 2)] k)
                      (read [Some (number 1); Some (number 2)] k) = true).
  { intros [|[|k]] Hk; try reflexivity; lia. }
  split; [exact Hd|]. split; [exact Hall|].
  exact (proj2 (proj1 (proj2 (proj2 assertArraysEqual_elementwise))
                  1 2 _ _ Hd)
           (conj eq_refl Hall)).
Defined.

Lemma summary_stats_witness :
  let s := fst (test (VString (js "t1")) (Returns (VBool true))
                  (create (js "suite") (Some NORMAL) Terminal 0)) in
  NORMAL <= verbosity s
  /\ exists stats,
       calls (fst (TestSuite.summary unreached 9 s))
       = calls s ++ [CallSummary stats]
       /\ Stats.total stats = 1
       /\ Stats.passRate stats = VString (js "100.00").
Proof.
  cbv zeta.
  set (s := fst (test (VString (js "t1")) (Returns (VBool true))
                   (create (js "suite") (Some NORMAL) Terminal 0))).
  assert (Hv : NORMAL <= verbosity s) by (subst s; cbv; lia).
  split; [exact Hv|].
  destruct (proj1 (summary_stats_snapshot unreached) 9%Z s Hv)
    as (stats & Hcalls & Hp & Hf & Ht & _ & _ & Hrate & _).
  exists stats. split; [exact Hcalls|].
  rewrite Hp, Hf in Ht. split; [exact Ht|].
  apply Hrate. rewrite Ht. cbn. lia.
Defined.

Lemma diff_witness :
  let expected := VString (js "a") in
  let actual := VString (js "b") in
  reporter_diff unreached no_text PlainReporter expected actual
    LabelOmitted
  = ([ [];
       BOX_DOWN_RIGHT :: BOX_HORIZONTAL :: js "[ DIFFERENTIAL ANALYSIS ]"
         ++ repeat BOX_HORIZONTAL 53;
       [];
       js "  EXPECTED STATE:";
       js "  - a";
       [];
       js "  ACTUAL STATE:";
       js "  + b";
       [];
       BOX_UP_RIGHT :: repeat BOX_HORIZONTAL 79;
       [] ], Normal)
  /\ reporter_diff unreached no_text PlainReporter expected expected
       LabelNull
     = ([ [] ], TypeError).
Proof.
  cbv zeta.
  destruct (diff_marker_both_texts_or_raise unreached no_text PlainReporter
              (VString (js "a")) (VString (js "b")) LabelOmitted)
    as (Hprinted & _ & _).
  destruct (Hprinted (js "DIFFERENTIAL ANALYSIS") eq_refl) as (Htexts & _).
  destruct (Htexts (js "a") (js "b") eq_refl eq_refl)
    as (Hreturns & _ & Hdiffer).
  assert (Hne : js "a" <> js "b") by discriminate.
  destruct (Hdiffer Hne) as (Hout & _).
  split.
  - apply injective_projections; [exact Hout|exact Hreturns].
  - exact (proj2 (proj1 (proj2
             (diff_marker_both_texts_or_raise unreached no_text
                PlainReporter (VString (js "a")) (VString (js "a"))
                LabelNull)) eq_refl)).
Defined.

Lemma test_recovers_thrown_value_witness :
  let boom := VObject 7 [ (js "message", VString (js "boom")) ] in
  let s := create (js "suite") None Terminal 0 in
  let d := VString (js "throws") in
  boom <> VNull /\ boom <> VUndefined
  /\ snd (test d (Throws boom) s) = Normal
  /\ failures (fst (test d (Throws boom) s))
     = [Result.mk (js "0.1") d (VBool false) VNull VNull
          (VString (js "boom"))].
Proof.
  cbv zeta.
  assert (H1 : VObject 7 [ (js "message", VString (js "boom")) ] <> VNull)
    by discriminate.
  assert (H2 : VObject 7 [ (js "message", VString (js "boom")) ]
               <> VUndefined) by discriminate.
  split; [exact H1|]. split; [exact H2|].
  destruct (@test_recovers_thrown_value (VString (js "throws")) _
              (create (js "suite") None Terminal 0) H1 H2)
    as (Hn & Hf & _).
  split; [exact Hn|exact Hf].
Defined.

Lemma run_counts_invocations_witness :
  let s := create (js "suite") (Some QUIET) Terminal 0 in
  let ops := [ DoTest (VString (js "a")) (Returns (VBool true));
               DoSection (VString (js "B"));
               DoAssertEqual (number 1) (number 2) (VString (js "b")) ] in
  snd (run unreached unreached no_text ops s) = Normal
  /\ List.length
       (successes (fst (run unreached unreached no_text ops s)))
     + List.length
         (failures (fst (run unreached unreached no_text ops s)))
     = 2.
Proof.
  cbv zeta. split; [reflexivity|].
  exact (proj1 (@run_counts_invocations unreached unreached no_text
                  [ DoTest (VString (js "a")) (Returns (VBool true));
                    DoSection (VString (js "B"));
                    DoAssertEqual (number 1) (number 2) (VString (js "b")) ]
                  (create (js "suite") (Some QUIET) Terminal 0) eq_refl)).
Defined.

Lemma diff_without_label_witness :
  let s := create (js "suite") None Terminal 0 in
  let s' := create (js "suite") None Markdown 0 in
  VERBOSE <= verbosity s
  /\ snd (TestSuite.diff unreached no_text (number 1) (number 1)
            LabelOmitted s) = TypeError
  /\ snd (TestSuite.diff unreached no_text (VString (js "a"))
            (VString (js "b")) LabelOmitted s') = Normal.
Proof.
  cbv zeta.
  assert (Hv : VERBOSE <= verbosity (create (js "suite") None Terminal 0))
    by (cbv; lia).
  assert (Hv' : VERBOSE <= verbosity (create (js "suite") None Markdown 0))
    by (cbv; lia).
  split; [exact Hv|]. split.
  - exact (proj1 (@diff_without_label_raises unreached no_text
                    (number 1) (number 1) _ Hv) (or_intror eq_refl)).
  - exact (proj1 (proj1 (proj2 (@diff_without_label_raises unreached no_text
                                  (VString (js "a")) (VString (js "b")) _
                                  Hv')) eq_refl)).
Defined.

Lemma subsection_announces_next_test_witness :
  let s := create (js "suite") (Some NORMAL) Terminal 0 in
  let s1 := subsection (VString (js "first")) s in
  NORMAL <= verbosity s
  /\ new_calls s s1 = [CallSubsection 0 1 (VString (js "first"))]
  /\ exists r,
       appended s1 (fst (test (VString (js "t")) (Returns (VBool true)) s1))
       = [r]
       /\ Result.id r = testId 0 1.
Proof.
  cbv zeta. set (s := create (js "suite") (Some NORMAL) Terminal 0).
  assert (Hv : NORMAL <= verbosity s) by (subst s; cbv; lia).
  split; [exact Hv|].
  destruct (@subsection_announces_next_test (VString (js "first"))
              (VString (js "t")) (Returns (VBool true)) s Hv)
    as (Hc & _ & Hid & Hex).
  split; [exact Hc|].
  destruct (Hex eq_refl) as (r & Hr). exists r. split; [exact Hr|].
  apply Hid. rewrite Hr. now left.
Defined.

Lemma summary_counts_the_run_witness :
  let s := create (js "suite") (Some NORMAL) Terminal 0 in
  let ops := [ DoTest (VString (js "t1")) (Returns (VBool true));
               DoTest (VString (js "t2")) (Returns (VBool false)) ] in
  successes s = [] /\ failures s = []
  /\ snd (run unreached unreached no_text ops s) = Normal
  /\ NORMAL <= verbosity s
  /\ exists stats,
       Stats.total stats = 2 /\ Stats.passed stats = 1
       /\ Stats.failed stats = 1 /\ Stats.duration stats = 5%Z.
Proof.
  cbv zeta. set (s := create (js "suite") (Some NORMAL) Terminal 0).
  set (ops := [ DoTest (VString (js "t1")) (Returns (VBool true));
                DoTest (VString (js "t2")) (Returns (VBool false)) ]).
  assert (Hv : NORMAL <= verbosity s) by (subst s; cbv; lia).
  assert (Hn : snd (run unreached unreached no_text ops s) = Normal)
    by reflexivity.
  split; [reflexivity|]. split; [reflexivity|]. split; [exact Hn|].
  split; [exact Hv|].
  destruct (@summary_counts_the_run unreached unreached no_text ops s
              5%Z eq_refl eq_refl Hn Hv)
    as (stats & _ & Ht & Hp & Hf & Hd & _).
  exists stats. repeat split; assumption.
Defined.

Lemma plain_header_rows_differ_in_width_witness :
  let m := Reporter.Build_metadata (js "UNCLASSIFIED") (js "PTF-1984-001")
             (js "1984-01-01") (js "12:00:00") in
  map width (Reporter.header m (js "Compliance"))
  = [0; 81; 81; 81; 81; 84; 82; 80; 80; 81; 0].
Proof.
  cbv zeta.
  apply plain_header_rows_differ_in_width; vm_compute; lia.
Defined.

Lemma framed_header_is_aligned_witness :
  let m := Reporter.Build_metadata (js "UNCLASSIFIED") (js "PTF-1984-001")
             (js "1984-01-01") (js "12:00:00") in
  map (fun line => width (visible line))
      (TerminalReporter.header m (js "Compliance"))
  = [0; 81; 81; 81; 81; 81; 81; 81; 81; 81; 0]
  /\ map width (MarkdownReporter.header m (js "Compliance"))
     = [3; 81; 81; 81; 81; 81; 81; 81; 81; 81; 3; 0].
Proof.
  cbv zeta.
  assert (Hf : forall n text, forallb (fun c => negb (N.eqb c ESC)) text = true
                              -> width text <= n -> fits n text).
  { intros n text He Hw. split; [|exact Hw]. intros Hin.
    rewrite forallb_forall in He. apply He in Hin.
    now rewrite N.eqb_refl in Hin. }
  split.
  - apply (proj1 (framed_header_is_aligned _ _));
      apply Hf; vm_compute; try reflexivity; lia.
  - apply (proj2 (framed_header_is_aligned _ _)); vm_compute; lia.
Defined.

Lemma summary_frame_widths_witness :
  let stats := Stats.mk 2 1 1 (VString (js "50.00")) 7 in
  map (fun line => width (visible line))
      (TerminalReporter.summary unreached stats)
  = [0; 81; 81; 81; 81; 81; 81; 81; 81; 81; 81; 81; 0]
  /\ map width (Reporter.summary unreached stats)
     = [0; 81; 81; 81; 81; 81; 81; 81; 81; 81; 83; 81; 0].
Proof.
  cbv zeta.
  assert (Hr : fits 56 (js "50.00" ++ js "%")).
  { split; [|vm_compute; lia]. intros Hin. vm_compute in Hin.
    intuition discriminate. }
  assert (H2 : width (nat_toString 2) <= 56) by (vm_compute; lia).
  assert (H1 : width (nat_toString 1) <= 56) by (vm_compute; lia).
  assert (H1' : width (nat_toString 1) <= 51) by (vm_compute; lia).
  assert (Hd : width (Z_toString 7 ++ js "ms") <= 56) by (vm_compute; lia).
  destruct (@summary_frame_widths unreached
              (Stats.mk 2 1 1 (VString (js "50.00")) 7) H2 H1 H1' Hr Hd)
    as (Ht & Hp & _).
  split; [exact Ht|exact Hp].
Defined.


Lemma terminal_shows_the_plain_lines_witness :
  map visible
    (TerminalReporter.section unreached 1 (VString (js "Compliance")))
  = Reporter.section unreached 1 (VString (js "Compliance")).
Proof.
  apply (proj1 (terminal_shows_the_plain_lines unreached no_text)).
  intros Hin. vm_compute in Hin. intuition discriminate.
Defined.

Lemma legacy_arraysEqual_has_no_guard_witness :
  Legacy.arraysEqual (fun _ => 0) (VArray 0 [Some (VBool true)])
    (VArray 1 [Some (VBool true)])
  = Legacy.Returned true
  /\ Legacy.arraysEqual (fun _ => 0) VNull (VArray 1 []) = Legacy.Raised
  /\ Legacy.arraysEqual (fun _ => 0) (VArray 0 [Some (VString (js "a"))])
       (VString (js "a"))
     = Legacy.Returned true.
Proof.
  destruct (legacy_arraysEqual_has_no_guard (fun _ => 0))
    as (Ha & Hn & _ & Hs).
  split; [|split].
  - apply (Ha 0 1 [Some (VBool true)] [Some (VBool true)]);
      vm_compute; reflexivity.
  - apply (Hn VNull (VArray 1 [])). right. now left.
  - apply (Hs 0 (js "a")). vm_compute. reflexivity.
Defined.

Lemma parseFormat_reads_first_format_argument_witness :
  parseFormat [js "node"; js "suite.js"; js "--format=markdown"; js "--format=ascii"]
  = Some (js "markdown")
  /\ parseFormat [js "node"; js "suite.js"] = Some (js "terminal").
Proof.
  destruct parseFormat_reads_first_format_argument as (_ & Hn & Hf & _).
  split.
  - apply (Hf [js "node"; js "suite.js"] [js "--format=ascii"]
              (js "markdown")).
    intros arg [<-|[<-|[]]]; reflexivity.
  - apply Hn. intros arg [<-|[<-|[]]]; reflexivity.
Defined.

Lemma reporter_of_new_suite_witness :
  reporter (new (js "suite") (Options.mk None None None)
              [js "node"; js "suite.js"; js "--format=markdown"] 0)
  = Markdown
  /\ reporter (new (js "suite") (Options.mk None (Some (js "ascii")) None)
                 [js "node"; js "suite.js"; js "--format=markdown"] 0)
     = PlainReporter.
Proof.
  destruct (reporter_of_new_suite (js "suite") None
              [js "node"; js "suite.js"; js "--format=markdown"] 0)
    as (_ & Hf & _ & Ha & _).
  split.
  - apply (Ha [js "node"; js "suite.js"] [] (js "markdown"));
      [|reflexivity].
    intros arg [<-|[<-|[]]]; reflexivity.
  - apply Hf.
Defined.

Lemma code_label_and_language_witness :
  let m := Reporter.Build_metadata (js "UNCLASSIFIED") (js "PTF-1984-001")
             (js "1984-01-01") (js "12:00:00") in
  List.length
    (report unreached no_text unreached PlainReporter m
       (CallCode (js "javascript") (js " f() ") (Some (js "INPUT"))))
  = List.length
      (report unreached no_text unreached PlainReporter m
         (CallCode (js "javascript") (js " f() ") None)) + 2
  /\ report unreached no_text unreached Markdown m
       (CallCode (js "javascript") (js " f() ") (Some (js "INPUT")))
     = [ js "**INPUT**"; []; js "```javascript"; js "f()"; js "```"; [] ]
  /\ report unreached no_text unreached PlainReporter m
       (CallCode (js "javascript") (js " f() ") (Some (js "INPUT")))
     = [ BOX_DOWN_RIGHT :: BOX_HORIZONTAL :: js "[ INPUT ]"
           ++ repeat BOX_HORIZONTAL 69;
         js "f()";
         BOX_UP_RIGHT :: repeat BOX_HORIZONTAL 79;
         [] ].
Proof.
  cbv zeta. split; [|split].
  - apply (proj1 (proj2 (code_label_and_language unreached no_text
                           unreached PlainReporter _ (js "javascript")
                           (js " f() ")))).
    discriminate.
  - exact (proj2 (proj2 (proj2 (proj2
             (code_label_and_language unreached no_text unreached Markdown
                (Reporter.Build_metadata (js "UNCLASSIFIED")
                   (js "PTF-1984-001") (js "1984-01-01") (js "12:00:00"))
                (js "javascript") (js " f() ")))))
             (Some (js "INPUT"))).
  - exact (proj2 (proj2 (proj2 (proj2
             (code_label_and_language unreached no_text unreached
                PlainReporter
                (Reporter.Build_metadata (js "UNCLASSIFIED")
                   (js "PTF-1984-001") (js "1984-01-01") (js "12:00:00"))
                (js "javascript") (js " f() ")))))
             (Some (js "INPUT"))).
Defined.

Lemma failureDetails_lines_witness :
  let m := Reporter.Build_metadata (js "UNCLASSIFIED") (js "PTF-1984-001")
             (js "1984-01-01") (js "12:00:00") in
  let failures :=
    [ Result.mk (js "1.2") (VString (js "adds")) (VBool false) VNull VNull
        (VString (js "Values do not match"));
      Result.mk (js "2.1") (VString (js "sorts")) (VBool false) VNull VNull
        VNull ] in
  report unreached no_text unreached PlainReporter m
    (CallFailureDetails failures)
  = [ js "FAILED OPERATIONS REGISTRY:";
      [];
      js "  [1.2] adds";
      js "       Values do not match";
      js "  [2.1] sorts";
      [] ]
  /\ report unreached no_text unreached Markdown m
       (CallFailureDetails failures)
     = [ js "## Failed Operations Registry";
         [];
         js "- **[1.2]** adds";
         js "  - Values do not match";
         js "- **[2.1]** sorts";
         [] ].
Proof.
  cbv zeta. split.
  - exact (proj1 (failureDetails_lines unreached no_text unreached
                    PlainReporter
                    (Reporter.Build_metadata (js "UNCLASSIFIED")
                       (js "PTF-1984-001") (js "1984-01-01")
                       (js "12:00:00"))
                    [ Result.mk (js "1.2") (VString (js "adds"))
                        (VBool false) VNull VNull
                        (VString (js "Values do not match"));
                      Result.mk (js "2.1") (VString (js "sorts"))
                        (VBool false) VNull VNull VNull ])).
  - exact (proj1 (failureDetails_lines unreached no_text unreached
                    Markdown
                    (Reporter.Build_metadata (js "UNCLASSIFIED")
                       (js "PTF-1984-001") (js "1984-01-01")
                       (js "12:00:00"))
                    [ Result.mk (js "1.2") (VString (js "adds"))
                        (VBool false) VNull VNull
                        (VString (js "Values do not match"));
                      Result.mk (js "2.1") (VString (js "sorts"))
                        (VBool false) VNull VNull VNull ])).
Defined.

Lemma reporting_calls_leave_the_suite_unchanged_witness :
  let s := create (js "suite") None Terminal 0 in
  same_suite
    (fst (run unreached unreached no_text
            [DoHeader; DoSubsection (VString (js "first")); DoSummary 3] s))
    s.
Proof.
  cbv zeta.
  apply (@reporting_calls_leave_the_suite_unchanged unreached unreached
           no_text).
  reflexivity.
Defined.

Lemma pass_rate_exact_for_two_decimals_witness :
  passRate unreached 3 8 = VString (js "37.50")
  /\ passRate unreached 8 8 = VString (js "100.00").
Proof.
  assert (H0 : 0 < 8) by lia.
  assert (Hb : (Z.of_nat 8 < 2 ^ 53)%Z) by (vm_compute; reflexivity).
  destruct (@pass_rate_exact_for_two_decimals unreached 8 H0 Hb)
    as (He & Ha & _).
  split; [|exact Ha].
  apply (He 3); [lia|reflexivity].
Defined.

Lemma metadata_of_the_reporter_witness :
  let held := Reporter.constructor (js "1984-01-02") (js "12:00:00")
                (js "PTF-2")
                (metadata (js "1984-01-01") (js "PTF-1") VUndefined
                   (VString (js "DOC-7"))
                   (Some [(js "classification", VNull)])) in
  lookup (js "classification") held = VNull
  /\ lookup (js "documentId") held = VString (js "DOC-7")
  /\ lookup (js "date") held = VString (js "1984-01-01").
Proof.
  cbv zeta.
  assert (Hn : NoDup (map fst [(js "classification", VNull)]))
    by (repeat constructor; intros []).
  pose proof (@metadata_of_the_reporter (js "1984-01-01") (js "PTF-1")
                (js "1984-01-02") (js "12:00:00") (js "PTF-2") VUndefined
                (VString (js "DOC-7")) [(js "classification", VNull)] Hn)
    as H.
  cbv zeta in H. destruct H as (Hk & _ & Hd & Hdate & _).
  split; [exact (Hk (js "classification") eq_refl)|].
  split; [exact (Hd eq_refl)|exact (Hdate eq_refl)].
Defined.

Lemma debug_adds_nothing_to_verbose_witness :
  let a := create (js "suite") (Some DEBUG) Terminal 0 in
  let b := create (js "suite") (Some VERBOSE) Terminal 0 in
  let ops := [ DoHeader; DoTest (VString (js "t1")) (Returns (VBool true));
               DoLog [VString (js "done")] ] in
  equally_loud a b
  /\ calls (fst (run unreached unreached no_text ops a))
     = calls (fst (run unreached unreached no_text ops b)).
Proof.
  cbv zeta.
  assert (Hab : equally_loud (create (js "suite") (Some DEBUG) Terminal 0)
                  (create (js "suite") (Some VERBOSE) Terminal 0)).
  { unfold equally_loud. cbn. repeat split; unfold VERBOSE, DEBUG; lia. }
  split; [exact Hab|].
  destruct (@debug_adds_nothing_to_verbose unreached unreached no_text
              [ DoHeader; DoTest (VString (js "t1")) (Returns (VBool true));
                DoLog [VString (js "done")] ] _ _ Hab)
    as ((_ & _ & _ & _ & _ & _ & _ & _ & _ & Hc) & _).
  exact Hc.
Defined.
